(** * Video cleaner: the resumable processing pipeline

    A shallow embedding of the recovery store (recovery_manager.py), the size
    anomaly detector (size_checker.py), the action planner and the analysis
    caches (analyzer.py) and the transcode executor (processor.py), with the
    properties the specification states about them.

    Conventions.
    - Python [int] is [Z]; Python [float] is an exact rational [Q]: the
      properties below only use comparisons (exact on floats) and the
      arithmetic that feeds them.
    - A Python [dict] whose iteration order is observed is an association
      list in insertion order ([Dict]); a dict used only through lookups is
      a [gmap].
    - [datetime.now()] and [time.time()] are read from a [Clock] argument. *)

From Stdlib Require Import ZArith QArith Qabs Bool Ascii Lia Lqa.
From stdpp Require Import gmap strings list pretty.

Local Open Scope Z_scope.

(** ** Insertion-ordered dictionaries *)

Module Dict.
Section Dict.
Context {V : Type}.

Definition t := list (string * V).

Fixpoint get (k : string) (d : t) : option V :=
  match d with
  | [] => None
  | (k', v) :: d' => if String.eqb k k' then Some v else get k d'
  end.

(** [d[k] = v]: an existing key keeps its position, a new key goes last. *)
Fixpoint set (k : string) (v : V) (d : t) : t :=
  match d with
  | [] => [(k, v)]
  | (k', v') :: d' =>
      if String.eqb k k' then (k', v) :: d' else (k', v') :: set k v d'
  end.

Definition mem (k : string) (d : t) : bool :=
  match get k d with Some _ => true | None => false end.

Definition keys (d : t) : list string := map fst d.

Fixpoint del (k : string) (d : t) : t :=
  match d with
  | [] => []
  | (k', v) :: d' => if String.eqb k k' then d' else (k', v) :: del k d'
  end.

End Dict.
Arguments t : clear implicits.
End Dict.

(** ** Clock and Python truthiness *)

(** One reading of the system clock: [time.time()], [datetime.now().isoformat()]
    and [datetime.now().strftime('%Y%m%d_%H%M%S')]. *)
Record Clock := { wall : Q; iso : string; stamp : string }.

Definition truthy_str (o : option string) : bool :=
  match o with
  | Some s => negb (String.eqb s "")
  | None => false
  end.

Definition truthy_int (o : option Z) : bool :=
  match o with
  | Some n => negb (n =? 0)
  | None => false
  end.

Definition Qltb (x y : Q) : bool := negb (Qle_bool y x).

(** ** recovery_manager.py *)

Module Recovery.

Inductive FileState :=
  PENDING | IN_PROGRESS | COMPLETED | FAILED | CORRUPTED | SKIPPED | RB_MARKED.

Definition FileState_eqb (a b : FileState) : bool :=
  match a, b with
  | PENDING, PENDING | IN_PROGRESS, IN_PROGRESS | COMPLETED, COMPLETED
  | FAILED, FAILED | CORRUPTED, CORRUPTED | SKIPPED, SKIPPED
  | RB_MARKED, RB_MARKED => true
  | _, _ => false
  end.

Record FileInfo := {
  state : FileState;
  added_time : string;
  last_update : string;
  attempts : Z;
  error_message : option string;
  processing_time : Q;
  original_size : option Z;
  processed_size : option Z;
  space_saved : Z
}.

Record SessionInfo := {
  session_id : option string;
  start_time : option string;
  session_last_update : option string;
  processing_mode : option string;
  directory_path : option string;
  total_files_found : Z;
  session_completed : bool;
  interrupted : bool
}.

Record Statistics := {
  files_pending : Z;
  files_in_progress : Z;
  files_completed : Z;
  files_failed : Z;
  files_corrupted : Z;
  files_skipped : Z;
  files_rb_marked : Z;
  total_space_saved : Z;
  total_processing_time : Q
}.

Record ErrorEntry := { err_timestamp : string; err_file : string; err_error : string }.

Record Checkpoint := {
  cp_timestamp : string;
  cp_name : string;
  statistics_snapshot : Statistics
}.

(** [self.state] *)
Record State := {
  session_info : SessionInfo;
  file_states : Dict.t FileInfo;
  statistics : Statistics;
  error_log : list ErrorEntry;
  config_snapshot : list (string * string);
  recovery_checkpoints : list Checkpoint
}.

(** What a file on disk holds: a finished [json.dump] of a state, or the
    first [n] chunks of one that was interrupted.  [json.load] fails on the
    latter: the closing brace of the top-level object is written last. *)
Inductive FileContent :=
  | Complete (s : State)
  | Truncated (s : State) (n : nat).

(** [state_file_path] and its [.json.bak] sibling. *)
Record Disk := { state_file : option FileContent; backup_file : option FileContent }.

Record Manager := {
  self_state : State;
  last_save_time : Q;
  config_manager : option (list (string * string));
  disk : Disk
}.

Definition auto_save_interval : Q := 30.

Definition empty_statistics (pending : Z) : Statistics :=
  {| files_pending := pending; files_in_progress := 0; files_completed := 0;
     files_failed := 0; files_corrupted := 0; files_skipped := 0;
     files_rb_marked := 0; total_space_saved := 0; total_processing_time := 0 |}.

(** The state [__init__] builds before loading. *)
Definition initial_state : State :=
  {| session_info :=
       {| session_id := None; start_time := None; session_last_update := None;
          processing_mode := None; directory_path := None;
          total_files_found := 0; session_completed := false;
          interrupted := false |};
     file_states := [];
     statistics := empty_statistics 0;
     error_log := [];
     config_snapshot := [];
     recovery_checkpoints := [] |}.

Definition new_file_info (clk : Clock) : FileInfo :=
  {| state := PENDING; added_time := iso clk; last_update := iso clk;
     attempts := 0; error_message := None; processing_time := 0;
     original_size := None; processed_size := None; space_saved := 0 |}.

Definition with_state (s : State) (m : Manager) : Manager :=
  {| self_state := s; last_save_time := last_save_time m;
     config_manager := config_manager m; disk := disk m |}.

(** [_save_state], run to completion: the existing state file is renamed to
    the backup, then the state is written fresh.  The rename is the POSIX
    one, which replaces an existing backup; input/output errors, which the
    method logs and swallows, are left out. *)
Definition _save_state (m : Manager) (clk : Clock) : Manager :=
  let d := disk m in
  let bak := match state_file d with
             | Some c => Some c
             | None => backup_file d
             end in
  {| self_state := self_state m;
     last_save_time := wall clk;
     config_manager := config_manager m;
     disk := {| state_file := Some (Complete (self_state m)); backup_file := bak |} |}.

(** [_save_state] instant by instant: the disk before the call, after the
    rename, after [open(.., 'w')] has truncated the state file and after each
    of the [writes] chunks [json.dump] emits before its last one, and after
    the last chunk. *)
Definition save_trace (d : Disk) (s : State) (writes : nat) : list Disk :=
  let renamed :=
    match state_file d with
    | Some c => {| state_file := None; backup_file := Some c |}
    | None => d
    end in
  let writing n :=
    {| state_file := Some (Truncated s n); backup_file := backup_file renamed |} in
  [d; renamed] ++ map writing (seq 0 (S writes))
    ++ [{| state_file := Some (Complete s); backup_file := backup_file renamed |}].

(** [json.load] of a file. *)
Definition parse (c : option FileContent) : option State :=
  match c with
  | Some (Complete s) => Some s
  | _ => None
  end.

(** [_load_state]: only the state file is read; a file that does not parse
    leaves the initial state in place.  A saved state has every top-level
    key, so [self.state.update(loaded_state)] replaces the whole state. *)
Definition _load_state (m : Manager) : Manager :=
  match parse (state_file (disk m)) with
  | Some s => with_state s m
  | None => m
  end.

(** [RecoveryManager(state_file_path, config_manager=...)] *)
Definition init (d : Disk) (cfg : option (list (string * string))) (clk : Clock) : Manager :=
  let m := _load_state {| self_state := initial_state; last_save_time := 0;
                          config_manager := cfg; disk := d |} in
  {| self_state := self_state m; last_save_time := wall clk;
     config_manager := cfg; disk := d |}.

Definition with_session_info (si : SessionInfo) (s : State) : State :=
  {| session_info := si; file_states := file_states s;
     statistics := statistics s; error_log := error_log s;
     config_snapshot := config_snapshot s;
     recovery_checkpoints := recovery_checkpoints s |}.

Definition touch_session (clk : Clock) (si : SessionInfo) : SessionInfo :=
  {| session_id := session_id si; start_time := start_time si;
     session_last_update := Some (iso clk);
     processing_mode := processing_mode si;
     directory_path := directory_path si;
     total_files_found := total_files_found si;
     session_completed := session_completed si;
     interrupted := interrupted si |}.

(** The counter of one state, and adding to it. *)
Definition counter (fs : FileState) (st : Statistics) : Z :=
  match fs with
  | PENDING => files_pending st
  | IN_PROGRESS => files_in_progress st
  | COMPLETED => files_completed st
  | FAILED => files_failed st
  | CORRUPTED => files_corrupted st
  | SKIPPED => files_skipped st
  | RB_MARKED => files_rb_marked st
  end.

(** One [if / elif] chain of [_update_statistics]: the counter of [fs]
    moves by [d], the others stay. *)
Definition bump (fs : FileState) (d : Z) (st : Statistics) : Statistics :=
  let f s' := if FileState_eqb fs s' then counter s' st + d else counter s' st in
  {| files_pending := f PENDING; files_in_progress := f IN_PROGRESS;
     files_completed := f COMPLETED; files_failed := f FAILED;
     files_corrupted := f CORRUPTED; files_skipped := f SKIPPED;
     files_rb_marked := f RB_MARKED;
     total_space_saved := total_space_saved st;
     total_processing_time := total_processing_time st |}.

Definition _update_statistics (old_state new_state : FileState) (st : Statistics)
  : Statistics :=
  bump new_state 1 (bump old_state (-1) st).

(** [file_states] built by the loop of [start_session]. *)
Definition register_files (file_list : list string) (clk : Clock) : Dict.t FileInfo :=
  fold_left (fun d f => Dict.set f (new_file_info clk) d) file_list [].

Definition start_session (m : Manager) (mode directory : string)
    (file_list : list string) (clk : Clock) : Manager * string :=
  let sid := (mode +:+ "_" +:+ stamp clk)%string in
  let n := Z.of_nat (length file_list) in
  let s :=
    {| session_info :=
         {| session_id := Some sid; start_time := Some (iso clk);
            session_last_update := Some (iso clk);
            processing_mode := Some mode; directory_path := Some directory;
            total_files_found := n; session_completed := false;
            interrupted := false |};
       file_states := register_files file_list clk;
       statistics := empty_statistics n;
       error_log := [];
       config_snapshot :=
         match config_manager m with
         | Some snap => snap
         | None => config_snapshot (self_state m)
         end;
       recovery_checkpoints := [] |} in
  (_save_state (with_state s m) clk, sid).

Definition update_file_state (m : Manager) (file_path : string)
    (new_state : FileState) (error_msg : option string) (ptime : Q)
    (orig_size proc_size : option Z) (clk : Clock) : Manager :=
  let s := self_state m in
  let tracked :=
    if Dict.mem file_path (file_states s) then file_states s
    else Dict.set file_path (new_file_info clk) (file_states s) in
  let file_info :=
    match Dict.get file_path tracked with
    | Some fi => fi
    | None => new_file_info clk
    end in
  let old_state := state file_info in
  let failed := truthy_str error_msg in
  let file_info' :=
    {| state := new_state;
       added_time := added_time file_info;
       last_update := iso clk;
       attempts := if failed then attempts file_info + 1 else attempts file_info;
       error_message := if failed then error_msg else error_message file_info;
       processing_time := (processing_time file_info + ptime)%Q;
       original_size :=
         match orig_size with Some _ => orig_size | None => original_size file_info end;
       processed_size :=
         match proc_size with Some _ => proc_size | None => processed_size file_info end;
       space_saved :=
         match proc_size, orig_size with
         | Some p, Some o =>
             if negb (o =? 0) && (p <? o) then o - p else space_saved file_info
         | _, _ => space_saved file_info
         end |} in
  let s' :=
    {| session_info := touch_session clk (session_info s);
       file_states := Dict.set file_path file_info' tracked;
       statistics := _update_statistics old_state new_state (statistics s);
       error_log := error_log s;
       config_snapshot := config_snapshot s;
       recovery_checkpoints := recovery_checkpoints s |} in
  let m' := with_state s' m in
  if Qltb auto_save_interval (wall clk - last_save_time m)%Q
  then _save_state m' clk else m'.

Definition mark_file_in_progress (m : Manager) (file_path : string) (clk : Clock) :=
  update_file_state m file_path IN_PROGRESS None 0 None None clk.

Definition mark_file_completed (m : Manager) (file_path : string) (ptime : Q)
    (orig_size proc_size : option Z) (clk : Clock) :=
  update_file_state m file_path COMPLETED None ptime orig_size proc_size clk.

Definition mark_file_failed (m : Manager) (file_path error_msg : string)
    (ptime : Q) (clk : Clock) : Manager :=
  let m' := update_file_state m file_path FAILED (Some error_msg) ptime None None clk in
  let s := self_state m' in
  with_state
    {| session_info := session_info s; file_states := file_states s;
       statistics := statistics s;
       error_log := error_log s ++
         [{| err_timestamp := iso clk; err_file := file_path; err_error := error_msg |}];
       config_snapshot := config_snapshot s;
       recovery_checkpoints := recovery_checkpoints s |} m'.

Definition mark_file_corrupted (m : Manager) (file_path error_msg : string) (clk : Clock) :=
  update_file_state m file_path CORRUPTED (Some error_msg) 0 None None clk.

Definition mark_file_rb (m : Manager) (file_path reason : string) (clk : Clock) :=
  update_file_state m file_path RB_MARKED (Some reason) 0 None None clk.

Definition mark_file_skipped (m : Manager) (file_path reason : string) (clk : Clock) :=
  update_file_state m file_path SKIPPED (Some reason) 0 None None clk.

Definition get_pending_files (m : Manager) : list string :=
  map fst (List.filter (fun kv => FileState_eqb (state (snd kv)) PENDING)
                  (file_states (self_state m))).

Definition can_resume_session (m : Manager) : bool :=
  let si := session_info (self_state m) in
  if negb (truthy_str (session_id si)) || session_completed si then false
  else (0 <? files_pending (statistics (self_state m)))
       || (0 <? files_in_progress (statistics (self_state m))).

Definition complete_session (m : Manager) (clk : Clock) : Manager :=
  let s := self_state m in
  let si := session_info s in
  let si' :=
    {| session_id := session_id si; start_time := start_time si;
       session_last_update := Some (iso clk);
       processing_mode := processing_mode si;
       directory_path := directory_path si;
       total_files_found := total_files_found si;
       session_completed := true; interrupted := interrupted si |} in
  _save_state (with_state (with_session_info si' s) m) clk.

Definition create_checkpoint (m : Manager) (checkpoint_name : option string)
    (clk : Clock) : Manager :=
  let s := self_state m in
  let name :=
    if truthy_str checkpoint_name then default ""%string checkpoint_name
    else ("auto_checkpoint_" +:+ pretty (length (recovery_checkpoints s) + 1)%nat)%string in
  let checkpoint :=
    {| cp_timestamp := iso clk; cp_name := name;
       statistics_snapshot := statistics s |} in
  let s' :=
    {| session_info := session_info s; file_states := file_states s;
       statistics := statistics s; error_log := error_log s;
       config_snapshot := config_snapshot s;
       recovery_checkpoints := recovery_checkpoints s ++ [checkpoint] |} in
  _save_state (with_state s' m) clk.

Definition sum_counters (st : Statistics) : Z :=
  files_pending st + files_in_progress st + files_completed st
  + files_failed st + files_corrupted st + files_skipped st + files_rb_marked st.

End Recovery.

(** ** video_cleaner.py: [VideoCleanerApp.run_processing] *)

Module App.
Import Recovery.

(** What [processor.process_file] hands back: a result dictionary (its
    ['status'], ['message'] and ['output_size'] entries) or an exception. *)
Inductive Outcome :=
  | Result (status : string) (message : option string) (output_size : option Z)
  | Raised (text : string).

Definition in_strs (s : string) (l : list string) : bool :=
  existsb (String.eqb s) l.

(** The recovery bookkeeping of one iteration of the processing loop. *)
Definition process_one (process_file : string -> Outcome) (size_of : string -> Z)
    (m : Manager) (file_path : string) (before after : Clock) : Manager :=
  let m1 := mark_file_in_progress m file_path before in
  let original := size_of file_path in
  let elapsed := (wall after - wall before)%Q in
  match process_file file_path with
  | Result status message output_size =>
      if in_strs status ["success"; "completed"]%string then
        let processed := match output_size with Some z => z | None => original end in
        mark_file_completed m1 file_path elapsed (Some original) (Some processed) after
      else if in_strs status ["skipped"; "blocked"]%string then
        mark_file_skipped m1 file_path
          (match message with Some t => t | None => "Unknown reason"%string end) after
      else
        mark_file_failed m1 file_path
          (match message with Some t => t | None => "Unknown error"%string end)
          elapsed after
  | Raised text =>
      mark_file_failed m1 file_path ("Exception: " +:+ text)%string elapsed after
  end.

(** The loop over [video_files]; [tick] numbers the clock readings.  The
    second component lists the files attempted, in order. *)
Fixpoint process_loop (process_file : string -> Outcome) (size_of : string -> Z)
    (tick : nat -> Clock) (i : nat) (m : Manager) (video_files : list string)
  : Manager * list string :=
  match video_files with
  | [] => (m, [])
  | f :: rest =>
      let m' := process_one process_file size_of m f (tick i) (tick (S i)) in
      let '(m'', done) :=
        process_loop process_file size_of tick (S (S i)) m' rest in
      (m'', f :: done)
  end.

(** Lines 936-949: the session is started, then the resume test selects the
    files to process. *)
Definition select_files (m : Manager) (mode directory : string)
    (video_files : list string) (clk : Clock) : Manager * string * list string :=
  let '(m1, sid) := start_session m mode directory video_files clk in
  if can_resume_session m1 then (m1, sid, get_pending_files m1)
  else (m1, sid, video_files).

(** [run_processing] after the confirmation prompt, for a freshly built
    recovery manager over the disk [d].  [killed_after = Some k] stops the
    process after [k] files, before the session is completed. *)
Definition run_processing (d : Disk) (cfg : option (list (string * string)))
    (mode directory : string) (video_files : list string)
    (process_file : string -> Outcome) (size_of : string -> Z)
    (tick : nat -> Clock) (killed_after : option nat)
  : Manager * option string * list string :=
  let m0 := init d cfg (tick 0%nat) in
  match video_files with
  | [] => (m0, None, [])
  | _ =>
      let '(m1, sid, todo) := select_files m0 mode directory video_files (tick 1%nat) in
      match killed_after with
      | Some k =>
          let '(m2, done) :=
            process_loop process_file size_of tick 2 m1 (firstn k todo) in
          (m2, Some sid, done)
      | None =>
          let '(m2, done) := process_loop process_file size_of tick 2 m1 todo in
          (complete_session m2 (tick (2 + 2 * length todo)%nat), Some sid, done)
      end
  end.

End App.

(** ** Call sequences on the recovery manager *)

Module Calls.
Import Recovery.

(** One call of the public state-changing interface. *)
Inductive Call :=
  | UpdateFileState (file_path : string) (new_state : FileState)
      (error_msg : option string) (ptime : Q) (orig_size proc_size : option Z)
  | MarkInProgress (file_path : string)
  | MarkCompleted (file_path : string) (ptime : Q) (orig_size proc_size : option Z)
  | MarkFailed (file_path error_msg : string) (ptime : Q)
  | MarkCorrupted (file_path error_msg : string)
  | MarkRb (file_path reason : string)
  | MarkSkipped (file_path reason : string).

Definition perform (m : Manager) (c : Call * Clock) : Manager :=
  let clk := snd c in
  match fst c with
  | UpdateFileState f ns e t o p => update_file_state m f ns e t o p clk
  | MarkInProgress f => mark_file_in_progress m f clk
  | MarkCompleted f t o p => mark_file_completed m f t o p clk
  | MarkFailed f e t => mark_file_failed m f e t clk
  | MarkCorrupted f e => mark_file_corrupted m f e clk
  | MarkRb f r => mark_file_rb m f r clk
  | MarkSkipped f r => mark_file_skipped m f r clk
  end.

Definition perform_all (m : Manager) (cs : list (Call * Clock)) : Manager :=
  fold_left perform cs m.

(** The counters add up to the session's file count. *)
Definition balanced (m : Manager) : Prop :=
  sum_counters (statistics (self_state m))
  = total_files_found (session_info (self_state m)).

(** One of the state file and its backup is a complete snapshot of [s]. *)
Definition has_snapshot_of (s : State) (d : Disk) : Prop :=
  parse (state_file d) = Some s \/ parse (backup_file d) = Some s.

(** Neither file parses. *)
Definition no_snapshot (d : Disk) : Prop :=
  parse (state_file d) = None /\ parse (backup_file d) = None.

End Calls.

(** ** A resume scenario *)

Module Scenario.
Import Recovery App.

(** Clock readings 100 seconds apart, so every update is flushed to disk. *)
Definition tick (day : string) (i : nat) : Clock :=
  {| wall := inject_Z (100 * Z.of_nat i);
     iso := (day +:+ "T" +:+ pretty i)%string;
     stamp := (day +:+ "_" +:+ pretty i)%string |}.

Definition files : list string := ["/v/a.mkv"; "/v/b.mkv"; "/v/c.mkv"]%string.

Definition always_ok (f : string) : Outcome := Result "success" None None.

Definition no_disk : Disk := {| state_file := None; backup_file := None |}.

(** First run: killed after the first file has been completed. *)
Definition first_run :=
  run_processing no_disk None "tv" "/v" files always_ok (fun _ => 700) (tick "20240101")
    (Some 1%nat).

(** Second run over the same directory, from the disk the first run left. *)
Definition second_run :=
  run_processing (disk (fst (fst first_run))) None "tv" "/v" files always_ok
    (fun _ => 700) (tick "20240102") None.

End Scenario.

(** ** size_checker.py *)

Module SizeChecker.
Local Open Scope Q_scope.

(** The attributes [VideoSizeChecker.__init__] reads from the configuration.
    The four size standards are [None] when the configured value is not a
    number (JSON [null]): multiplying it raises [TypeError]. *)
Record Settings := {
  tv_enable_checking : bool;
  tv_max_multiplier : Q;
  tv_min_multiplier : Q;
  tv_warning_threshold : Q;
  tv_consistency_checking : bool;
  tv_episode_cache_size : Z;
  movie_enable_checking : bool;
  movie_max_multiplier : Q;
  movie_min_multiplier : Q;
  movie_warning_threshold : Q;
  movie_consistency_checking : bool;
  tv_duration_minutes : option Q;
  tv_mb_per_minute : option Q;
  movie_duration_minutes : option Q;
  movie_mb_per_minute : option Q;
  cache_patterns : bool;
  auto_mark_rb : bool
}.

(** The fallback defaults of [__init__]. *)
Definition default_settings : Settings :=
  {| tv_enable_checking := true; tv_max_multiplier := 2.5;
     tv_min_multiplier := 0.3; tv_warning_threshold := 1.5;
     tv_consistency_checking := true; tv_episode_cache_size := 10;
     movie_enable_checking := true; movie_max_multiplier := 3;
     movie_min_multiplier := 0.2; movie_warning_threshold := 2;
     movie_consistency_checking := false;
     tv_duration_minutes := Some 43; tv_mb_per_minute := Some 12;
     movie_duration_minutes := Some 120; movie_mb_per_minute := Some 14;
     cache_patterns := true; auto_mark_rb := true |}.

Definition quality_multipliers : Dict.t Q :=
  [("480p", 0.5); ("720p", 1); ("1080p", 2); ("4k", 4); ("unknown", 1)]%string.

Definition codec_multipliers : Dict.t Q :=
  [("h264", 1); ("h265", 0.6); ("hevc", 0.6); ("mpeg4", 1.4); ("xvid", 1.2);
   ("avi", 1.5); ("unknown", 1)]%string.

(** The dictionary [_analyze_filename] returns. *)
Record ContentAnalysis := {
  quality : string;
  codec : string;
  duration_category : string;
  is_tv_episode : bool;
  season : option Z;
  episode : option Z;
  show_name : option string
}.

(** [self.episode_cache]: show name to the window of recent sizes (MB).  The
    ['last_updated'] entry is written once and never read. *)
Abbreviation EpisodeCache := (gmap string (list Q)).

(** [max(a, b)] of Python: the first argument unless the second is greater. *)
Definition py_max (a b : Q) : Q := if Qltb a b then b else a.

Definition dict_get_default (d : Dict.t Q) (k : string) (dflt : Q) : Q :=
  match Dict.get k d with Some v => v | None => dflt end.

Definition _calculate_expected_size (self : Settings) (content_analysis : ContentAnalysis)
    (mode : string) : Q :=
  let '(base_minutes, mb_per_minute) :=
    if String.eqb mode "tv"
    then (tv_duration_minutes self, tv_mb_per_minute self)
    else (movie_duration_minutes self, movie_mb_per_minute self) in
  match base_minutes, mb_per_minute with
  | Some minutes, Some rate =>
      let base_size := minutes * rate in
      let quality_multiplier :=
        dict_get_default quality_multipliers (quality content_analysis) 1 in
      let codec_multiplier :=
        dict_get_default codec_multipliers (codec content_analysis) 1 in
      let expected_size := base_size * quality_multiplier * codec_multiplier in
      py_max expected_size 50
  | _, _ => 200
  end.

(** [file_size_mb / expected_size if expected_size > 0 else 0] *)
Definition size_ratio_of (file_size_mb expected_size : Q) : Q :=
  if Qltb 0 expected_size then file_size_mb / expected_size else 0.

(** [xs[-n:]] *)
Definition py_last (n : Z) {A} (xs : list A) : list A :=
  if (0 <? n)%Z then skipn (length xs - Z.to_nat n) xs
  else skipn (Z.to_nat (- n)) xs.

Definition Qsum (xs : list Q) : Q := fold_left Qplus xs 0.

(** [statistics.mean] *)
Definition mean (xs : list Q) : Q := Qsum xs / inject_Z (Z.of_nat (length xs)).

Record Consistency := {
  is_inconsistent : bool;
  c_reason : string;
  c_severity : string
}.

Definition consistent : Consistency :=
  {| is_inconsistent := false; c_reason := ""; c_severity := "normal" |}.

(** The result dictionary of [_evaluate_size_ratio]. *)
Record Verdict := {
  is_abnormal : bool;
  severity : string;
  reason : string;
  recommendation : string;
  size_ratio : Q;
  threshold_max : Q;
  threshold_min : Q;
  threshold_warning : Q
}.

Section Formatting.
(** [f"{x:.0f}"] *)
Variable fmt0 : Q -> string.

Definition _check_episode_consistency (self : Settings) (episode_cache : EpisodeCache)
    (analysis : ContentAnalysis) (actual_mb : Q) : Consistency * EpisodeCache :=
  match show_name analysis with
  | Some show =>
      if String.eqb show "" || negb (cache_patterns self)
      then (consistent, episode_cache)
      else
        let before := default [] (episode_cache !! show) in
        let appended := before ++ [actual_mb] in
        let max_episodes := tv_episode_cache_size self in
        let window :=
          if (max_episodes <? Z.of_nat (length appended))%Z
          then py_last max_episodes appended else appended in
        let cache' := <[show := window]> episode_cache in
        if (length window <? 3)%nat then (consistent, cache')
        else
          let sizes := removelast window in
          let mean_size := mean sizes in
          if (1 <? length sizes)%nat then
            let threshold := tv_warning_threshold self in
            let deviation :=
              if Qltb 0 mean_size then Qabs (actual_mb - mean_size) / mean_size
              else 0 in
            if Qltb threshold deviation then
              let percentage_diff := deviation * 100 in
              ({| is_inconsistent := true;
                  c_reason := ("inconsistent with other episodes ("
                               +:+ fmt0 percentage_diff +:+ "% different)")%string;
                  c_severity := if Qltb deviation 2 then "warning" else "critical" |},
               cache')
            else (consistent, cache')
          else (consistent, cache')
  | None => (consistent, episode_cache)
  end.

(** The four thresholds settings of a mode. *)
Definition thresholds (self : Settings) (mode : string) : Q * Q * Q * bool :=
  if String.eqb mode "tv"
  then (tv_max_multiplier self, tv_min_multiplier self,
        tv_warning_threshold self, tv_consistency_checking self)
  else (movie_max_multiplier self, movie_min_multiplier self,
        movie_warning_threshold self, movie_consistency_checking self).

(** Lines 301-327 of [_evaluate_size_ratio]: the verdict of the thresholds,
    before the episode-consistency step. *)
Definition threshold_verdict (self : Settings) (ratio : Q) (mode : string) : Verdict :=
  let '(max_multiplier, min_multiplier, warning_threshold, _) := thresholds self mode in
  let mk abnormal sev rsn rec :=
    {| is_abnormal := abnormal; severity := sev; reason := rsn;
       recommendation := rec; size_ratio := ratio;
       threshold_max := max_multiplier; threshold_min := min_multiplier;
       threshold_warning := warning_threshold |} in
  if Qltb max_multiplier ratio then
    mk true "critical"%string
       (fmt0 ((ratio - 1) * 100) +:+ "% over expected size threshold")%string
       (if auto_mark_rb self then "mark_rb" else "review")%string
  else if Qltb warning_threshold ratio then
    mk true "warning"%string
       (fmt0 ((ratio - 1) * 100) +:+ "% larger than expected")%string
       "review"%string
  else if Qltb ratio min_multiplier then
    mk true "critical"%string
       (fmt0 ((1 - ratio) * 100) +:+ "% smaller than expected (possible corruption)")%string
       (if auto_mark_rb self then "mark_rb" else "review")%string
  else
    mk false "normal"%string "File size within expected parameters"%string
       "proceed"%string.

Definition _evaluate_size_ratio (self : Settings) (episode_cache : EpisodeCache)
    (ratio actual_mb expected_mb : Q) (analysis : ContentAnalysis) (mode : string)
  : Verdict * EpisodeCache :=
  let '(_, _, _, consistency_checking) := thresholds self mode in
  let base := threshold_verdict self ratio mode in
  if String.eqb mode "tv" && is_tv_episode analysis && consistency_checking then
    let '(consistency_result, cache') :=
      _check_episode_consistency self episode_cache analysis actual_mb in
    if is_inconsistent consistency_result then
      ({| is_abnormal := true;
          severity := if String.eqb (severity base) "normal"
                      then c_severity consistency_result else severity base;
          reason := (reason base +:+ " + " +:+ c_reason consistency_result)%string;
          recommendation := recommendation base;
          size_ratio := size_ratio base;
          threshold_max := threshold_max base;
          threshold_min := threshold_min base;
          threshold_warning := threshold_warning base |}, cache')
    else (base, cache')
  else (base, episode_cache).

(** The regular-expression heuristics of [_analyze_filename] are outside the
    specified core: the function is taken as given. *)
Variable _analyze_filename : string -> string -> ContentAnalysis.

(** The result dictionary of [check_file_size]. *)
Record SizeResult := {
  r_is_abnormal : bool;
  r_error : bool;
  r_reason : string;
  r_recommendation : string;
  r_severity : string;
  r_size_ratio : option Q;
  r_expected_size_mb : option Q
}.

Definition _create_error_result (error_message : string) : SizeResult :=
  {| r_is_abnormal := false; r_error := true; r_reason := error_message;
     r_recommendation := "skip"; r_severity := "error";
     r_size_ratio := None; r_expected_size_mb := None |}.

Definition _create_normal_result (message : string) : SizeResult :=
  {| r_is_abnormal := false; r_error := false; r_reason := message;
     r_recommendation := "proceed"; r_severity := "normal";
     r_size_ratio := None; r_expected_size_mb := None |}.

(** [check_file_size]; [st_size] is the size in bytes of the file at
    [file_path], [None] when it does not exist, [filename] its last
    component. *)
Definition check_file_size (self : Settings) (episode_cache : EpisodeCache)
    (st_size : option Z) (filename : string) (processing_mode : string)
  : SizeResult * EpisodeCache :=
  match st_size with
  | None => (_create_error_result "File not found", episode_cache)
  | Some file_size_bytes =>
      if String.eqb processing_mode "tv" && negb (tv_enable_checking self) then
        (_create_normal_result "TV size checking disabled", episode_cache)
      else if String.eqb processing_mode "movie" && negb (movie_enable_checking self) then
        (_create_normal_result "Movie size checking disabled", episode_cache)
      else
        let file_size_mb := inject_Z file_size_bytes / inject_Z (1024 * 1024) in
        let content_analysis := _analyze_filename filename processing_mode in
        let expected_size := _calculate_expected_size self content_analysis processing_mode in
        let ratio := size_ratio_of file_size_mb expected_size in
        let '(v, cache') :=
          _evaluate_size_ratio self episode_cache ratio file_size_mb expected_size
            content_analysis processing_mode in
        ({| r_is_abnormal := is_abnormal v; r_error := false;
            r_reason := reason v; r_recommendation := recommendation v;
            r_severity := severity v; r_size_ratio := Some ratio;
            r_expected_size_mb := Some expected_size |}, cache')
  end.

End Formatting.

(** The classification the specification gives for a ratio: severity and
    recommendation, with quarantine realised as ['mark_rb']. *)
Definition spec_classification (max_multiplier warning_threshold min_multiplier ratio : Q)
  : string * string :=
  if Qltb max_multiplier ratio then ("critical", "mark_rb")%string
  else if Qltb warning_threshold ratio then ("warning", "review")%string
  else if Qltb ratio min_multiplier then ("critical", "mark_rb")%string
  else ("normal", "proceed")%string.

End SizeChecker.

(** ** Strings of Python *)

Module PyStr.

(** [str.lower] and [str.upper], on the ASCII letters. *)
Definition lower_char (c : ascii) : ascii :=
  let n := N_of_ascii c in
  if ((65 <=? n) && (n <=? 90))%N then ascii_of_N (n + 32) else c.

Definition upper_char (c : ascii) : ascii :=
  let n := N_of_ascii c in
  if ((97 <=? n) && (n <=? 122))%N then ascii_of_N (n - 32) else c.

Fixpoint map_chars (f : ascii -> ascii) (s : string) : string :=
  match s with
  | EmptyString => EmptyString
  | String c s' => String (f c) (map_chars f s')
  end.

Definition lower : string -> string := map_chars lower_char.
Definition upper : string -> string := map_chars upper_char.

(** [sep.join(parts)] *)
Definition join (sep : string) (parts : list string) : string :=
  String.concat sep parts.

(** [Path(p).name] on POSIX paths: what follows the last slash. *)
Fixpoint basename_from (s current : string) : string :=
  match s with
  | EmptyString => current
  | String c s' =>
      if Ascii.eqb c "/" then basename_from s' s' else basename_from s' current
  end.

Definition basename (s : string) : string := basename_from s s.

(** [s] up to its last dot, if it has one. *)
Fixpoint cut_suffix (s : string) : option string :=
  match s with
  | EmptyString => None
  | String c s' =>
      match cut_suffix s' with
      | Some r => Some (String c r)
      | None => if Ascii.eqb c "." then Some EmptyString else None
      end
  end.

(** [Path(p).stem]: the name without its last suffix; a leading dot does
    not start a suffix. *)
Definition stem (p : string) : string :=
  match basename p with
  | EmptyString => EmptyString
  | String c rest =>
      match cut_suffix rest with
      | Some r => String c r
      | None => String c rest
      end
  end.

End PyStr.

(** ** analyzer.py: the action planner *)

Module Planner.

(** An entry of the track lists of an analysis. *)
Record Track := { index : Z; language : option string }.

Inductive Details :=
  | SizeDetails (reason severity : string)
  | ContainerDetails (from_format to_format : string)
  | VideoDetails (from_codec to_codec resolution : string)
  | TrackDetails (track_indices : list Z) (languages : list string) (track_count : nat)
  | NameDetails (current_name : string) (needs_cleaning : bool).

Record Action := {
  type : string;
  action : string;
  description : string;
  priority : string;
  details : Details
}.

(** The analysis dictionary.  A missing entry and the default its readers
    pass to [get] are the same value here, except for the three size entries
    whose defaults differ from one reader to the next. *)
Record Analysis := {
  error : bool;
  error_reason : option string;
  original_format : string;
  container_format : string;
  duration : Q;
  video_codec : string;
  video_resolution : option string;
  english_audio : list Track;
  non_english_audio : list Track;
  english_subtitles : list Track;
  non_english_subtitles : list Track;
  needs_conversion : bool;
  from_cache : bool;
  size_check_performed : bool;
  size_abnormal : bool;
  size_severity : option string;
  size_reason : option string;
  size_recommendation : option string;
  file_path : string;
  file_name : string;
  file_size_bytes : Z;
  analysis_mode : string;
  analysis_timestamp : string;
  config_source : string;
  processing_actions : list Action
}.

Definition get_or {A} (o : option A) (dflt : A) : A :=
  match o with Some x => x | None => dflt end.

(** [analysis['from_cache'] = True] *)
Definition set_from_cache (a : Analysis) : Analysis :=
  {| error := error a; error_reason := error_reason a;
     original_format := original_format a; container_format := container_format a;
     duration := duration a; video_codec := video_codec a;
     video_resolution := video_resolution a; english_audio := english_audio a;
     non_english_audio := non_english_audio a;
     english_subtitles := english_subtitles a;
     non_english_subtitles := non_english_subtitles a;
     needs_conversion := needs_conversion a; from_cache := true;
     size_check_performed := size_check_performed a;
     size_abnormal := size_abnormal a; size_severity := size_severity a;
     size_reason := size_reason a; size_recommendation := size_recommendation a;
     file_path := file_path a; file_name := file_name a;
     file_size_bytes := file_size_bytes a; analysis_mode := analysis_mode a;
     analysis_timestamp := analysis_timestamp a; config_source := config_source a;
     processing_actions := processing_actions a |}.

(** Merging the [size_analysis] entries. *)
Definition set_size (a : Analysis) (performed abnormal : bool)
    (severity reason recommendation : option string) : Analysis :=
  {| error := error a; error_reason := error_reason a;
     original_format := original_format a; container_format := container_format a;
     duration := duration a; video_codec := video_codec a;
     video_resolution := video_resolution a; english_audio := english_audio a;
     non_english_audio := non_english_audio a;
     english_subtitles := english_subtitles a;
     non_english_subtitles := non_english_subtitles a;
     needs_conversion := needs_conversion a; from_cache := from_cache a;
     size_check_performed := performed;
     size_abnormal := abnormal; size_severity := severity;
     size_reason := reason; size_recommendation := recommendation;
     file_path := file_path a; file_name := file_name a;
     file_size_bytes := file_size_bytes a; analysis_mode := analysis_mode a;
     analysis_timestamp := analysis_timestamp a; config_source := config_source a;
     processing_actions := processing_actions a |}.

(** Merging the file entries, the mode, the timestamp and the config source. *)
Definition set_file (a : Analysis) (path name : string) (size : Z)
    (mode timestamp source : string) : Analysis :=
  {| error := error a; error_reason := error_reason a;
     original_format := original_format a; container_format := container_format a;
     duration := duration a; video_codec := video_codec a;
     video_resolution := video_resolution a; english_audio := english_audio a;
     non_english_audio := non_english_audio a;
     english_subtitles := english_subtitles a;
     non_english_subtitles := non_english_subtitles a;
     needs_conversion := needs_conversion a; from_cache := from_cache a;
     size_check_performed := size_check_performed a;
     size_abnormal := size_abnormal a; size_severity := size_severity a;
     size_reason := size_reason a; size_recommendation := size_recommendation a;
     file_path := path; file_name := name;
     file_size_bytes := size; analysis_mode := mode;
     analysis_timestamp := timestamp; config_source := source;
     processing_actions := processing_actions a |}.

(** [complete_analysis['processing_actions'] = processing_actions] *)
Definition set_actions (a : Analysis) (actions : list Action) : Analysis :=
  {| error := error a; error_reason := error_reason a;
     original_format := original_format a; container_format := container_format a;
     duration := duration a; video_codec := video_codec a;
     video_resolution := video_resolution a; english_audio := english_audio a;
     non_english_audio := non_english_audio a;
     english_subtitles := english_subtitles a;
     non_english_subtitles := non_english_subtitles a;
     needs_conversion := needs_conversion a; from_cache := from_cache a;
     size_check_performed := size_check_performed a;
     size_abnormal := size_abnormal a; size_severity := size_severity a;
     size_reason := size_reason a; size_recommendation := size_recommendation a;
     file_path := file_path a; file_name := file_name a;
     file_size_bytes := file_size_bytes a; analysis_mode := analysis_mode a;
     analysis_timestamp := analysis_timestamp a; config_source := config_source a;
     processing_actions := actions |}.

Section Plan.
(** [list(set(xs))]: the distinct elements in the order the set iterates. *)
Variable list_set : list string -> list string.

Definition track_languages (tracks : list Track) : list string :=
  list_set (map (fun t => get_or (language t) "unknown"%string) tracks).

Definition size_actions (analysis : Analysis) : list Action * bool :=
  if size_abnormal analysis then
    let severity := get_or (size_severity analysis) "normal"%string in
    let recommendation := get_or (size_recommendation analysis) "proceed"%string in
    if String.eqb recommendation "mark_rb" then
      ([{| type := "size_protection"; action := "mark_rollback";
           description := ("Mark as .rb - "
                           +:+ get_or (size_reason analysis) "abnormal size")%string;
           priority := "critical";
           details := SizeDetails (get_or (size_reason analysis) "") severity |}], true)
    else if String.eqb recommendation "review" then
      ([{| type := "size_warning"; action := "log_warning";
           description := ("Size warning - "
                           +:+ get_or (size_reason analysis) "unusual size")%string;
           priority := "warning";
           details := SizeDetails (get_or (size_reason analysis) "") severity |}], false)
    else ([], false)
  else ([], false).

Definition container_actions (analysis : Analysis) : list Action :=
  let original_format := PyStr.lower (original_format analysis) in
  if negb (String.eqb original_format "mkv") then
    [{| type := "container_conversion"; action := "convert_container";
        description := ("Convert " +:+ PyStr.upper original_format +:+ " → MKV")%string;
        priority := "high";
        details := ContainerDetails original_format "mkv" |}]
  else [].

Definition video_actions (analysis : Analysis) : list Action :=
  let video_codec := PyStr.lower (video_codec analysis) in
  if negb (String.eqb video_codec "")
     && negb (App.in_strs video_codec ["h265"; "hevc"]%string) then
    [{| type := "video_conversion"; action := "convert_video_codec";
        description := ("Convert " +:+ PyStr.upper video_codec +:+ " → H.265")%string;
        priority := "high";
        details := VideoDetails video_codec "h265"
                     (get_or (video_resolution analysis) "unknown"%string) |}]
  else [].

Definition audio_actions (analysis : Analysis) : list Action :=
  match non_english_audio analysis with
  | [] => []
  | tracks =>
      let languages := track_languages tracks in
      [{| type := "audio_cleanup"; action := "remove_audio_tracks";
          description := ("Remove " +:+ pretty (length tracks)
                          +:+ " non-English audio track(s) ("
                          +:+ PyStr.join ", " languages +:+ ")")%string;
          priority := "medium";
          details := TrackDetails (map index tracks) languages (length tracks) |}]
  end.

Definition subtitle_actions (analysis : Analysis) : list Action :=
  match non_english_subtitles analysis with
  | [] => []
  | tracks =>
      let languages := track_languages tracks in
      [{| type := "subtitle_cleanup"; action := "remove_subtitle_tracks";
          description := ("Remove " +:+ pretty (length tracks)
                          +:+ " non-English subtitle(s) ("
                          +:+ PyStr.join ", " languages +:+ ")")%string;
          priority := "medium";
          details := TrackDetails (map index tracks) languages (length tracks) |}]
  end.

Definition rename_action (analysis : Analysis) : Action :=
  {| type := "filename_standardization"; action := "standardize_filename";
     description := "Standardize filename format"; priority := "low";
     details := NameDetails (file_name analysis) true |}.

(** The [actions] list is extended block by block, in the order of the
    source; the first block may return early. *)
Definition _determine_processing_actions (analysis : Analysis) : list Action :=
  let '(actions, stop) := size_actions analysis in
  if stop then actions
  else actions ++ container_actions analysis ++ video_actions analysis
       ++ audio_actions analysis ++ subtitle_actions analysis
       ++ [rename_action analysis].

End Plan.

(** The plan the specification describes for a file that is not
    quarantined, as action types; the video condition is the one of the
    code (a codec is known and lies outside the target set). *)
Definition spec_plan_types (analysis : Analysis) : list string :=
  (if negb (String.eqb (PyStr.lower (original_format analysis)) "mkv")
   then ["container_conversion"] else [])
  ++ (if negb (String.eqb (PyStr.lower (video_codec analysis)) "")
         && negb (App.in_strs (PyStr.lower (video_codec analysis)) ["h265"; "hevc"])
      then ["video_conversion"] else [])
  ++ (if negb (length (non_english_audio analysis) =? 0)%nat
      then ["audio_cleanup"] else [])
  ++ (if negb (length (non_english_subtitles analysis) =? 0)%nat
      then ["subtitle_cleanup"] else [])
  ++ ["filename_standardization"]%string.

(** An all-default analysis of an MKV file. *)
Definition blank (codec : string) : Analysis :=
  {| error := false; error_reason := None; original_format := "MKV";
     container_format := "MATROSKA"; duration := 0; video_codec := codec;
     video_resolution := None; english_audio := []; non_english_audio := [];
     english_subtitles := []; non_english_subtitles := [];
     needs_conversion := false; from_cache := true;
     size_check_performed := false; size_abnormal := false;
     size_severity := None; size_reason := None; size_recommendation := None;
     file_path := "/v/a.mkv"; file_name := "a.mkv"; file_size_bytes := 0;
     analysis_mode := "processing"; analysis_timestamp := "";
     config_source := "defaults"; processing_actions := [] |}.

(** The same, flagged abnormal with the quarantine recommendation. *)
Definition flagged_mark_rb : Analysis :=
  {| error := false; error_reason := None; original_format := "AVI";
     container_format := "AVI"; duration := 0; video_codec := "h264";
     video_resolution := None; english_audio := [];
     non_english_audio := [{| index := 1; language := Some "french"%string |}];
     english_subtitles := []; non_english_subtitles := [];
     needs_conversion := true; from_cache := true;
     size_check_performed := true; size_abnormal := true;
     size_severity := Some "critical"%string;
     size_reason := Some "88% smaller than expected (possible corruption)"%string;
     size_recommendation := Some "mark_rb"%string;
     file_path := "/v/ep01.avi"; file_name := "ep01.avi"; file_size_bytes := 52428800;
     analysis_mode := "processing"; analysis_timestamp := "";
     config_source := "defaults"; processing_actions := [] |}.


End Planner.

(** ** analyzer.py: probing and the two caches *)

Module Analyzer.
Import Planner.

(** What one run of the external [ffprobe] gives [subprocess.run]: a
    finished process (stderr already stripped), a timeout, or another
    exception. *)
Inductive ProbeRun :=
  | Finished (returncode : Z) (stdout stderr : string)
  | TimedOut
  | Crashed (text : string).

(** The collaborators the analyzer is closed over. *)
Record Env := {
  ProbeData : Type;
  (** [json.loads]: the parsed document or the text of the decode error *)
  json_loads : string -> ProbeData + string;
  (** truth value of a parsed document *)
  truthy : ProbeData -> bool;
  (** [_parse_ffprobe_data], a function of the document and the path *)
  _parse_ffprobe_data : ProbeData -> string -> Analysis;
  (** [hashlib.md5(..).hexdigest()] *)
  md5 : string -> string;
  (** the outcome of the [n]-th invocation of the tool on a command line *)
  ffprobe : nat -> list string -> ProbeRun;
  (** [list(set(..))] *)
  list_set : list string -> list string;
  (** the [:.0f] format and [_analyze_filename] of the size checker *)
  fmt0 : Q -> string;
  _analyze_filename : string -> string -> SizeChecker.ContentAnalysis
}.

(** The value [_cached_ffprobe_analysis] returns. *)
Inductive ProbeResult (E : Env) :=
  | ProbeError (error_message : string)
  | ProbeOk (probe_data : ProbeData E).
Arguments ProbeError {E} _.
Arguments ProbeOk {E} _.

(** The arguments [lru_cache] hashes (the analyzer itself is fixed). *)
Record LruKey := {
  k_file_path_str : string;
  k_cache_key : string;
  k_ffprobe_path : string;
  k_timeout : Z;
  k_output_format : string;
  k_retry_attempts : Z
}.

Definition LruKey_eqb (a b : LruKey) : bool :=
  String.eqb (k_file_path_str a) (k_file_path_str b)
  && String.eqb (k_cache_key a) (k_cache_key b)
  && String.eqb (k_ffprobe_path a) (k_ffprobe_path b)
  && (k_timeout a =? k_timeout b)%Z
  && String.eqb (k_output_format a) (k_output_format b)
  && (k_retry_attempts a =? k_retry_attempts b)%Z.

(** The attributes of a [VideoAnalyzer] the analysis path reads or writes,
    with the store of the [lru_cache] decorator. *)
Record Analyzer (E : Env) := {
  cache_results : bool;
  analysis_cache : option (Dict.t Analysis);
  max_cache_entries : Z;
  ffprobe_path : option string;
  ffprobe_timeout : Z;
  ffprobe_output_format : string;
  ffprobe_retry_attempts : Z;
  has_config_manager : bool;
  size_checker : option SizeChecker.Settings;
  episode_cache : gmap string (list Q);
  ffprobe_lru : list (LruKey * ProbeResult E)
}.
Arguments cache_results {E} _.
Arguments analysis_cache {E} _.
Arguments max_cache_entries {E} _.
Arguments ffprobe_path {E} _.
Arguments ffprobe_timeout {E} _.
Arguments ffprobe_output_format {E} _.
Arguments ffprobe_retry_attempts {E} _.
Arguments has_config_manager {E} _.
Arguments size_checker {E} _.
Arguments episode_cache {E} _.
Arguments ffprobe_lru {E} _.

(** [os.stat]: modification time, in microseconds, and size in bytes of
    the files that exist. *)
Definition Stat := string -> option (Z * Z).

Definition lru_maxsize : nat := 500.

Section WithEnv.
Context {E : Env}.

Definition with_caches (self : Analyzer E) (cache : option (Dict.t Analysis))
    (ec : gmap string (list Q)) (lru : list (LruKey * ProbeResult E)) : Analyzer E :=
  {| cache_results := cache_results self; analysis_cache := cache;
     max_cache_entries := max_cache_entries self;
     ffprobe_path := ffprobe_path self;
     ffprobe_timeout := ffprobe_timeout self;
     ffprobe_output_format := ffprobe_output_format self;
     ffprobe_retry_attempts := ffprobe_retry_attempts self;
     has_config_manager := has_config_manager self;
     size_checker := size_checker self;
     episode_cache := ec; ffprobe_lru := lru |}.

Definition _create_error_result (self : Analyzer E) (error_message : string) : Analysis :=
  {| error := true; error_reason := Some error_message;
     original_format := "unknown"; container_format := ""; duration := 0;
     video_codec := "unknown"; video_resolution := None;
     english_audio := []; non_english_audio := [];
     english_subtitles := []; non_english_subtitles := [];
     needs_conversion := false; from_cache := false;
     size_check_performed := false; size_abnormal := false;
     size_severity := None; size_reason := None; size_recommendation := None;
     file_path := ""; file_name := ""; file_size_bytes := 0;
     analysis_mode := ""; analysis_timestamp := "";
     config_source := if has_config_manager self then "master_config.json" else "defaults";
     processing_actions := [] |}.

(** The key of [analysis_cache]: [f"{file_path}_{st_mtime}"].  The decimal
    of the microsecond count stands for the [repr] of the float; both are
    injective. *)
Definition analysis_cache_key (file_path : string) (mtime : Z) : string :=
  (file_path +:+ "_" +:+ pretty mtime)%string.

(** [_get_file_cache_key]: [int(st_mtime)] drops the fraction of a second. *)
Definition _get_file_cache_key (fs : Stat) (file_path : string) : string :=
  match fs file_path with
  | Some (mtime, size) =>
      md5 E (file_path +:+ ":" +:+ pretty (mtime `quot` 1000000)%Z
             +:+ ":" +:+ pretty size)%string
  | None => md5 E file_path
  end.

Definition probe_command (ffprobe_path output_format file_path : string) : list string :=
  [ffprobe_path; "-v"; "quiet"; "-print_format"; output_format;
   "-show_format"; "-show_streams"; file_path]%string.

(** The retry loop of [_cached_ffprobe_analysis]: [fuel] iterations are
    left, [attempt] is the loop variable, [n] counts the invocations of the
    tool so far. *)
Fixpoint probe_attempts (file_path_str ffprobe_path : string) (timeout : Z)
    (output_format : string) (retry_attempts : Z) (fuel : nat) (attempt : Z)
    (last_error : option string) (n : nat) : ProbeResult E * nat :=
  match fuel with
  | O => (ProbeError (get_or last_error "Unknown FFprobe error"%string), n)
  | S fuel' =>
      let again err :=
        if (attempt <? retry_attempts)%Z
        then probe_attempts file_path_str ffprobe_path timeout output_format
               retry_attempts fuel' (attempt + 1)%Z (Some err) (S n)
        else (ProbeError err, S n) in
      match ffprobe E n (probe_command ffprobe_path output_format file_path_str) with
      | Finished returncode stdout stderr =>
          if negb (returncode =? 0)%Z then
            again ("FFprobe failed: "
                   +:+ (if String.eqb stderr "" then "Unknown FFprobe error" else stderr))%string
          else
            match json_loads E stdout with
            | inl probe_data => (ProbeOk probe_data, S n)
            | inr e => again ("FFprobe output parsing failed: " +:+ e)%string
            end
      | TimedOut =>
          again ("FFprobe timeout after " +:+ pretty timeout +:+ " seconds")%string
      | Crashed e => again ("FFprobe execution error: " +:+ e)%string
      end
  end.

Fixpoint lru_find (k : LruKey) (lru : list (LruKey * ProbeResult E))
  : option (ProbeResult E) :=
  match lru with
  | [] => None
  | (k', v) :: rest => if LruKey_eqb k k' then Some v else lru_find k rest
  end.

Definition lru_remove (k : LruKey) (lru : list (LruKey * ProbeResult E)) :=
  List.filter (fun kv => negb (LruKey_eqb k (fst kv))) lru.

(** [@lru_cache(maxsize=500)]: most recently used last; a hit refreshes the
    entry, a miss runs the function and may evict the least recently used. *)
Definition _cached_ffprobe_analysis (lru : list (LruKey * ProbeResult E))
    (file_path_str cache_key ffprobe_path : string) (timeout : Z)
    (output_format : string) (retry_attempts : Z) (n : nat)
  : ProbeResult E * list (LruKey * ProbeResult E) * nat :=
  let k := {| k_file_path_str := file_path_str; k_cache_key := cache_key;
              k_ffprobe_path := ffprobe_path; k_timeout := timeout;
              k_output_format := output_format;
              k_retry_attempts := retry_attempts |} in
  match lru_find k lru with
  | Some v => (v, lru_remove k lru ++ [(k, v)], n)
  | None =>
      let '(v, n') :=
        probe_attempts file_path_str ffprobe_path timeout output_format
          retry_attempts (Z.to_nat (retry_attempts + 1)) 0 None n in
      let lru' := lru ++ [(k, v)] in
      (v, if (lru_maxsize <? length lru')%nat then tl lru' else lru', n')
  end.

Definition _analyze_with_ffprobe (self : Analyzer E) (fs : Stat) (file_path : string)
    (n : nat) : Analysis * list (LruKey * ProbeResult E) * nat :=
  match ffprobe_path self with
  | Some tool =>
      if String.eqb tool "" then
        (_create_error_result self
           "FFprobe not found - please install FFmpeg or check configuration",
         ffprobe_lru self, n)
      else
        let cache_key := _get_file_cache_key fs file_path in
        let '(cached_result, lru', n') :=
          _cached_ffprobe_analysis (ffprobe_lru self) file_path cache_key tool
            (ffprobe_timeout self) (ffprobe_output_format self)
            (ffprobe_retry_attempts self) n in
        match cached_result with
        | ProbeError error_message =>
            (_create_error_result self error_message, lru', n')
        | ProbeOk probe_data =>
            if truthy E probe_data then
              let analysis := _parse_ffprobe_data E probe_data file_path in
              (set_from_cache analysis, lru', n')
            else
              (_create_error_result self "No probe data returned from cache", lru', n')
        end
  | None =>
      (_create_error_result self
         "FFprobe not found - please install FFmpeg or check configuration",
       ffprobe_lru self, n)
  end.

(** [list(cache.keys())[:-n]] *)
Definition py_drop_last (n : Z) {A} (xs : list A) : list A :=
  if (0 <? n)%Z then firstn (length xs - Z.to_nat n) xs
  else firstn (Z.to_nat (- n)) xs.

(** The "limit cache size" block. *)
Definition evict (max_entries : Z) (cache : Dict.t Analysis) : Dict.t Analysis :=
  if (max_entries <? Z.of_nat (length cache))%Z then
    let oldest_keys := py_drop_last max_entries (Dict.keys cache) in
    fold_left (fun d old_key => Dict.del old_key d) oldest_keys cache
  else cache.

Definition analyze_file (self : Analyzer E) (fs : Stat) (file_path : string)
    (dry_run : bool) (clk : Clock) (n : nat) : Analysis * Analyzer E * nat :=
  match fs file_path with
  | None =>
      (_create_error_result self ("File not found: " +:+ file_path)%string, self, n)
  | Some (mtime, size) =>
      let cache_key := analysis_cache_key file_path mtime in
      let cached :=
        match cache_results self, analysis_cache self with
        | true, Some cache => if dry_run then None else Dict.get cache_key cache
        | _, _ => None
        end in
      match cached with
      | Some analysis => (analysis, self, n)
      | None =>
          let '(media_info, lru', n') := _analyze_with_ffprobe self fs file_path n in
          if error media_info then
            (media_info,
             with_caches self (analysis_cache self) (episode_cache self) lru', n')
          else
            let '(sized, ec') :=
              match size_checker self with
              | Some settings =>
                  let '(size_result, ec') :=
                    SizeChecker.check_file_size (fmt0 E) (_analyze_filename E) settings
                      (episode_cache self) (Some size) (PyStr.basename file_path) "tv" in
                  (set_size media_info true
                     (SizeChecker.r_is_abnormal size_result)
                     (Some (SizeChecker.r_severity size_result))
                     (Some (SizeChecker.r_reason size_result))
                     (Some (SizeChecker.r_recommendation size_result)), ec')
              | None =>
                  (set_size media_info false (size_abnormal media_info)
                     (size_severity media_info) (size_reason media_info)
                     (size_recommendation media_info), episode_cache self)
              end in
            let complete_analysis :=
              set_file sized file_path (PyStr.basename file_path) size
                (if dry_run then "dry_run" else "processing")%string (iso clk)
                (if has_config_manager self then "master_config.json" else "defaults")%string in
            let complete_analysis :=
              set_actions complete_analysis
                (_determine_processing_actions (list_set E) complete_analysis) in
            let cache' :=
              match cache_results self, analysis_cache self with
              | true, Some cache =>
                  if dry_run then Some cache
                  else Some (evict (max_cache_entries self)
                               (Dict.set cache_key complete_analysis cache))
              | _, other => other
              end in
            (complete_analysis, with_caches self cache' ec' lru', n')
      end
  end.

End WithEnv.
End Analyzer.

(** ** processor.py: the transcode executor *)

Module Processor.
Import Planner.
Local Open Scope Q_scope.

(** A file: its bytes, named by a label, and their number. *)
Record File := { data : string; st_size : Z }.

(** The file system: the paths that exist and what they hold. *)
Abbreviation FS := (gmap string File).

(** What one run of the external [ffmpeg] gives [subprocess.run], with the
    file it left at the output path, if any.  The tool reads its input and
    writes nothing but its output. *)
Inductive FfmpegRun :=
  | Finished (returncode : Z) (stderr : string) (output : option File)
  | TimedOut (partial : option File)
  | Crashed (text : string).

(** File operations that raise: [unlink] of the original, [shutil.move],
    [unlink] of a temporary file. *)
Record Faults := {
  unlink_original_fails : bool;
  move_fails : bool;
  unlink_temp_fails : bool
}.

Record Env := {
  ffmpeg : list string -> FS -> FfmpegRun;
  faults : Faults;
  (** the [:.1f] format *)
  fmt1 : Q -> string
}.

(** The attributes of the processor and of its [config] that the executor
    reads. *)
Record VideoProcessor := {
  ffmpeg_path : option string;
  temp_directory : string;
  processing_timeout : Z;
  ffmpeg_preset : string;
  crf_quality : Z;
  verify_output_size : bool;
  minimum_output_size_mb : Q;
  maximum_output_size_gb : Q;
  convert_to_h265 : bool;
  remove_all_subtitles : bool
}.

Record ProcessingContext := {
  temp_files : list string;
  backup_files : list string;
  cleanup_needed : bool
}.

Definition new_context : ProcessingContext :=
  {| temp_files := []; backup_files := []; cleanup_needed := false |}.

Definition add_temp_file (context : ProcessingContext) (temp_path : string) :=
  {| temp_files := temp_files context ++ [temp_path];
     backup_files := backup_files context;
     cleanup_needed := cleanup_needed context |}.

Definition mark_for_cleanup (context : ProcessingContext) :=
  {| temp_files := temp_files context; backup_files := backup_files context;
     cleanup_needed := true |}.

(** The dictionary [_execute_ffmpeg_processing] returns. *)
Record FfmpegResult := {
  success : bool;
  error_message : option string;
  output_size_mb : option Q;
  tracks_removed : Z
}.

Definition failure (message : string) : FfmpegResult :=
  {| success := false; error_message := Some message; output_size_mb := None;
     tracks_removed := 0 |}.

Definition has_type (t : string) (actions : list Action) : bool :=
  existsb (fun a => String.eqb (type a) t) actions.

Definition map_tracks (kind : string) (tracks : list Track) : list string :=
  flat_map (fun t => ["-map"; "0:" +:+ kind +:+ ":" +:+ pretty (index t)]%string) tracks.

Definition _build_audio_mapping (analysis_result : Analysis) (actions : list Action)
  : list string :=
  if negb (has_type "audio_cleanup" actions) then []
  else match english_audio analysis_result with
       | [] => ["-an"%string]
       | tracks => map_tracks "a" tracks ++ ["-c:a"; "copy"]%string
       end.

Definition _build_subtitle_mapping (self : VideoProcessor) (analysis_result : Analysis)
    (actions : list Action) : list string :=
  if remove_all_subtitles self then ["-sn"%string]
  else if negb (has_type "subtitle_cleanup" actions) then []
  else match english_subtitles analysis_result with
       | [] => ["-sn"%string]
       | tracks => map_tracks "s" tracks ++ ["-c:s"; "copy"]%string
       end.

Definition _build_ffmpeg_command (self : VideoProcessor) (tool input_file output_file : string)
    (analysis_result : Analysis) (actions : list Action) : list string :=
  let encode := has_type "video_conversion" actions && convert_to_h265 self in
  let audio_mapping := _build_audio_mapping analysis_result actions in
  let subtitle_mapping := _build_subtitle_mapping self analysis_result actions in
  ([tool; "-i"; input_file; "-hide_banner"; "-loglevel"; "warning"; "-stats"]
   ++ (if encode then ["-x265-params"; "log-level=error"] else [])
   ++ ["-c:v"]
   ++ (if encode
       then ["libx265"; "-preset"; ffmpeg_preset self; "-crf"; pretty (crf_quality self)]
       else ["copy"])
   ++ (match audio_mapping with [] => ["-c:a"; "copy"] | _ => audio_mapping end)
   ++ (match subtitle_mapping with
       | [] => if remove_all_subtitles self then ["-sn"] else ["-c:s"; "copy"]
       | _ => subtitle_mapping
       end)
   ++ ["-f"; "matroska"; output_file]).

Definition _count_tracks_removed (actions : list Action) : Z :=
  fold_left
    (fun total a =>
       if App.in_strs (type a) ["audio_cleanup"; "subtitle_cleanup"]%string then
         match details a with
         | TrackDetails _ _ track_count => (total + Z.of_nat track_count)%Z
         | _ => total
         end
       else total)
    actions 0%Z.

(** [temp_directory / f"processing_{int(time.time())}_{file_path.stem}.mkv"] *)
Definition output_path (self : VideoProcessor) (file_path : string) (now : Z) : string :=
  (temp_directory self +:+ "/processing_" +:+ pretty now +:+ "_"
   +:+ PyStr.stem file_path +:+ ".mkv")%string.

(** The file system after the tool has run. *)
Definition after_run (fs : FS) (output_file : string) (written : option File) : FS :=
  match written with
  | Some f => <[output_file := f]> fs
  | None => fs
  end.

Definition _execute_ffmpeg_processing (E : Env) (self : VideoProcessor) (fs : FS)
    (file_path : string) (analysis_result : Analysis) (actions : list Action)
    (context : ProcessingContext) (now : Z)
  : FfmpegResult * FS * ProcessingContext :=
  match ffmpeg_path self with
  | None =>
      (failure "FFmpeg not found - please install FFmpeg or check configuration",
       fs, context)
  | Some tool =>
      if String.eqb tool "" then
        (failure "FFmpeg not found - please install FFmpeg or check configuration",
         fs, context)
      else
        let output_file := output_path self file_path now in
        let context := add_temp_file context output_file in
        let ffmpeg_command :=
          _build_ffmpeg_command self tool file_path output_file analysis_result actions in
        match ffmpeg E ffmpeg_command fs with
        | TimedOut partial =>
            (failure ("FFmpeg timeout after " +:+ pretty (processing_timeout self)
                      +:+ " seconds"),
             after_run fs output_file partial, context)
        | Crashed text =>
            (failure ("FFmpeg execution error: " +:+ text), fs, context)
        | Finished returncode stderr written =>
            let fs := after_run fs output_file written in
            if negb (returncode =? 0)%Z then
              (failure ("FFmpeg failed: "
                        +:+ (if String.eqb stderr "" then "Unknown FFmpeg error" else stderr)),
               fs, context)
            else
              match fs !! output_file with
              | None => (failure "FFmpeg did not produce output file", fs, context)
              | Some produced =>
                  let size_mb := inject_Z (st_size produced) / inject_Z (1024 * 1024) in
                  if verify_output_size self && Qltb size_mb (minimum_output_size_mb self) then
                    (failure ("Output file too small (" +:+ fmt1 E size_mb +:+ " MB < "
                              +:+ fmt1 E (minimum_output_size_mb self) +:+ " MB minimum)"),
                     fs, context)
                  else if verify_output_size self
                          && Qltb (maximum_output_size_gb self * 1024) size_mb then
                    (failure ("Output file too large (" +:+ fmt1 E size_mb +:+ " MB > "
                              +:+ fmt1 E (maximum_output_size_gb self) +:+ " GB maximum)"),
                     fs, context)
                  else
                    let replace_failed :=
                      failure "Failed to replace original file: [Errno]" in
                    match fs !! file_path with
                    | Some _ =>
                        if unlink_original_fails (faults E) then (replace_failed, fs, context)
                        else
                          let fs := delete file_path fs in
                          if move_fails (faults E) then (replace_failed, fs, context)
                          else
                            ({| success := true; error_message := None;
                                output_size_mb := Some size_mb;
                                tracks_removed := _count_tracks_removed actions |},
                             <[file_path := produced]> (delete output_file fs), context)
                    | None =>
                        if move_fails (faults E) then (replace_failed, fs, context)
                        else
                          ({| success := true; error_message := None;
                              output_size_mb := Some size_mb;
                              tracks_removed := _count_tracks_removed actions |},
                           <[file_path := produced]> (delete output_file fs), context)
                    end
              end
        end
  end.

(** [ProcessingContext._cleanup_temp_files] *)
Definition _cleanup_temp_files (E : Env) (context : ProcessingContext) (fs : FS) : FS :=
  fold_left
    (fun fs temp_file =>
       match fs !! temp_file with
       | Some _ => if unlink_temp_fails (faults E) then fs else delete temp_file fs
       | None => fs
       end)
    (temp_files context) fs.

(** The executor run inside the [with ProcessingContext(..)] block of
    [process_file], and the [__exit__] of the block.  The method between
    the two, [_perform_real_processing], is not part of the sources; it is
    taken to pass its arguments through. *)
Definition execute_in_context (E : Env) (self : VideoProcessor) (fs : FS)
    (file_path : string) (analysis_result : Analysis) (actions : list Action) (now : Z)
  : FfmpegResult * FS :=
  let context := mark_for_cleanup new_context in
  let '(result, fs', context') :=
    _execute_ffmpeg_processing E self fs file_path analysis_result actions context now in
  (result, _cleanup_temp_files E context' fs').

End Processor.

(** ** A size-check scenario *)

Module SizeScenario.
Import SizeChecker.
Local Open Scope Q_scope.

(** The settings with the tv episode-consistency step switched off. *)
Definition without_consistency (self : Settings) : Settings :=
  {| tv_enable_checking := tv_enable_checking self;
     tv_max_multiplier := tv_max_multiplier self;
     tv_min_multiplier := tv_min_multiplier self;
     tv_warning_threshold := tv_warning_threshold self;
     tv_consistency_checking := false;
     tv_episode_cache_size := tv_episode_cache_size self;
     movie_enable_checking := movie_enable_checking self;
     movie_max_multiplier := movie_max_multiplier self;
     movie_min_multiplier := movie_min_multiplier self;
     movie_warning_threshold := movie_warning_threshold self;
     movie_consistency_checking := movie_consistency_checking self;
     tv_duration_minutes := tv_duration_minutes self;
     tv_mb_per_minute := tv_mb_per_minute self;
     movie_duration_minutes := movie_duration_minutes self;
     movie_mb_per_minute := movie_mb_per_minute self;
     cache_patterns := cache_patterns self;
     auto_mark_rb := auto_mark_rb self |}.

(** Whether the episode-consistency step of [_evaluate_size_ratio] runs and
    flags the file. *)
Definition flagged (fmt0 : Q -> string) (self : Settings) (episode_cache : EpisodeCache)
    (actual_mb : Q) (analysis : ContentAnalysis) (mode : string) : bool :=
  String.eqb mode "tv" && is_tv_episode analysis && tv_consistency_checking self
  && is_inconsistent
       (fst (_check_episode_consistency fmt0 self episode_cache analysis actual_mb)).

(** A stand-in for the [:.0f] format: the integer part. *)
Definition fmt_int (q : Q) : string := pretty (Qnum q / Zpos (Qden q))%Z.

(** An episode of a show whose two earlier episodes were 160 MB each. *)
Definition episode : ContentAnalysis :=
  {| quality := "unknown"; codec := "unknown"; duration_category := "standard";
     is_tv_episode := true; season := Some 1%Z; episode := Some 3%Z;
     show_name := Some "Show"%string |}.

Definition two_small_episodes : EpisodeCache := {[ "Show"%string := [160; 160] ]}.

(** A 700 MB third episode against the default expectation of 516 MB. *)
Definition third_episode_verdict : Verdict :=
  fst (_evaluate_size_ratio fmt_int default_settings two_small_episodes
         (700 / 516) 700 516 episode "tv").

End SizeScenario.

(** ** Cache scenarios *)

Module CacheScenario.
Import Planner Analyzer.

(** Collaborators for the examples: documents are kept as text, every
    document parses to the same HEVC/MKV analysis. *)
Definition env (tool : nat -> list string -> ProbeRun) : Env :=
  {| ProbeData := string;
     json_loads := inl;
     truthy := fun doc => negb (String.eqb doc "");
     _parse_ffprobe_data := fun _ _ => blank "hevc";
     md5 := fun s => s;
     ffprobe := tool;
     list_set := fun l => l;
     fmt0 := SizeScenario.fmt_int;
     _analyze_filename := fun _ _ => SizeScenario.episode |}.



(** The analyzer [__init__] builds without a configuration manager. *)
Definition fresh (E : Env) (max_entries : Z) : Analyzer E :=
  {| cache_results := true; analysis_cache := Some [];
     max_cache_entries := max_entries; ffprobe_path := Some "ffprobe"%string;
     ffprobe_timeout := 30; ffprobe_output_format := "json";
     ffprobe_retry_attempts := 2; has_config_manager := false;
     size_checker := None; episode_cache := ∅; ffprobe_lru := [] |}.

Definition noon : Clock := {| wall := 0; iso := "2024-01-01 12:00:00"; stamp := "" |}.

(** One file, last modified at 100.2 s, then touched at 100.7 s. *)
Definition disk_at (mtime : Z) : Stat :=
  fun p => if String.eqb p "/v/a.mkv" then Some (mtime, 700%Z) else None.

(** Two files. *)
Definition two_files : Stat :=
  fun p => if String.eqb p "/v/a.mkv" then Some (100200000%Z, 700%Z)
           else if String.eqb p "/v/b.mkv" then Some (100200000%Z, 800%Z)
           else None.


End CacheScenario.

(** ** A transcode scenario *)

Module TranscodeScenario.
Import Processor.
Local Open Scope Q_scope.

Definition original : File := {| data := "h264 avi, 700 MB"; st_size := 734003200 |}.
Definition produced : File := {| data := "hevc mkv, 300 MB"; st_size := 314572800 |}.

Definition library : FS := {[ "/v/a.avi"%string := original ]}.

(** The fallback defaults of [VideoProcessor.__init__]. *)
Definition processor : VideoProcessor :=
  {| ffmpeg_path := Some "ffmpeg"%string; temp_directory := "/tmp/video_cleaner";
     processing_timeout := 600; ffmpeg_preset := "medium"; crf_quality := 23;
     verify_output_size := true; minimum_output_size_mb := 10;
     maximum_output_size_gb := 50; convert_to_h265 := true;
     remove_all_subtitles := false |}.

(** The tool succeeds and leaves a 300 MB output; the original can be
    unlinked, but moving the output into its place raises (the volume of
    the library went away, or filled up during the cross-device copy). *)
Definition move_breaks : Env :=
  {| ffmpeg := fun _ _ => Finished 0 "" (Some produced);
     faults := {| unlink_original_fails := false; move_fails := true;
                  unlink_temp_fails := false |};
     fmt1 := SizeScenario.fmt_int |}.

Definition outcome : FfmpegResult * FS :=
  execute_in_context move_breaks processor library "/v/a.avi" (Planner.blank "h264") []
    1700000000.

End TranscodeScenario.

(** ** recovery_manager.py: the reporting side *)

Module Reports.
Import Recovery Calls.
Local Open Scope Q_scope.

(** An entry of [get_failed_files]. *)
Record FailedFile := {
  ff_file_path : string;
  ff_error_message : option string;
  ff_attempts : Z;
  ff_last_update : string
}.

Definition get_failed_files (m : Manager) : list FailedFile :=
  map (fun kv =>
         {| ff_file_path := fst kv; ff_error_message := error_message (snd kv);
            ff_attempts := attempts (snd kv); ff_last_update := last_update (snd kv) |})
      (List.filter (fun kv => FileState_eqb (state (snd kv)) FAILED)
         (file_states (self_state m))).

(** [xs[-n:]] for a positive literal [n]. *)
Definition last_n {A} (n : nat) (xs : list A) : list A :=
  skipn (length xs - n) xs.

(** The dictionary [get_session_summary] returns. *)
Record Summary := {
  summary_session_info : SessionInfo;
  summary_statistics : Statistics;
  progress_percentage : Q;
  estimated_time_remaining : option Q;
  recent_errors : list ErrorEntry;
  can_resume : bool
}.

Definition get_session_summary (m : Manager) : Summary :=
  let s := self_state m in
  let total_files := total_files_found (session_info s) in
  let completed_files := files_completed (statistics s) in
  {| summary_session_info := session_info s;
     summary_statistics := statistics s;
     progress_percentage :=
       if (0 <? total_files)%Z
       then inject_Z completed_files / inject_Z total_files * 100
       else 0;
     estimated_time_remaining :=
       if (0 <? completed_files)%Z && Qltb 0 (total_processing_time (statistics s))
       then Some (total_processing_time (statistics s) / inject_Z completed_files
                  * inject_Z (files_pending (statistics s)))
       else None;
     recent_errors := last_n 5 (error_log s);
     can_resume := can_resume_session m |}.

(** The number of tracked files in a state. *)
Definition count_state (fs : FileState) (d : Dict.t FileInfo) : Z :=
  Z.of_nat (length (List.filter (fun kv => FileState_eqb (state (snd kv)) fs) d)).

(** Every counter is the number of files in its state. *)
Definition counters_match (m : Manager) : Prop :=
  forall fs, counter fs (statistics (self_state m))
             = count_state fs (file_states (self_state m)).

(** The path a call names. *)
Definition call_path (c : Call) : string :=
  match c with
  | UpdateFileState f _ _ _ _ _ | MarkInProgress f | MarkCompleted f _ _ _
  | MarkFailed f _ _ | MarkCorrupted f _ | MarkRb f _ | MarkSkipped f _ => f
  end.

(** A clock reading for the examples. *)
Definition noon_clock : Clock := {| wall := 43200; iso := "12:00:00"; stamp := "120000" |}.

(** The states in which the processing loop leaves a file. *)
Definition settled (fs : FileState) : bool :=
  match fs with
  | COMPLETED | SKIPPED | FAILED => true
  | _ => false
  end.

(** The state in which a call leaves the file it names. *)
Definition call_state (c : Call) : FileState :=
  match c with
  | UpdateFileState _ ns _ _ _ _ => ns
  | MarkInProgress _ => IN_PROGRESS
  | MarkCompleted _ _ _ _ => COMPLETED
  | MarkFailed _ _ _ => FAILED
  | MarkCorrupted _ _ => CORRUPTED
  | MarkRb _ _ => RB_MARKED
  | MarkSkipped _ _ => SKIPPED
  end.

(** The state in which one iteration of the processing loop leaves its
    file, by what [process_file] handed back (video_cleaner.py, lines
    976-1016). *)
Definition outcome_state (o : App.Outcome) : FileState :=
  match o with
  | App.Result status _ _ =>
      if App.in_strs status ["success"; "completed"]%string then COMPLETED
      else if App.in_strs status ["skipped"; "blocked"]%string then SKIPPED
      else FAILED
  | App.Raised _ => FAILED
  end.

(** The two calls one iteration of the processing loop makes on the recovery
    manager (video_cleaner.py, lines 959-1016). *)
Definition iteration_calls (process_file : string -> App.Outcome)
    (size_of : string -> Z) (file_path : string) (before after : Clock)
  : list (Call * Clock) :=
  let original := size_of file_path in
  let elapsed := (wall after - wall before)%Q in
  [(MarkInProgress file_path, before);
   (match process_file file_path with
    | App.Result status message output_size =>
        if App.in_strs status ["success"; "completed"]%string then
          MarkCompleted file_path elapsed (Some original)
            (Some match output_size with Some z => z | None => original end)
        else if App.in_strs status ["skipped"; "blocked"]%string then
          MarkSkipped file_path
            (match message with Some t => t | None => "Unknown reason"%string end)
        else
          MarkFailed file_path
            (match message with Some t => t | None => "Unknown error"%string end)
            elapsed
    | App.Raised text => MarkFailed file_path ("Exception: " +:+ text)%string elapsed
    end, after)].

(** The calls of the whole loop, in order. *)
Fixpoint loop_calls (process_file : string -> App.Outcome) (size_of : string -> Z)
    (tick : nat -> Clock) (i : nat) (video_files : list string)
  : list (Call * Clock) :=
  match video_files with
  | [] => []
  | f :: rest =>
      iteration_calls process_file size_of f (tick i) (tick (S i))
      ++ loop_calls process_file size_of tick (S (S i)) rest
  end.

End Reports.

(** ** The analyzer's reports on an analysis *)

Module Insight.
Import Planner.
Local Open Scope Q_scope.

(** [self.codec_mappings], in the order of the literal. *)
Definition codec_mappings : list (string * list string) :=
  [("h264", ["h264"; "avc"; "x264"; "h.264"]);
   ("h265", ["h265"; "hevc"; "x265"; "h.265"]);
   ("mpeg4", ["mpeg4"; "mp4v"; "divx"; "mp4"]);
   ("xvid", ["xvid"]);
   ("mpeg2", ["mpeg2"; "mp2v"; "mpeg2video"]);
   ("av1", ["av1"; "av01"]);
   ("vp9", ["vp9"; "vp9.0"]);
   ("vp8", ["vp8"; "vp8.0"])]%string.

Definition _normalize_codec_name (codec_name : string) : string :=
  if String.eqb codec_name "" then "unknown"%string
  else
    let codec_lower := PyStr.lower codec_name in
    match List.find (fun kv => App.in_strs codec_lower (snd kv)) codec_mappings with
    | Some (normalized, _) => normalized
    | None => codec_lower
    end.

(** The ['codec'] entry [_parse_video_stream] makes of a stream's
    ['codec_name'] (the empty string when the stream has none);
    [_parse_ffprobe_data] copies the entry of the first video stream to
    ['video_codec']. *)
Definition stream_codec (codec_name : string) : string :=
  _normalize_codec_name (PyStr.lower codec_name).

(** The spellings of the target codec. *)
Definition h265_spellings : list string := ["h265"; "hevc"; "x265"; "h.265"]%string.

(** The guard of the planner's early return. *)
Definition quarantined (analysis : Analysis) : bool :=
  size_abnormal analysis
  && String.eqb (get_or (size_recommendation analysis) "proceed"%string) "mark_rb".

(** [len(set(xs))] *)
Fixpoint distinct (xs : list string) : list string :=
  match xs with
  | [] => []
  | x :: rest => if App.in_strs x rest then distinct rest else x :: distinct rest
  end.

(** [priority_counts.get(p, 0)] after the counting loop *)
Definition priority_count (p : string) (actions : list Action) : nat :=
  length (List.filter (fun a => String.eqb (priority a) p) actions).

Definition get_processing_complexity (analysis : Analysis) : string :=
  if error analysis then "critical"%string
  else
    let actions := processing_actions analysis in
    let action_types := distinct (map type actions) in
    if (0 <? priority_count "critical" actions)%nat then "critical"%string
    else if (3 <? length action_types)%nat || (2 <? priority_count "high" actions)%nat
    then "complex"%string
    else if (1 <? length action_types)%nat || (0 <? priority_count "high" actions)%nat
    then "moderate"%string
    else "simple"%string.

(** [min(a, b)] of Python: the first argument unless the second is smaller. *)
Definition py_min (a b : Q) : Q := if Qltb b a then b else a.

(** [int(x)] on a float: truncation toward zero. *)
Definition py_int (x : Q) : Z := (Qnum x ÷ Zpos (Qden x))%Z.

(** One iteration of the loop of [get_space_savings_estimate]; a details
    dictionary without the entry read gives the default of [get]. *)
Definition savings_step (savings_factor : Q) (a : Action) : Q :=
  if String.eqb (type a) "video_conversion" then
    let from_codec :=
      PyStr.lower (match details a with
                   | VideoDetails from_codec _ _ => from_codec
                   | _ => ""%string
                   end) in
    if App.in_strs from_codec ["mpeg4"; "xvid"]%string then savings_factor * 0.4
    else if App.in_strs from_codec ["h264"; "avc"]%string then savings_factor * 0.7
    else savings_factor
  else if App.in_strs (type a) ["audio_cleanup"; "subtitle_cleanup"]%string then
    let track_count :=
      match details a with TrackDetails _ _ n => n | _ => 0%nat end in
    let track_savings := py_min 0.15 (inject_Z (Z.of_nat track_count) * 0.03) in
    savings_factor * (1 - track_savings)
  else savings_factor.

Definition get_space_savings_estimate (analyze_codec_efficiency : bool)
    (analysis : Analysis) : Z :=
  if error analysis || negb analyze_codec_efficiency then 0%Z
  else
    let current_size := file_size_bytes analysis in
    if (current_size =? 0)%Z then 0%Z
    else
      let savings_factor := fold_left savings_step (processing_actions analysis) 1 in
      let estimated_final_size := py_int (inject_Z current_size * savings_factor) in
      let estimated_savings := (current_size - estimated_final_size)%Z in
      Z.max 0 estimated_savings.

(** The summary dictionary of [create_processing_summary], without the
    entries that only format others ([estimated_time_formatted],
    [estimated_savings_formatted]) or copy entries the analysis record does
    not keep ([file_duration], [file_size_mb]). *)
Record ProcessingSummary := {
  status : string;
  can_process : bool;
  complexity : string;
  estimated_time_seconds : Z;
  action_count : nat;
  action_summary : list string;
  high_priority_actions : nat;
  needs_video_conversion : bool;
  needs_audio_cleanup : bool;
  needs_subtitle_cleanup : bool;
  current_format : string;
  current_codec : string;
  estimated_savings_bytes : option Z;
  blocking_reason : option string;
  blocking_severity : option string
}.

(** The two shapes of the dictionary. *)
Inductive Summary :=
  | ErrorSummary (error_message : string)
  | ReadySummary (summary : ProcessingSummary).

Definition has_action_type (t : string) (actions : list Action) : bool :=
  existsb (fun a => String.eqb (type a) t) actions.

(** [create_processing_summary].  [__init__] stores the setting
    [estimate_processing_time] in an instance attribute of that name, which
    hides the method: when the setting is true the call
    [self.estimate_processing_time(analysis)] applies [True] and raises
    [TypeError], whose text is returned on the right. *)
Definition create_processing_summary (estimate_processing_time analyze_codec_efficiency : bool)
    (analysis : Analysis) : Summary + string :=
  if error analysis then
    inl (ErrorSummary (get_or (error_reason analysis) "Unknown error"%string))
  else
    let actions := processing_actions analysis in
    let complexity := get_processing_complexity analysis in
    if estimate_processing_time then inr "'bool' object is not callable"%string
    else
      let estimated_time := 0%Z in
      let size_recommendation :=
        get_or (size_recommendation analysis) "proceed"%string in
      let can_process := App.in_strs size_recommendation ["proceed"; "review"]%string in
      inl (ReadySummary
        {| status := if can_process then "ready" else "blocked";
           can_process := can_process;
           complexity := complexity;
           estimated_time_seconds := estimated_time;
           action_count := length actions;
           action_summary := map description actions;
           high_priority_actions :=
             length (List.filter (fun a => String.eqb (priority a) "high") actions);
           needs_video_conversion := has_action_type "video_conversion" actions;
           needs_audio_cleanup := has_action_type "audio_cleanup" actions;
           needs_subtitle_cleanup := has_action_type "subtitle_cleanup" actions;
           current_format := original_format analysis;
           current_codec := video_codec analysis;
           estimated_savings_bytes :=
             if analyze_codec_efficiency
             then Some (get_space_savings_estimate analyze_codec_efficiency analysis)
             else None;
           blocking_reason :=
             if can_process then None
             else Some (get_or (size_reason analysis) "Unknown issue"%string);
           blocking_severity :=
             if can_process then None
             else Some (get_or (size_severity analysis) "unknown"%string) |}).

(** An analysis whose first video stream has the codec name [codec_name]. *)
Definition with_stream_codec (codec_name : string) : Analysis :=
  blank (stream_codec codec_name).

(** An analysis of 1000 bytes with a plan made by hand. *)
Definition planned (actions : list Action) : Analysis :=
  set_actions (set_file (blank "h264") "/v/a.mkv" "a.mkv" 1000 "processing" "" "defaults")
    actions.

End Insight.

(** ** Processing one file *)

Module Pipeline.
Import Planner Processor.

(** [Path(p).suffix]: the last dot of the name with what follows it, when
    that dot is neither the first nor the last character of the name. *)
Fixpoint last_dot_tail (s : string) : option string :=
  match s with
  | EmptyString => None
  | String c s' =>
      match last_dot_tail s' with
      | Some t => Some t
      | None => if Ascii.eqb c "." then Some (String c s') else None
      end
  end.

Definition suffix (p : string) : string :=
  match PyStr.basename p with
  | EmptyString => ""
  | String c rest =>
      match last_dot_tail rest with
      | Some t => if String.eqb t "." then "" else t
      | None => ""
      end
  end%string.

(** The dictionary of [_create_processing_result]: its ['status'] and
    ['message'] entries and the ['rb_path'] of the extra data. *)
Record ProcessingResult := {
  status : string;
  message : string;
  rb_path : option string
}.

Definition _create_processing_result (status message : string)
    (extra_data : option string) : ProcessingResult :=
  {| status := status; message := message; rb_path := extra_data |}.

(** What [process_file] and [_handle_size_anomaly] read of the processor,
    of its analyzer and of the configuration: whether a configuration
    manager is present with [size_checker] / [tv_shows.enable_size_checking]
    true; the setting [error_handling] / [recovery.auto_mark_rb_on_failure]
    (true without a configuration manager); the two analyzer attributes
    [create_processing_summary] reads; and the error [Path.rename] raises,
    if it does. *)
Record Settings := {
  size_checking_enabled : bool;
  auto_mark_rb_on_failure : bool;
  estimate_processing_time : bool;
  analyze_codec_efficiency : bool;
  rename_error : option string
}.

(** [_handle_size_anomaly]; [file_path.with_suffix(file_path.suffix + '.rb')]
    appends [.rb] to the path, and the rename replaces a file already
    there. *)
Definition _handle_size_anomaly (self : Settings) (fs : FS) (file_path : string)
    (analysis_result : Analysis) (dry_run : bool) : ProcessingResult * FS :=
  let size_reason :=
    get_or (size_reason analysis_result) "Abnormal file size detected"%string in
  if dry_run then
    (_create_processing_result "would_mark_rb"
       ("Would mark as .rb: " +:+ size_reason)%string None, fs)
  else if auto_mark_rb_on_failure self then
    let rb_path := (file_path +:+ ".rb")%string in
    match rename_error self, fs !! file_path with
    | None, Some f =>
        (_create_processing_result "marked_rb"
           ("Marked as .rb: " +:+ size_reason)%string (Some rb_path),
         <[rb_path := f]> (delete file_path fs))
    | Some e, _ =>
        (_create_processing_result "error"
           ("Failed to mark file as .rb: " +:+ e)%string None, fs)
    | None, None =>
        (_create_processing_result "error"
           ("Failed to mark file as .rb: [Errno 2] No such file or directory: '"
            +:+ file_path +:+ "' -> '" +:+ rb_path +:+ "'")%string None, fs)
    end
  else
    (_create_processing_result "skipped" ("Size anomaly: " +:+ size_reason)%string None,
     fs).

Definition summary_can_process (s : Insight.Summary) : bool :=
  match s with
  | Insight.ErrorSummary _ => false
  | Insight.ReadySummary r => Insight.can_process r
  end.

Definition summary_blocking_reason (s : Insight.Summary) : string :=
  match s with
  | Insight.ErrorSummary _ => "Unknown issue"
  | Insight.ReadySummary r => get_or (Insight.blocking_reason r) "Unknown issue"
  end%string.

Section ProcessFile.
(** Step 1 is represented by its result: the analysis dictionary
    [_perform_comprehensive_analysis] returns for a file (it reads the file
    system and catches what its callees raise). *)
Variable _perform_comprehensive_analysis : FS -> string -> bool -> Analysis.
(** Step 4: [_perform_dry_run_analysis] and [_perform_real_processing] are
    not part of the sources.  The parameter stands for the call, the
    [__exit__] of the context and the two exception handlers after it. *)
Variable step4 : FS -> string -> Analysis -> Insight.Summary -> bool
                 -> ProcessingResult * FS.

(** [process_file].  Before step 4 the context holds no temporary or backup
    file, so that its [__exit__] changes nothing. *)
Definition process_file (self : Settings) (fs : FS) (file_path : string)
    (dry_run : bool) : ProcessingResult * FS :=
  match fs !! file_path with
  | None =>
      (_create_processing_result "error" ("File not found: " +:+ file_path)%string None,
       fs)
  | Some _ =>
      if String.eqb (PyStr.lower (suffix file_path)) ".rb" then
        (_create_processing_result "skipped" "File marked as .rb" None, fs)
      else
        let analysis_result := _perform_comprehensive_analysis fs file_path dry_run in
        if error analysis_result then
          (_create_processing_result "error"
             (get_or (error_reason analysis_result) "Analysis failed"%string) None, fs)
        else if size_checking_enabled self && size_abnormal analysis_result
                && String.eqb (get_or (size_recommendation analysis_result)
                                 "proceed"%string) "mark_rb" then
          _handle_size_anomaly self fs file_path analysis_result dry_run
        else
          match Insight.create_processing_summary (estimate_processing_time self)
                  (analyze_codec_efficiency self) analysis_result with
          | inr text =>
              (_create_processing_result "error"
                 ("Unexpected error: " +:+ text)%string None, fs)
          | inl processing_summary =>
              if negb (summary_can_process processing_summary) then
                (_create_processing_result "blocked"
                   (summary_blocking_reason processing_summary) None, fs)
              else step4 fs file_path analysis_result processing_summary dry_run
          end
  end.

End ProcessFile.

(** The result dictionary as [run_processing] reads it. *)
Definition to_outcome (r : ProcessingResult) : App.Outcome :=
  App.Result (status r) (Some (message r)) None.

(** The settings [__init__] gives a processor whose configuration has the
    defaults, and the same with the time estimate switched off. *)
Definition default_settings : Settings :=
  {| size_checking_enabled := true; auto_mark_rb_on_failure := true;
     estimate_processing_time := true; analyze_codec_efficiency := true;
     rename_error := None |}.


(** A library of one episode; an analysis step that finds nothing wrong,
    and one that asks for the quarantine; a step 4 that reports success. *)
Definition one_file : FS :=
  {[ "/v/ep01.avi"%string := {| data := "ep01"; st_size := 52428800 |} ]}.

Definition analysis_ok (fs : FS) (p : string) (dry_run : bool) : Analysis :=
  blank "h264".

Definition analysis_flagged (fs : FS) (p : string) (dry_run : bool) : Analysis :=
  flagged_mark_rb.

Definition step4_ok (fs : FS) (p : string) (a : Analysis) (s : Insight.Summary)
    (dry_run : bool) : ProcessingResult * FS :=
  (_create_processing_result "success" "done" None, fs).

End Pipeline.

(** ** A transcode that works *)

Module ReplaceScenario.
Import Processor.

(** The tool succeeds and every file operation does. *)
Definition all_fine : Env :=
  {| ffmpeg := fun _ _ => Finished 0 "" (Some TranscodeScenario.produced);
     faults := {| unlink_original_fails := false; move_fails := false;
                  unlink_temp_fails := false |};
     fmt1 := SizeScenario.fmt_int |}.

(** The tool fails and leaves a partial output. *)
Definition tool_fails : Env :=
  {| ffmpeg := fun _ _ => Finished 1 "Invalid data" (Some TranscodeScenario.produced);
     faults := {| unlink_original_fails := false; move_fails := false;
                  unlink_temp_fails := false |};
     fmt1 := SizeScenario.fmt_int |}.

(** A second file beside the one processed. *)
Definition two_files : FS :=
  <[ "/v/b.mkv"%string := {| data := "other"; st_size := 1 |} ]> TranscodeScenario.library.

End ReplaceScenario.

(** ** Reading the configuration *)

Module Config.
Local Open Scope Q_scope.

(** A parsed JSON document; an object keeps its entries in order (the
    documents read have no duplicate keys). *)
#[warnings="-register-all"]
Inductive Json :=
  | JNull
  | JBool (b : bool)
  | JNum (n : Q)
  | JStr (s : string)
  | JList (l : list Json)
  | JDict (d : list (string * Json)).

(** Truth value of a Python object. *)
Definition truthy (v : Json) : bool :=
  match v with
  | JNull => false
  | JBool b => b
  | JNum n => negb (Qeq_bool n 0)
  | JStr s => negb (String.eqb s "")
  | JList l => match l with [] => false | _ => true end
  | JDict d => match d with [] => false | _ => true end
  end.

(** [needle in hay] on strings. *)
Fixpoint contains (needle hay : string) : bool :=
  String.prefix needle hay
  || match hay with
     | EmptyString => false
     | String _ hay' => contains needle hay'
     end.

(** [s.split('.')] *)
Fixpoint split_dots (s : string) : list string :=
  match s with
  | EmptyString => [""%string]
  | String c s' =>
      if Ascii.eqb c "." then ""%string :: split_dots s'
      else match split_dots s' with
           | h :: t => String c h :: t
           | [] => [String c ""]
           end
  end.

Definition is_str (k : string) (v : Json) : bool :=
  match v with JStr s => String.eqb s k | _ => false end.

(** [k in v]: a key of an object, an element of a list, a substring of a
    string; [TypeError] ([None]) on the other values. *)
Definition py_in (k : string) (v : Json) : option bool :=
  match v with
  | JDict d => Some (Dict.mem k d)
  | JList l => Some (existsb (is_str k) l)
  | JStr s => Some (contains k s)
  | _ => None
  end.

(** [v.get(k, dflt)]: [AttributeError] ([None]) unless [v] is an object. *)
Definition py_get (v : Json) (k : string) (dflt : Json) : option Json :=
  match v with
  | JDict d => Some (match Dict.get k d with Some x => x | None => dflt end)
  | _ => None
  end.

(** One fallback of [get_ffmpeg_paths]: the paths of
    [config[section][tool]], [Some None] when the fallback does not apply
    and [None] when it raises. *)
Definition module_paths (config : Dict.t Json) (section tool : string)
  : option (option Json) :=
  match Dict.get section config with
  | None => Some None
  | Some sec =>
      match py_in tool sec with
      | None => None
      | Some false => Some None
      | Some true =>
          match sec with
          | JDict d =>
              match Dict.get tool d with
              | Some entry =>
                  match py_get entry "executable_paths" (JList []) with
                  | Some paths => Some (if truthy paths then Some paths else None)
                  | None => None
                  end
              | None => None
              end
          | _ => None
          end
      end
  end.

(** [get_ffmpeg_paths]; [None] when it raises. *)
Definition get_ffmpeg_paths (config : Dict.t Json) (ffmpeg_base_paths : Json)
  : option Json :=
  let fallbacks :=
    match module_paths config "video_processor" "ffmpeg" with
    | None => None
    | Some (Some paths) => Some paths
    | Some None =>
        match module_paths config "video_analyzer" "ffprobe" with
        | None => None
        | Some (Some paths) => Some paths
        | Some None => Some ffmpeg_base_paths
        end
    end in
  match Dict.get "ffmpeg_global" config with
  | Some g =>
      match py_get g "executable_paths" (JList []) with
      | None => None
      | Some paths => if truthy paths then Some paths else fallbacks
      end
  | None => fallbacks
  end.

(** The navigation loop of [get]. *)
Fixpoint navigate (current : Json) (path_parts : list string) (default : Json) : Json :=
  match path_parts with
  | [] => current
  | part :: rest =>
      match current with
      | JDict d =>
          match Dict.get part d with
          | Some next => navigate next rest default
          | None => default
          end
      | _ => default
      end
  end.

(** [get]; whatever is raised inside gives the default. *)
Definition get (config : Dict.t Json) (ffmpeg_base_paths : Json) (section : string)
    (path : option string) (default : Json) : Json :=
  if App.in_strs section ["video_processor"; "video_analyzer"]%string
     && match path with
        | Some p => negb (String.eqb p "")
                    && (contains "executable_paths" p || contains "ffmpeg" p)
        | None => false
        end
  then match get_ffmpeg_paths config ffmpeg_base_paths with
       | Some paths => paths
       | None => default
       end
  else
    match path with
    | None => match Dict.get section config with Some v => v | None => default end
    | Some p =>
        match Dict.get section config with
        | None => default
        | Some current => navigate current (split_dots p) default
        end
    end.

(** [default or n] *)
Definition py_or (default : Json) (n : Q) : Json :=
  if truthy default then default else JNum n.

(** [get_global_timeout]; [None] when it raises. *)
Definition get_global_timeout (config : Dict.t Json) (ffmpeg_base_paths : Json)
    (timeout_type : string) (default : Json) : option Json :=
  let by_module :=
    if String.eqb timeout_type "processing" then
      get config ffmpeg_base_paths "video_processor"
        (Some "ffmpeg.processing_timeout_seconds"%string) (py_or default 600)
    else if String.eqb timeout_type "probe" then
      match get config ffmpeg_base_paths "video_analyzer"
              (Some "ffprobe.timeout_seconds"%string) JNull with
      | JNull =>
          get config ffmpeg_base_paths "video_processor"
            (Some "ffmpeg.probe_timeout_seconds"%string) (py_or default 30)
      | analyzer_timeout => analyzer_timeout
      end
    else if String.eqb timeout_type "file_operation" then
      get config ffmpeg_base_paths "error_handling"
        (Some "timeouts.file_operation_timeout"%string) (py_or default 30)
    else py_or default 30 in
  match Dict.get "timeouts_global" config with
  | Some t =>
      match py_get t (timeout_type +:+ "_timeout") JNull with
      | None => None
      | Some JNull => Some by_module
      | Some timeout_value => Some timeout_value
      end
  | None => Some by_module
  end.

(** [self.ffmpeg_base_paths] *)
Definition ffmpeg_base_paths : Json :=
  JList [JStr "ffmpeg"; JStr "ffprobe"; JStr "C:\ffmpeg\bin\ffmpeg.exe";
         JStr "C:\ffmpeg\bin\ffprobe.exe";
         JStr "C:\Program Files\ffmpeg\bin\ffmpeg.exe";
         JStr "C:\Program Files\ffmpeg\bin\ffprobe.exe"].

(** A configuration that sets the encoder preset, the quality and the
    processing timeout of the video processor. *)
Definition tuned : Dict.t Json :=
  [("video_processor"%string,
    JDict [("ffmpeg"%string,
            JDict [("preset"%string, JStr "slow");
                   ("crf_quality"%string, JNum 18);
                   ("processing_timeout_seconds"%string, JNum 1200)]);
           ("safety"%string,
            JDict [("verify_output_size"%string, JBool false)])])].

End Config.

(** ** A tool that recovers *)

Module ProbeScenario.
Import Planner Analyzer.

(** The first three runs of the tool fail, the later ones succeed. *)
Definition recovering (n : nat) (cmd : list string) : ProbeRun :=
  if (n <? 3)%nat then Finished 1 "" "moov atom not found"
  else Finished 0 "{streams}" "".

End ProbeScenario.

(** ** The rolling window of episode sizes *)

Module Windows.
Import SizeChecker.
Local Open Scope Q_scope.

(** Lines 362-367 of [_check_episode_consistency]: the window of a show
    after one more size has been appended and the window trimmed. *)
Definition window_of (self : Settings) (before : list Q) (actual_mb : Q) : list Q :=
  let appended := before ++ [actual_mb] in
  let max_episodes := tv_episode_cache_size self in
  if (max_episodes <? Z.of_nat (length appended))%Z
  then py_last max_episodes appended else appended.

(** No show's window holds more than [n] sizes. *)
Definition window_bounded (n : Z) (episode_cache : EpisodeCache) : Prop :=
  forall show w, episode_cache !! show = Some w -> (Z.of_nat (length w) <= n)%Z.

(** Three earlier episodes of a show, the last of them the largest. *)
Definition three_episodes : EpisodeCache := {[ "Show"%string := [150; 160; 170] ]}.

(** The default settings with a window of [n] sizes. *)
Definition with_window (n : Z) : Settings :=
  {| tv_enable_checking := true; tv_max_multiplier := 2.5;
     tv_min_multiplier := 0.3; tv_warning_threshold := 1.5;
     tv_consistency_checking := true; tv_episode_cache_size := n;
     movie_enable_checking := true; movie_max_multiplier := 3;
     movie_min_multiplier := 0.2; movie_warning_threshold := 2;
     movie_consistency_checking := false;
     tv_duration_minutes := Some 43; tv_mb_per_minute := Some 12;
     movie_duration_minutes := Some 120; movie_mb_per_minute := Some 14;
     cache_patterns := true; auto_mark_rb := true |}.


End Windows.

(** * Properties *)

(** ** Dictionary facts *)

Module DictFacts.
Import Dict.
Section DictFacts.
Context {V : Type}.
Implicit Types (d : Dict.t V) (v : V) (k : string).

Lemma get_set_eq k v d : get k (set k v d) = Some v.
Proof.
  induction d as [|[k' v'] d IH]; simpl.
  - now rewrite String.eqb_refl.
  - destruct (String.eqb k k') eqn:E; simpl; rewrite E; auto.
Qed.

Lemma get_set_ne k k' v d : k <> k' -> get k' (set k v d) = get k' d.
Proof.
  intros Hne. induction d as [|[k0 v0] d IH]; simpl.
  - destruct (String.eqb k' k) eqn:E; auto.
    apply String.eqb_eq in E. congruence.
  - destruct (String.eqb k k0) eqn:E; simpl.
    + apply String.eqb_eq in E. subst k0.
      destruct (String.eqb k' k) eqn:E'; auto.
      apply String.eqb_eq in E'. congruence.
    + now rewrite IH.
Qed.

Lemma keys_set_in k v d : mem k d = true -> keys (set k v d) = keys d.
Proof.
  unfold mem, keys. induction d as [|[k' v'] d IH]; simpl; [discriminate|].
  destruct (String.eqb k k') eqn:E; simpl; auto.
  intros H. now rewrite IH.
Qed.

Lemma keys_set_new k v d : mem k d = false -> keys (set k v d) = keys d ++ [k].
Proof.
  unfold mem, keys. induction d as [|[k' v'] d IH]; simpl; auto.
  destruct (String.eqb k k') eqn:E; simpl; [discriminate|].
  intros H. now rewrite IH.
Qed.

Lemma mem_keys k d : mem k d = true <-> In k (keys d).
Proof.
  unfold mem, keys. induction d as [|[k' v'] d IH]; simpl.
  - split; [discriminate | tauto].
  - destruct (String.eqb k k') eqn:E.
    + apply String.eqb_eq in E. subst. split; auto.
    + apply String.eqb_neq in E. rewrite IH. split; auto.
      intros [H|H]; [congruence | auto].
Qed.

Lemma length_set_in k v d : mem k d = true -> length (set k v d) = length d.
Proof.
  intros H. apply keys_set_in with (v := v) in H.
  unfold keys in H. apply (f_equal (@length _)) in H.
  now rewrite !length_map in H.
Qed.

Lemma length_set_new k v d : mem k d = false -> length (set k v d) = S (length d).
Proof.
  intros H. apply keys_set_new with (v := v) in H.
  unfold keys in H. apply (f_equal (@length _)) in H.
  rewrite length_app, !length_map in H. simpl in H. lia.
Qed.







End DictFacts.
End DictFacts.

(** ** The recovery store *)

Module RecoveryProps.
Import Recovery Calls.

Lemma sum_counters_bump fs d st :
  sum_counters (bump fs d st) = sum_counters st + d.
Proof. destruct fs; unfold sum_counters, bump; simpl; lia. Qed.

Lemma sum_counters_update_statistics o n st :
  sum_counters (_update_statistics o n st) = sum_counters st.
Proof. unfold _update_statistics. rewrite !sum_counters_bump. lia. Qed.

Lemma balanced_save m clk : balanced m -> balanced (_save_state m clk).
Proof. auto. Qed.

Lemma total_update_file_state m f ns e t o p clk :
  total_files_found (session_info (self_state (update_file_state m f ns e t o p clk)))
  = total_files_found (session_info (self_state m)).
Proof. unfold update_file_state. destruct (Qltb _ _); reflexivity. Qed.

Lemma balanced_update_file_state m f ns e t o p clk :
  balanced m -> balanced (update_file_state m f ns e t o p clk).
Proof.
  unfold balanced. intros H. rewrite total_update_file_state, <- H.
  unfold update_file_state.
  destruct (Qltb _ _); simpl; apply sum_counters_update_statistics.
Qed.

Lemma balanced_perform m c : balanced m -> balanced (perform m c).
Proof.
  destruct c as [[] clk]; unfold perform; simpl; intros H;
    now apply balanced_update_file_state.
Qed.

Lemma balanced_start_session m mode dir files clk :
  balanced (fst (start_session m mode dir files clk)).
Proof. unfold balanced, sum_counters. simpl. lia. Qed.

Lemma total_perform m c :
  total_files_found (session_info (self_state (perform m c)))
  = total_files_found (session_info (self_state m)).
Proof.
  destruct c as [[] clk]; unfold perform; simpl;
    apply total_update_file_state.
Qed.

(** C2. After [start_session] over [N] files and any sequence of
    [update_file_state] / [mark_file_*] calls, on registered and on unknown
    paths alike, the seven per-state counters add up to
    [total_files_found], which is still [N]. *)
Theorem state_sum_invariant m0 mode dir (files : list string) clk0 calls :
  let m := perform_all (fst (start_session m0 mode dir files clk0)) calls in
  sum_counters (statistics (self_state m))
  = total_files_found (session_info (self_state m))
  /\ total_files_found (session_info (self_state m)) = Z.of_nat (length files).
Proof.
  cbv zeta. unfold perform_all.
  set (m1 := fst (start_session m0 mode dir files clk0)).
  assert (H1 : balanced m1) by apply balanced_start_session.
  assert (H2 : total_files_found (session_info (self_state m1))
               = Z.of_nat (length files)) by reflexivity.
  clearbody m1. revert m1 H1 H2.
  induction calls as [|c calls IH]; intros m1 H1 H2; simpl.
  - split; assumption.
  - apply IH.
    + now apply balanced_perform.
    + now rewrite total_perform.
Qed.


(** An update that names a path unknown to the session: the file is added
    as pending without being counted, so the pending counter drops below
    the number of pending files while the sum stays at the total. *)
Example update_of_unregistered_path :
  let m0 := init Scenario.no_disk None (Scenario.tick "20240101" 0) in
  let m1 := fst (start_session m0 "tv" "/v" ["/v/a.mkv"%string] (Scenario.tick "20240101" 1)) in
  let m2 := mark_file_completed m1 "/v/zz.mkv" 0 None None (Scenario.tick "20240101" 2) in
  files_pending (statistics (self_state m2)) = 0
  /\ files_completed (statistics (self_state m2)) = 1
  /\ get_pending_files m2 = ["/v/a.mkv"%string]
  /\ sum_counters (statistics (self_state m2)) = 1
  /\ total_files_found (session_info (self_state m2)) = 1.
Proof. vm_compute. repeat split; reflexivity. Qed.

Lemma register_files_spec_aux clk files d :
  NoDup (Dict.keys d ++ files) ->
  Forall (fun kv => state (snd kv) = PENDING) d ->
  let d' := fold_left (fun d f => Dict.set f (new_file_info clk) d) files d in
  Dict.keys d' = Dict.keys d ++ files
  /\ Forall (fun kv => state (snd kv) = PENDING) d'.
Proof.
  revert d. induction files as [|f files IH]; intros d Hnd Hall; simpl.
  - now rewrite app_nil_r.
  - assert (Hf : Dict.mem f d = false).
    { destruct (Dict.mem f d) eqn:E; auto.
      apply DictFacts.mem_keys in E. apply NoDup_app in Hnd as (_ & Hd & _).
      exfalso. apply (Hd f); apply list_elem_of_In; [exact E | now left]. }
    specialize (IH (Dict.set f (new_file_info clk) d)).
    rewrite (DictFacts.keys_set_new _ _ _ Hf) in IH.
    rewrite <- app_assoc in IH. simpl in IH.
    apply IH; auto.
    clear - Hall. induction d as [|[k v] d IHd]; simpl.
    + repeat constructor.
    + inversion Hall; subst. destruct (String.eqb f k); constructor; auto.
Qed.

Lemma filter_pending_all (l : Dict.t FileInfo) :
  Forall (fun kv => state (snd kv) = PENDING) l ->
  map fst (List.filter (fun kv => FileState_eqb (state (snd kv)) PENDING) l)
  = Dict.keys l.
Proof.
  induction 1 as [|[k v] l Hv Hl IH]; simpl; auto.
  simpl in Hv. rewrite Hv. simpl. now f_equal.
Qed.

(** A duplicate-free file list is registered in order, every file pending. *)
Lemma get_pending_after_start m mode dir files clk :
  NoDup files ->
  get_pending_files (fst (start_session m mode dir files clk)) = files.
Proof.
  intros Hnd. unfold get_pending_files. simpl. unfold register_files.
  destruct (register_files_spec_aux clk files [] Hnd (List.Forall_nil _)) as [Hk Hall].
  rewrite filter_pending_all by exact Hall. exact Hk.
Qed.

(** [run_processing] starts a session before it asks whether one can be
    resumed: whatever the loaded state held, every file of a non-empty
    duplicate-free directory listing is selected again, under a session id
    made from the current clock. *)
Lemma select_files_restarts m mode dir files clk :
  NoDup files -> files <> [] ->
  let '(m', sid, todo) := App.select_files m mode dir files clk in
  sid = (mode +:+ "_" +:+ stamp clk)%string /\ todo = files.
Proof.
  intros Hnd Hne. unfold App.select_files.
  pose proof (get_pending_after_start m mode dir files clk Hnd) as Hp.
  destruct (start_session m mode dir files clk) as [m1 sid] eqn:E.
  simpl in Hp.
  assert (sid = (mode +:+ "_" +:+ stamp clk)%string) by (inversion E; reflexivity).
  destruct (can_resume_session m1); auto.
Qed.

(** C1 (the code departs from the claim). A session over N = 3 files is
    killed after M = 1 file was completed and flushed; the persisted state
    lists the two other files as pending.  The next [run_processing] over
    the same directory reports a different session id and attempts all three
    files, the completed one included. *)
Theorem resume_reprocesses_completed_files :
  let '(m1, sid1, attempted1) := Scenario.first_run in
  let '(m2, sid2, attempted2) := Scenario.second_run in
  let reloaded := init (disk m1) None (Scenario.tick "20240102" 0) in
  attempted1 = ["/v/a.mkv"%string]
  /\ option_map state (Dict.get "/v/a.mkv" (file_states (self_state reloaded)))
     = Some COMPLETED
  /\ can_resume_session reloaded = true
  /\ get_pending_files reloaded = ["/v/b.mkv"; "/v/c.mkv"]%string
  /\ sid1 = Some "tv_20240101_1"%string
  /\ sid2 = Some "tv_20240102_1"%string
  /\ attempted2 = ["/v/a.mkv"; "/v/b.mkv"; "/v/c.mkv"]%string.
Proof. vm_compute. repeat split; reflexivity. Qed.


(** The last instant of the trace is the disk [_save_state] leaves. *)
Lemma save_trace_last m clk writes :
  last (save_trace (disk m) (self_state m) writes) = Some (disk (_save_state m clk)).
Proof.
  unfold save_trace, _save_state. simpl.
  rewrite !last_cons, last_app. simpl.
  destruct (state_file (disk m)); reflexivity.
Qed.




(** A save that finds a truncated state file (left by a crash) renames it
    over the good backup. *)
Lemma save_over_truncated_file_loses_backup s0 s :
  let d := {| state_file := Some (Truncated s 3); backup_file := Some (Complete s0) |} in
  has_snapshot_of s0 d
  /\ exists d', In d' (save_trace d s 0) /\ no_snapshot d'.
Proof.
  simpl. split; [now right|].
  exists {| state_file := None; backup_file := Some (Truncated s 3) |}.
  unfold no_snapshot. simpl. auto.
Qed.

End RecoveryProps.

(** ** The size anomaly detector *)

Module SizeCheckerProps.
Import SizeChecker.
Local Open Scope Q_scope.

Lemma Qltb_lt a b : Qltb a b = true <-> a < b.
Proof.
  unfold Qltb. rewrite negb_true_iff. split.
  - intros H. apply Qnot_le_lt. intros Hle.
    apply Qle_bool_iff in Hle. congruence.
  - intros H. destruct (Qle_bool b a) eqn:E; auto.
    apply Qle_bool_iff in E. exfalso. exact (Qlt_not_le _ _ H E).
Qed.

Lemma Qltb_ge a b : Qltb a b = false <-> b <= a.
Proof.
  unfold Qltb. rewrite negb_false_iff. apply Qle_bool_iff.
Qed.

Lemma py_max_lower a b : b <= py_max a b.
Proof.
  unfold py_max. destruct (Qltb a b) eqn:E.
  - apply Qle_refl.
  - now apply Qltb_ge.
Qed.

(** On the error path of [_calculate_expected_size] the fallback is 200. *)
Lemma expected_size_error_path self a mode :
  (if String.eqb mode "tv"
   then tv_duration_minutes self = None \/ tv_mb_per_minute self = None
   else movie_duration_minutes self = None \/ movie_mb_per_minute self = None) ->
  _calculate_expected_size self a mode = 200.
Proof.
  unfold _calculate_expected_size.
  destruct (String.eqb mode "tv"); intros [H|H]; rewrite H; auto;
    match goal with |- context [match ?x with _ => _ end] => destruct x end; auto.
Qed.

(** C10. For every settings record, filename analysis and mode the expected
    size is at least 50 MB, so the guard of [check_file_size] takes its
    dividing branch: the ratio is the quotient of the actual size by a
    positive expected size. *)
Theorem expected_size_at_least_50 self a mode file_size_mb :
  let e := _calculate_expected_size self a mode in
  50 <= e /\ 0 < e /\ Qltb 0 e = true
  /\ size_ratio_of file_size_mb e = file_size_mb / e.
Proof.
  cbv zeta.
  assert (H : 50 <= _calculate_expected_size self a mode).
  { unfold _calculate_expected_size.
    destruct (String.eqb mode "tv");
      match goal with |- context [match ?x with _ => _ end] => destruct x end;
      try match goal with |- context [match ?x with _ => _ end] => destruct x end;
      try apply py_max_lower; discriminate. }
  assert (H0 : 0 < _calculate_expected_size self a mode).
  { eapply Qlt_le_trans; [|exact H]. reflexivity. }
  repeat split; auto.
  - now apply Qltb_lt.
  - unfold size_ratio_of. apply Qltb_lt in H0. now rewrite H0.
Qed.

Section Evaluate.
Variable fmt0 : Q -> string.
Import SizeScenario.

(** The thresholds alone: severity and recommendation follow the
    specification's four cases. *)
Lemma threshold_verdict_spec self ratio mode :
  auto_mark_rb self = true ->
  let '(mx, mn, wn, _) := thresholds self mode in
  (severity (threshold_verdict fmt0 self ratio mode),
   recommendation (threshold_verdict fmt0 self ratio mode))
  = spec_classification mx wn mn ratio.
Proof.
  intros Hrb. unfold threshold_verdict, spec_classification.
  destruct (thresholds self mode) as [[[mx mn] wn] cc].
  rewrite Hrb.
  destruct (Qltb mx ratio); [reflexivity|].
  destruct (Qltb wn ratio); [reflexivity|].
  destruct (Qltb ratio mn); reflexivity.
Qed.

(** How [_evaluate_size_ratio] departs from the thresholds' verdict. *)
Lemma evaluate_size_ratio_cases self cache ratio actual expected analysis mode :
  let v := fst (_evaluate_size_ratio fmt0 self cache ratio actual expected analysis mode) in
  let base := threshold_verdict fmt0 self ratio mode in
  let c := fst (_check_episode_consistency fmt0 self cache analysis actual) in
  if flagged fmt0 self cache actual analysis mode then
    is_abnormal v = true
    /\ severity v = (if String.eqb (severity base) "normal"
                     then c_severity c else severity base)
    /\ reason v = (reason base +:+ " + " +:+ c_reason c)%string
    /\ recommendation v = recommendation base
  else v = base.
Proof.
  cbv zeta. unfold flagged, _evaluate_size_ratio, thresholds.
  destruct (String.eqb mode "tv"); simpl; [|reflexivity].
  destruct (is_tv_episode analysis); simpl; [|reflexivity].
  destruct (tv_consistency_checking self); simpl; [|reflexivity].
  destruct (_check_episode_consistency fmt0 self cache analysis actual) as [c cache'].
  simpl. destruct (is_inconsistent c); simpl; auto.
Qed.

(** C6 (amended). With [auto_mark_rb] on, the recommendation is the
    specification's for every ratio, and so is the severity, except that a
    file the thresholds find normal takes the severity the tv
    episode-consistency step gives it when that step flags the file. *)
Theorem size_ratio_classification self cache ratio actual expected analysis mode :
  auto_mark_rb self = true ->
  let '(mx, mn, wn, _) := thresholds self mode in
  let v := fst (_evaluate_size_ratio fmt0 self cache ratio actual expected analysis mode) in
  let c := fst (_check_episode_consistency fmt0 self cache analysis actual) in
  let '(spec_severity, spec_recommendation) := spec_classification mx wn mn ratio in
  recommendation v = spec_recommendation
  /\ severity v =
       (if flagged fmt0 self cache actual analysis mode
           && String.eqb spec_severity "normal"
        then c_severity c else spec_severity).
Proof.
  intros Hrb.
  pose proof (threshold_verdict_spec self ratio mode Hrb) as Hs.
  pose proof (evaluate_size_ratio_cases self cache ratio actual expected analysis mode) as Hc.
  cbv zeta in Hc.
  destruct (thresholds self mode) as [[[mx mn] wn] cc].
  destruct (spec_classification mx wn mn ratio) as [ss sr].
  injection Hs as Hsev Hrec.
  destruct (flagged fmt0 self cache actual analysis mode); simpl.
  - destruct Hc as (_ & Hv & _ & Hr). rewrite Hr, Hv, Hsev, Hrec.
    split; [reflexivity|]. destruct (String.eqb ss "normal"); reflexivity.
  - rewrite Hc, Hsev, Hrec. split; reflexivity.
Qed.

(** A verdict that recommends ['mark_rb'] is flagged abnormal: the analyses
    built from a size check meet the guard of the planner's short-circuit. *)
Lemma mark_rb_is_abnormal self cache ratio actual expected analysis mode :
  let v := fst (_evaluate_size_ratio fmt0 self cache ratio actual expected analysis mode) in
  recommendation v = "mark_rb"%string -> is_abnormal v = true.
Proof.
  cbv zeta.
  pose proof (evaluate_size_ratio_cases self cache ratio actual expected analysis mode) as Hc.
  cbv zeta in Hc.
  destruct (flagged fmt0 self cache actual analysis mode).
  - now destruct Hc as (-> & _).
  - rewrite Hc. unfold threshold_verdict.
    destruct (thresholds self mode) as [[[mx mn] wn] cc].
    destruct (Qltb mx ratio); [reflexivity|].
    destruct (Qltb wn ratio); [reflexivity|].
    destruct (Qltb ratio mn); [reflexivity|]. discriminate.
Qed.

Lemma threshold_verdict_without_consistency self ratio mode :
  threshold_verdict fmt0 (without_consistency self) ratio mode
  = threshold_verdict fmt0 self ratio mode.
Proof.
  unfold threshold_verdict, thresholds. simpl.
  destruct (String.eqb mode "tv"); reflexivity.
Qed.

Lemma evaluate_without_consistency self cache ratio actual expected analysis :
  fst (_evaluate_size_ratio fmt0 (without_consistency self) cache ratio actual
         expected analysis "tv")
  = threshold_verdict fmt0 self ratio "tv".
Proof.
  unfold _evaluate_size_ratio, thresholds. simpl.
  rewrite andb_false_r. simpl. apply threshold_verdict_without_consistency.
Qed.

(** The consistency step flags a file only with a window of three or more
    samples in the cache it leaves, the new episode included. *)
Lemma consistency_flag_needs_three self cache analysis actual :
  let r := _check_episode_consistency fmt0 self cache analysis actual in
  is_inconsistent (fst r) = true ->
  exists show window,
    show_name analysis = Some show
    /\ snd r !! show = Some window
    /\ (3 <= length window)%nat
    /\ (c_severity (fst r) = "warning" \/ c_severity (fst r) = "critical")%string.
Proof.
  cbv zeta. unfold _check_episode_consistency.
  destruct (show_name analysis) as [show|]; [|discriminate].
  destruct (String.eqb show "" || negb (cache_patterns self)); [discriminate|].
  set (appended := default [] (cache !! show) ++ [actual]).
  set (window := if (tv_episode_cache_size self <? Z.of_nat (length appended))%Z
                 then py_last (tv_episode_cache_size self) appended else appended).
  destruct (length window <? 3)%nat eqn:Hlen; [discriminate|].
  destruct (1 <? length (removelast window))%nat; [|discriminate].
  match goal with |- context [if Qltb ?t ?d then _ else _] =>
    destruct (Qltb t d) end; [|discriminate].
  simpl. intros _. exists show, window. repeat split.
  - apply lookup_insert_eq.
  - now apply Nat.ltb_ge in Hlen.
  - match goal with |- context [if Qltb ?d 2 then _ else _] =>
      destruct (Qltb d 2) end; auto.
Qed.

(** C9. In tv mode the episode-consistency step leaves the recommendation
    of the thresholds in place (it is the one returned with the step
    switched off); it can only set [is_abnormal], turn a normal severity
    into warning or critical and extend the reason; and it flags a file
    only when the show's window holds at least three samples. *)
Theorem consistency_is_advisory self cache ratio actual expected analysis :
  let r := _evaluate_size_ratio fmt0 self cache ratio actual expected analysis "tv" in
  let v := fst r in
  let base := threshold_verdict fmt0 self ratio "tv" in
  let off := fst (_evaluate_size_ratio fmt0 (without_consistency self) cache ratio
                    actual expected analysis "tv") in
  recommendation v = recommendation base
  /\ recommendation v = recommendation off
  /\ (is_abnormal base = true -> is_abnormal v = true)
  /\ (severity v = severity base
      \/ severity base = "normal"%string
         /\ (severity v = "warning" \/ severity v = "critical")%string)
  /\ (exists suffix, reason v = (reason base +:+ suffix)%string)
  /\ (flagged fmt0 self cache actual analysis "tv" = false -> v = base)
  /\ (flagged fmt0 self cache actual analysis "tv" = true ->
      exists show window,
        show_name analysis = Some show
        /\ snd r !! show = Some window
        /\ (3 <= length window)%nat).
Proof.
  cbv zeta. rewrite evaluate_without_consistency.
  pose proof (evaluate_size_ratio_cases self cache ratio actual expected analysis "tv") as Hc.
  pose proof (consistency_flag_needs_three self cache analysis actual) as H3.
  cbv zeta in Hc, H3.
  destruct (flagged fmt0 self cache actual analysis "tv") eqn:Hf.
  - destruct Hc as (Hab & Hsev & Hrsn & Hrec).
    unfold flagged in Hf. apply andb_prop in Hf as [Hf Hinc].
    destruct (H3 Hinc) as (show & window & Hshow & Hlook & Hlen & Hcs).
    repeat split; auto.
    + rewrite Hsev. destruct (String.eqb (severity _) "normal") eqn:E; auto.
      right. split; [now apply String.eqb_eq|exact Hcs].
    + eexists. exact Hrsn.
    + discriminate.
    + intros _. exists show, window. repeat split; auto.
      unfold _evaluate_size_ratio, thresholds. simpl.
      simpl in Hf. rewrite Hf.
      destruct (_check_episode_consistency fmt0 self cache analysis actual) as [c cache'].
      simpl in *. now rewrite Hinc.
  - rewrite Hc. repeat split; auto.
    + exists ""%string. clear.
      induction (reason _) as [|a s IH]; [reflexivity|].
      change (String a s = String a (s +:+ "")). now rewrite <- IH.
    + discriminate.
Qed.

End Evaluate.

Lemma size_ratio_classification_witness :
  auto_mark_rb default_settings = true
  /\ recommendation SizeScenario.third_episode_verdict = "proceed"%string
  /\ severity SizeScenario.third_episode_verdict = "critical"%string.
Proof.
  split; [reflexivity|].
  exact (size_ratio_classification SizeScenario.fmt_int default_settings
           SizeScenario.two_small_episodes (700 / 516) 700 516
           SizeScenario.episode "tv" eq_refl).
Defined.

(** C6 as stated fails: with the default settings a 700 MB episode of a
    show whose earlier episodes were 160 MB has a ratio the thresholds call
    normal / proceed, and the evaluator returns severity critical. *)
Lemma size_ratio_classification_counterexample :
  spec_classification (tv_max_multiplier default_settings)
    (tv_warning_threshold default_settings)
    (tv_min_multiplier default_settings) (700 / 516)
  = ("normal", "proceed")%string
  /\ severity SizeScenario.third_episode_verdict = "critical"%string
  /\ recommendation SizeScenario.third_episode_verdict = "proceed"%string
  /\ is_abnormal SizeScenario.third_episode_verdict = true.
Proof. vm_compute. repeat split; reflexivity. Qed.

End SizeCheckerProps.

(** ** The action planner *)

Module PlannerProps.
Import Planner.

Section Plan.
Variable list_set : list string -> list string.

Lemma map_type_audio a :
  map type (audio_actions list_set a)
  = if negb (length (non_english_audio a) =? 0)%nat then ["audio_cleanup"%string] else [].
Proof. unfold audio_actions. destruct (non_english_audio a); reflexivity. Qed.

Lemma map_type_subtitle a :
  map type (subtitle_actions list_set a)
  = if negb (length (non_english_subtitles a) =? 0)%nat
    then ["subtitle_cleanup"%string] else [].
Proof. unfold subtitle_actions. destruct (non_english_subtitles a); reflexivity. Qed.

Lemma map_type_container a :
  map type (container_actions a)
  = if negb (String.eqb (PyStr.lower (original_format a)) "mkv")
    then ["container_conversion"%string] else [].
Proof. unfold container_actions. destruct (negb _); reflexivity. Qed.

Lemma map_type_video a :
  map type (video_actions a)
  = if negb (String.eqb (PyStr.lower (video_codec a)) "")
       && negb (App.in_strs (PyStr.lower (video_codec a)) ["h265"; "hevc"]%string)
    then ["video_conversion"%string] else [].
Proof. unfold video_actions. destruct (_ && _); reflexivity. Qed.


(** C7 (amended). When the size recommendation is not ['mark_rb'], the plan
    is, in this order: a size warning if the file is flagged for review, a
    container conversion iff the format is not MKV, a video conversion iff a
    video codec is known and is neither h265 nor hevc, an audio clean-up iff
    there is a non-English audio track, a subtitle clean-up iff there is a
    non-English subtitle, and last the filename standardization. *)
Theorem plan_ordering (a : Analysis) :
  get_or (size_recommendation a) "proceed"%string <> "mark_rb"%string ->
  let types := map type (_determine_processing_actions list_set a) in
  types
  = (if size_abnormal a
        && String.eqb (get_or (size_recommendation a) "proceed") "review"
     then ["size_warning"%string] else [])
    ++ spec_plan_types a
  /\ last types = Some "filename_standardization"%string.
Proof.
  intros Hrec. cbv zeta.
  assert (Heq : map type (_determine_processing_actions list_set a)
    = (if size_abnormal a
          && String.eqb (get_or (size_recommendation a) "proceed") "review"
       then ["size_warning"%string] else [])
      ++ spec_plan_types a).
  { unfold _determine_processing_actions, size_actions, spec_plan_types.
    apply String.eqb_neq in Hrec.
    destruct (size_abnormal a); simpl; rewrite ?Hrec;
      try destruct (String.eqb _ "review"); simpl;
      rewrite !map_app, map_type_container, map_type_video, map_type_audio,
        map_type_subtitle; reflexivity. }
  split; [exact Heq|].
  rewrite Heq. unfold spec_plan_types.
  rewrite !app_assoc. apply last_snoc.
Qed.

End Plan.



Lemma plan_ordering_witness :
  get_or (size_recommendation (blank "h264")) "proceed"%string <> "mark_rb"%string
  /\ map type (_determine_processing_actions (fun l => l) (blank "h264"))
     = ["video_conversion"; "filename_standardization"]%string.
Proof.
  assert (H : get_or (size_recommendation (blank "h264")) "proceed"%string
              <> "mark_rb"%string) by discriminate.
  split; [exact H|].
  exact (proj1 (plan_ordering (fun l => l) (blank "h264") H)).
Defined.

(** C7 as stated fails for a file without a video stream: its codec entry
    is empty, which is outside the target set, and no video conversion is
    planned. *)
Lemma plan_skips_video_without_codec :
  get_or (size_recommendation (blank "")) "proceed"%string <> "mark_rb"%string
  /\ App.in_strs (PyStr.lower (video_codec (blank ""))) ["h265"; "hevc"]%string = false
  /\ map type (_determine_processing_actions (fun l => l) (blank ""))
     = ["filename_standardization"%string].
Proof. split; [discriminate|]. split; reflexivity. Qed.

End PlannerProps.

(** ** The analysis caches *)

Module AnalyzerProps.
Import Planner Analyzer CacheScenario.

Section Caches.
Context {E : Env}.
Implicit Types (self : Analyzer E) (fs : Stat) (c : Dict.t Analysis).










End Caches.



End AnalyzerProps.

(** ** The transcode executor *)

Module ProcessorProps.
Import Processor.

Section Execute.
Variable E : Env.
Implicit Types (self : VideoProcessor) (fs : FS) (context : ProcessingContext).

Lemma after_run_other fs out written p :
  p <> out -> after_run fs out written !! p = fs !! p.
Proof.
  intros Hne. unfold after_run. destruct written; auto.
  now apply lookup_insert_ne.
Qed.

(** Every error result but the one of a failed move leaves the original
    file as it was: the tool wrote to the temporary path only, and the
    original is unlinked after the output has been verified. *)
Lemma error_keeps_original_unless_move_fails self fs p analysis actions context now :
  move_fails (faults E) = false ->
  p <> output_path self p now ->
  let out := _execute_ffmpeg_processing E self fs p analysis actions context now in
  success (fst (fst out)) = false ->
  snd (fst out) !! p = fs !! p.
Proof.
  intros Hmove Hne. cbv zeta. unfold _execute_ffmpeg_processing.
  destruct (ffmpeg_path self) as [tool|]; [|reflexivity].
  destruct (String.eqb tool ""); [reflexivity|].
  destruct (ffmpeg E _ fs) as [rc err written|partial|text]; simpl;
    try (intros _; now apply after_run_other); [|reflexivity].
  destruct (negb (rc =? 0)%Z); simpl; [intros _; now apply after_run_other|].
  destruct (after_run fs (output_path self p now) written !! output_path self p now)
    as [f|] eqn:Hout; simpl; [|intros _; now apply after_run_other].
  destruct (verify_output_size self && Qltb _ _); simpl;
    [intros _; now apply after_run_other|].
  destruct (verify_output_size self && Qltb _ _); simpl;
    [intros _; now apply after_run_other|].
  rewrite Hmove.
  destruct (after_run fs (output_path self p now) written !! p); simpl.
  - destruct (unlink_original_fails (faults E)); simpl; [|discriminate].
    intros _. now apply after_run_other.
  - discriminate.
Qed.

(** Once the tool has been looked up, the temporary output is gone when
    the context is left, whatever the result, unless its unlink fails. *)
Lemma temp_file_removed self fs p analysis actions now :
  unlink_temp_fails (faults E) = false ->
  truthy_str (ffmpeg_path self) = true ->
  p <> output_path self p now ->
  snd (execute_in_context E self fs p analysis actions now) !! output_path self p now
  = None.
Proof.
  intros Htemp Htool Hne. unfold execute_in_context.
  assert (Hclean : forall fs', _cleanup_temp_files E
            (add_temp_file (mark_for_cleanup new_context) (output_path self p now)) fs'
            !! output_path self p now = None).
  { intros fs'. unfold _cleanup_temp_files. simpl. rewrite Htemp.
    destruct (fs' !! output_path self p now) eqn:H; [apply lookup_delete_eq|exact H]. }
  unfold _execute_ffmpeg_processing.
  destruct (ffmpeg_path self) as [tool|]; [|discriminate].
  simpl in Htool. apply negb_true_iff in Htool. rewrite Htool.
  destruct (ffmpeg E _ fs) as [rc err written|partial|text]; simpl; auto.
  destruct (negb (rc =? 0)%Z); simpl; auto.
  destruct (after_run fs (output_path self p now) written !! output_path self p now);
    simpl; auto.
  repeat (destruct (verify_output_size self && Qltb _ _); simpl; auto).
  destruct (after_run fs (output_path self p now) written !! p); simpl;
    repeat match goal with |- context [if ?b then _ else _] => destruct b; simpl end;
    auto.
Qed.

End Execute.

(** C3 (the code departs from the claim). The transcode succeeds and is
    verified, the original is unlinked, and the move of the output into its
    place fails: the executor returns an error, the original no longer
    exists, and the clean-up of the context removes the only other copy. *)
Theorem failed_replace_loses_original :
  let '(result, fs') := TranscodeScenario.outcome in
  TranscodeScenario.library !! "/v/a.avi"%string = Some TranscodeScenario.original
  /\ success result = false
  /\ error_message result = Some "Failed to replace original file: [Errno]"%string
  /\ fs' !! "/v/a.avi"%string = None
  /\ fs' = ∅.
Proof. vm_compute. repeat split; reflexivity. Qed.

End ProcessorProps.

(** ** The recovery store: bookkeeping, reports and restarts *)

Module RecoveryExtra.
Import Recovery Calls Reports.

Lemma FileState_eqb_eq a b : FileState_eqb a b = true <-> a = b.
Proof. destruct a, b; simpl; split; congruence. Qed.

Lemma counter_update_statistics fs o n st :
  counter fs (_update_statistics o n st)
  = counter fs st - Z.b2z (FileState_eqb o fs) + Z.b2z (FileState_eqb n fs).
Proof. destruct fs, o, n; simpl; lia. Qed.

Lemma count_state_set fs k fi fi' (d : Dict.t FileInfo) :
  Dict.get k d = Some fi ->
  count_state fs (Dict.set k fi' d)
  = count_state fs d - Z.b2z (FileState_eqb (state fi) fs)
    + Z.b2z (FileState_eqb (state fi') fs).
Proof.
  unfold count_state. induction d as [|[k' v] d IH]; simpl; [discriminate|].
  destruct (String.eqb k k'); simpl.
  - intros [= ->].
    destruct (FileState_eqb (state fi) fs), (FileState_eqb (state fi') fs);
      simpl; lia.
  - intros H. specialize (IH H).
    destruct (FileState_eqb (state v) fs); simpl; lia.
Qed.

Lemma count_state_snoc fs k fi (d : Dict.t FileInfo) :
  count_state fs (d ++ [(k, fi)])
  = count_state fs d + Z.b2z (FileState_eqb (state fi) fs).
Proof.
  unfold count_state. rewrite List.filter_app, length_app. simpl.
  destruct (FileState_eqb (state fi) fs); simpl; lia.
Qed.

(** The entry an update starts from, and the dictionary it writes to. *)
Lemma update_file_state_shape m p ns e t o pr clk :
  let d := file_states (self_state m) in
  let tracked := if Dict.mem p d then d else Dict.set p (new_file_info clk) d in
  let fi0 := default (new_file_info clk) (Dict.get p d) in
  let m' := update_file_state m p ns e t o pr clk in
  exists fi',
    state fi' = ns
    /\ attempts fi' = (if truthy_str e then attempts fi0 + 1 else attempts fi0)
    /\ error_message fi' = (if truthy_str e then e else error_message fi0)
    /\ file_states (self_state m') = Dict.set p fi' tracked
    /\ statistics (self_state m') = _update_statistics (state fi0) ns (statistics (self_state m))
    /\ session_info (self_state m') = touch_session clk (session_info (self_state m))
    /\ error_log (self_state m') = error_log (self_state m)
    /\ recovery_checkpoints (self_state m') = recovery_checkpoints (self_state m).
Proof.
  cbv zeta. unfold update_file_state, Dict.mem.
  destruct (Dict.get p (file_states (self_state m))) as [fi|] eqn:Hget.
  - rewrite Hget. destruct (Qltb _ _); simpl;
      refine (ex_intro _ _ (conj _ (conj _ (conj _ (conj eq_refl _)))));
      repeat split.
  - rewrite DictFacts.get_set_eq. destruct (Qltb _ _); simpl;
      refine (ex_intro _ _ (conj _ (conj _ (conj _ (conj eq_refl _)))));
      repeat split.
Qed.

(** Every call is an update of the path it names, up to the error log. *)
Lemma perform_is_update m c :
  exists ns e t o pr,
    let m' := update_file_state m (call_path (fst c)) ns e t o pr (snd c) in
    file_states (self_state (perform m c)) = file_states (self_state m')
    /\ statistics (self_state (perform m c)) = statistics (self_state m')
    /\ session_info (self_state (perform m c)) = session_info (self_state m').
Proof.
  destruct c as [[] clk]; simpl; do 5 eexists; repeat split.
Qed.

Lemma mem_set_mono {V} q p (v : V) (d : Dict.t V) :
  Dict.mem q d = true -> Dict.mem q (Dict.set p v d) = true.
Proof.
  unfold Dict.mem. destruct (String.eqb_spec p q) as [->|Hne].
  - now rewrite DictFacts.get_set_eq.
  - now rewrite DictFacts.get_set_ne.
Qed.

Lemma counters_match_update m p ns e t o pr clk :
  Dict.mem p (file_states (self_state m)) = true ->
  counters_match m ->
  counters_match (update_file_state m p ns e t o pr clk).
Proof.
  intros Hmem Hm fs.
  destruct (update_file_state_shape m p ns e t o pr clk)
    as (fi' & Hst & _ & _ & Hfs & Hstats & _).
  rewrite Hfs, Hstats, Hmem. unfold Dict.mem in Hmem.
  destruct (Dict.get p (file_states (self_state m))) as [fi|] eqn:Hget; [|discriminate].
  simpl. rewrite counter_update_statistics, (count_state_set fs p fi fi' _ Hget), Hst.
  specialize (Hm fs). lia.
Qed.

Lemma count_state_all_pending fs (d : Dict.t FileInfo) :
  Forall (fun kv => state (snd kv) = PENDING) d ->
  count_state fs d = if FileState_eqb PENDING fs then Z.of_nat (length d) else 0.
Proof.
  unfold count_state. induction 1 as [|[k v] d Hv Hd IH]; simpl in *.
  - destruct fs; reflexivity.
  - rewrite Hv. destruct fs; simpl in *; lia.
Qed.

Lemma counters_match_start m mode dir files clk :
  NoDup files ->
  counters_match (fst (start_session m mode dir files clk))
  /\ Dict.keys (file_states (self_state (fst (start_session m mode dir files clk))))
     = files.
Proof.
  intros Hnd.
  destruct (RecoveryProps.register_files_spec_aux clk files [] Hnd (List.Forall_nil _))
    as [Hk Hall].
  simpl in Hk. split; [|exact Hk].
  intros fs. simpl. unfold register_files.
  rewrite (count_state_all_pending fs _ Hall).
  apply (f_equal (@length _)) in Hk. unfold Dict.keys in Hk. rewrite length_map in Hk.
  rewrite Hk. destruct fs; reflexivity.
Qed.

(** Calls on registered files keep the counters exact and the set of
    tracked files fixed. *)
Lemma tracked_invariant m0 mode dir (files : list string) clk0 calls :
  NoDup files ->
  Forall (fun c => In (call_path (fst c)) files) calls ->
  let m := perform_all (fst (start_session m0 mode dir files clk0)) calls in
  counters_match m
  /\ Dict.keys (file_states (self_state m)) = files
  /\ total_files_found (session_info (self_state m)) = Z.of_nat (length files).
Proof.
  intros Hnd Hcalls. cbv zeta. unfold perform_all.
  destruct (counters_match_start m0 mode dir files clk0 Hnd) as [H1 H2].
  assert (H3 : total_files_found
                 (session_info (self_state (fst (start_session m0 mode dir files clk0))))
               = Z.of_nat (length files)) by reflexivity.
  set (m1 := fst (start_session m0 mode dir files clk0)) in *.
  clearbody m1. revert m1 H1 H2 H3.
  induction Hcalls as [|c calls Hc _ IH]; intros m1 H1 H2 H3; simpl; [auto|].
  destruct (perform_is_update m1 c) as (ns & e & t & o & pr & Hfs & Hstats & Hsi).
  destruct (update_file_state_shape m1 (call_path (fst c)) ns e t o pr (snd c))
    as (fi' & _ & _ & _ & Hd & _ & Hsi' & _).
  assert (Hmem : Dict.mem (call_path (fst c)) (file_states (self_state m1)) = true).
  { apply DictFacts.mem_keys. now rewrite H2. }
  apply IH.
  - intros fs. unfold counters_match in *. rewrite Hfs, Hstats.
    apply counters_match_update; auto.
  - rewrite Hfs, Hd, Hmem. now rewrite DictFacts.keys_set_in.
  - rewrite Hsi, Hsi'. exact H3.
Qed.

(** X1. When the session is started over a duplicate-free file list and
    every later call names a file of that list, each of the seven counters
    is the number of tracked files in its state. *)
Theorem counters_track_states m0 mode dir (files : list string) clk0 calls :
  NoDup files ->
  Forall (fun c => In (call_path (fst c)) files) calls ->
  counters_match (perform_all (fst (start_session m0 mode dir files clk0)) calls).
Proof.
  intros Hnd Hcalls.
  exact (proj1 (tracked_invariant m0 mode dir files clk0 calls Hnd Hcalls)).
Qed.

Lemma counters_track_states_witness :
  NoDup Scenario.files
  /\ counters_match
       (perform_all
          (fst (start_session (init Scenario.no_disk None (Scenario.tick "1" 0))
                  "tv" "/v" Scenario.files (Scenario.tick "1" 1)))
          [(MarkInProgress "/v/a.mkv", Scenario.tick "1" 2);
           (MarkFailed "/v/a.mkv" "boom" 0, Scenario.tick "1" 3)]).
Proof.
  assert (Hnd : NoDup Scenario.files).
  { apply (bool_decide_unpack _). vm_compute. exact I. }
  split; [exact Hnd|].
  apply counters_track_states; [exact Hnd|].
  repeat constructor; simpl; auto.
Defined.

Lemma perform_keeps_completed m c :
  session_completed (session_info (self_state (perform m c)))
  = session_completed (session_info (self_state m)).
Proof.
  destruct (perform_is_update m c) as (ns & e & t & o & pr & _ & _ & Hsi).
  destruct (update_file_state_shape m (call_path (fst c)) ns e t o pr (snd c))
    as (fi' & _ & _ & _ & _ & _ & Hsi' & _).
  now rewrite Hsi, Hsi'.
Qed.

(** X2. Once [complete_session] has run, [can_resume_session] is false and
    stays false under every later update, whatever the counters say. *)
Theorem completed_session_is_not_resumable m clk calls :
  can_resume_session (perform_all (complete_session m clk) calls) = false.
Proof.
  unfold perform_all.
  assert (H : session_completed (session_info (self_state (complete_session m clk)))
              = true) by reflexivity.
  revert H. generalize (complete_session m clk). clear m clk.
  induction calls as [|c calls IH]; intros m H; simpl.
  - unfold can_resume_session. now rewrite H, orb_true_r.
  - apply IH. now rewrite perform_keeps_completed.
Qed.





Lemma update_lookup m p ns e t o pr clk :
  let m' := update_file_state m p ns e t o pr clk in
  option_map state (Dict.get p (file_states (self_state m'))) = Some ns
  /\ (forall q, q <> p ->
        Dict.get q (file_states (self_state m'))
        = Dict.get q (file_states (self_state m))).
Proof.
  cbv zeta.
  destruct (update_file_state_shape m p ns e t o pr clk)
    as (fi' & Hst & _ & _ & Hfs & _).
  rewrite Hfs. split.
  - rewrite DictFacts.get_set_eq. simpl. now rewrite Hst.
  - intros q Hq. rewrite DictFacts.get_set_ne by congruence.
    destruct (Dict.mem p _); [reflexivity|].
    now rewrite DictFacts.get_set_ne by congruence.
Qed.

Lemma update_keys m p ns e t o pr clk :
  Dict.keys (file_states (self_state (update_file_state m p ns e t o pr clk)))
  = (if Dict.mem p (file_states (self_state m))
     then Dict.keys (file_states (self_state m))
     else Dict.keys (file_states (self_state m)) ++ [p]).
Proof.
  destruct (update_file_state_shape m p ns e t o pr clk)
    as (fi' & _ & _ & _ & Hfs & _).
  rewrite Hfs.
  destruct (Dict.mem p (file_states (self_state m))) eqn:Hmem.
  - now rewrite DictFacts.keys_set_in.
  - rewrite DictFacts.keys_set_in
      by (unfold Dict.mem; now rewrite DictFacts.get_set_eq).
    now rewrite DictFacts.keys_set_new.
Qed.

(** X4. An update rewrites the entry of the path it names (adding the path
    last when it is unknown) and no other: the path is then in the new
    state, and every other path reads as before. *)
Theorem update_changes_one_file m p ns e t o pr clk :
  let m' := update_file_state m p ns e t o pr clk in
  option_map state (Dict.get p (file_states (self_state m'))) = Some ns
  /\ (forall q, q <> p ->
        Dict.get q (file_states (self_state m'))
        = Dict.get q (file_states (self_state m)))
  /\ Dict.keys (file_states (self_state m'))
     = (if Dict.mem p (file_states (self_state m))
        then Dict.keys (file_states (self_state m))
        else Dict.keys (file_states (self_state m)) ++ [p]).
Proof.
  cbv zeta. destruct (update_lookup m p ns e t o pr clk) as [H1 H2].
  split; [exact H1|]. split; [exact H2|]. apply update_keys.
Qed.

(** X5. A crash at any instant strictly inside a save leaves a state file
    that is absent or truncated: the next start loads nothing and cannot
    resume, although the backup holds the previous snapshot the whole time. *)
Theorem crash_during_save_forgets_session d s0 s writes cfg clk i d' :
  parse (state_file d) = Some s0 ->
  (1 <= i <= S (S writes))%nat ->
  save_trace d s writes !! i = Some d' ->
  parse (backup_file d') = Some s0
  /\ self_state (init d' cfg clk) = initial_state
  /\ can_resume_session (init d' cfg clk) = false.
Proof.
  intros H0 Hi Hd'. destruct d as [cur bak]. simpl in H0.
  destruct cur as [[s0'|]|]; try discriminate. injection H0 as ->.
  unfold save_trace in Hd'. simpl in Hd'.
  destruct i as [|[|k]]; [lia| |].
  - injection Hd' as <-. repeat split.
  - change (S (S k)) with (2 + k)%nat in Hd'. simpl in Hd'.
    destruct k as [|k]; simpl in Hd'.
    + injection Hd' as <-. repeat split.
    + rewrite lookup_app_l in Hd' by (rewrite length_map, length_seq; lia).
      rewrite list_lookup_fmap in Hd'.
      destruct (seq 1 writes !! k); simpl in Hd'; [|discriminate].
      injection Hd' as <-. repeat split.
Qed.

Lemma crash_during_save_forgets_session_witness :
  let d := {| state_file := Some (Complete initial_state); backup_file := None |} in
  parse (state_file d) = Some initial_state
  /\ can_resume_session
       (init {| state_file := Some (Truncated initial_state 0);
                backup_file := Some (Complete initial_state) |} None Reports.noon_clock)
     = false.
Proof.
  cbv zeta. split; [reflexivity|].
  apply (crash_during_save_forgets_session
           {| state_file := Some (Complete initial_state); backup_file := None |}
           initial_state initial_state 0 None Reports.noon_clock 2
           {| state_file := Some (Truncated initial_state 0);
              backup_file := Some (Complete initial_state) |}).
  - reflexivity.
  - lia.
  - reflexivity.
Defined.

Lemma get_In {V} k (v : V) (d : Dict.t V) : Dict.get k d = Some v -> In (k, v) d.
Proof.
  induction d as [|[k' v'] d IH]; simpl; [discriminate|].
  destruct (String.eqb_spec k k') as [->|Hne].
  - intros [= ->]. now left.
  - intros H. right. auto.
Qed.

(** X6. [mark_file_failed] leaves the file in state failed, listed by
    [get_failed_files], and appends one entry to the error log; the attempt
    counter moves and the message is stored only when the message is not
    empty. *)
Theorem failure_is_recorded m p e t clk :
  let m' := mark_file_failed m p e t clk in
  let before := default (new_file_info clk) (Dict.get p (file_states (self_state m))) in
  (exists fi,
     Dict.get p (file_states (self_state m')) = Some fi
     /\ state fi = FAILED
     /\ attempts fi = (if String.eqb e "" then attempts before else attempts before + 1)
     /\ error_message fi = (if String.eqb e "" then error_message before else Some e))
  /\ In p (map ff_file_path (get_failed_files m'))
  /\ error_log (self_state m')
     = error_log (self_state m)
       ++ [{| err_timestamp := iso clk; err_file := p; err_error := e |}].
Proof.
  cbv zeta.
  destruct (update_file_state_shape m p FAILED (Some e) t None None clk)
    as (fi' & Hst & Hatt & Herr & Hfs & _ & _ & Hlog & _).
  assert (Hget : Dict.get p (file_states (self_state (mark_file_failed m p e t clk)))
                 = Some fi').
  { unfold mark_file_failed. simpl. rewrite Hfs. apply DictFacts.get_set_eq. }
  split; [|split].
  - exists fi'. simpl in Hatt, Herr.
    destruct (String.eqb e ""); simpl in *; auto.
  - unfold get_failed_files. rewrite map_map. simpl.
    apply in_map_iff. exists (p, fi'). split; [reflexivity|].
    apply filter_In. split; [now apply get_In|]. simpl. now rewrite Hst.
  - unfold mark_file_failed. simpl. now rewrite Hlog.
Qed.

Lemma perform_keeps_totals m c :
  total_space_saved (statistics (self_state (perform m c)))
  = total_space_saved (statistics (self_state m))
  /\ total_processing_time (statistics (self_state (perform m c)))
     = total_processing_time (statistics (self_state m)).
Proof.
  destruct (perform_is_update m c) as (ns & e & t & o & pr & _ & Hstats & _).
  destruct (update_file_state_shape m (call_path (fst c)) ns e t o pr (snd c))
    as (fi' & _ & _ & _ & _ & Hs & _).
  rewrite Hstats, Hs. split; reflexivity.
Qed.

(** X7. The two totals of the statistics are written by [start_session]
    only: whatever is reported afterwards, the space saved and the total
    processing time stay zero, and the summary never estimates the time
    remaining. *)
Theorem totals_are_never_updated m0 mode dir (files : list string) clk0 calls :
  let m := perform_all (fst (start_session m0 mode dir files clk0)) calls in
  total_space_saved (statistics (self_state m)) = 0
  /\ total_processing_time (statistics (self_state m)) = 0%Q
  /\ estimated_time_remaining (get_session_summary m) = None.
Proof.
  cbv zeta.
  assert (H : total_space_saved
                (statistics (self_state
                   (perform_all (fst (start_session m0 mode dir files clk0)) calls))) = 0
              /\ total_processing_time
                   (statistics (self_state
                      (perform_all (fst (start_session m0 mode dir files clk0)) calls)))
                 = 0%Q).
  { unfold perform_all.
    assert (H0 : total_space_saved
                   (statistics (self_state (fst (start_session m0 mode dir files clk0)))) = 0
                 /\ total_processing_time
                      (statistics (self_state (fst (start_session m0 mode dir files clk0))))
                    = 0%Q) by (split; reflexivity).
    revert H0. generalize (fst (start_session m0 mode dir files clk0)).
    induction calls as [|c calls IH]; intros m1 H0; simpl; [exact H0|].
    apply IH. destruct (perform_keeps_totals m1 c) as [-> ->]. exact H0. }
  destruct H as [H1 H2]. repeat split; auto.
  unfold get_session_summary. cbn [estimated_time_remaining]. rewrite H2.
  now rewrite andb_false_r.
Qed.

Lemma progress_bounds (c t : Z) :
  0 <= c <= t -> 0 < t ->
  (0 <= inject_Z c / inject_Z t * 100 <= 100)%Q.
Proof.
  intros [Hc Hct] Ht.
  assert (Ht' : (0 < inject_Z t)%Q).
  { change (inject_Z 0 < inject_Z t)%Q. now rewrite <- Zlt_Qlt. }
  assert (Hlo : (0 <= inject_Z c / inject_Z t)%Q).
  { apply Qle_shift_div_l; [exact Ht'|]. rewrite Qmult_0_l.
    change (inject_Z 0 <= inject_Z c)%Q. now rewrite <- Zle_Qle. }
  assert (Hhi : (inject_Z c / inject_Z t <= 1)%Q).
  { apply Qle_shift_div_r; [exact Ht'|]. rewrite Qmult_1_l. now rewrite <- Zle_Qle. }
  split.
  - apply Qmult_le_0_compat; [exact Hlo|discriminate].
  - change (100%Q) with (1 * 100)%Q at 2.
    apply Qmult_le_compat_r; [exact Hhi|discriminate].
Qed.

Lemma count_state_le fs (d : Dict.t FileInfo) :
  0 <= count_state fs d <= Z.of_nat (length d).
Proof.
  unfold count_state. split; [lia|].
  apply Nat2Z.inj_le, List.filter_length_le.
Qed.

(** X8. When the session is started over a duplicate-free file list and
    every later call names a file of that list, the progress the summary
    reports lies between 0 and 100 per cent. *)
Theorem progress_is_a_percentage m0 mode dir (files : list string) clk0 calls :
  NoDup files ->
  Forall (fun c => In (call_path (fst c)) files) calls ->
  let m := perform_all (fst (start_session m0 mode dir files clk0)) calls in
  (0 <= progress_percentage (get_session_summary m) <= 100)%Q.
Proof.
  intros Hnd Hcalls. cbv zeta.
  destruct (tracked_invariant m0 mode dir files clk0 calls Hnd Hcalls)
    as (Hcm & Hkeys & Htot).
  set (m := perform_all (fst (start_session m0 mode dir files clk0)) calls) in *.
  unfold get_session_summary. cbn [progress_percentage].
  destruct (0 <? total_files_found (session_info (self_state m))) eqn:Hpos.
  - apply Z.ltb_lt in Hpos. apply progress_bounds; [|exact Hpos].
    specialize (Hcm COMPLETED). simpl in Hcm. rewrite Hcm, Htot.
    apply (f_equal (@length _)) in Hkeys. unfold Dict.keys in Hkeys.
    rewrite length_map in Hkeys. rewrite <- Hkeys. apply count_state_le.
  - split; discriminate.
Qed.

Lemma progress_is_a_percentage_witness :
  NoDup Scenario.files
  /\ (0 <= progress_percentage
             (get_session_summary
                (perform_all
                   (fst (start_session (init Scenario.no_disk None (Scenario.tick "1" 0))
                           "tv" "/v" Scenario.files (Scenario.tick "1" 1)))
                   [(MarkCompleted "/v/b.mkv" 0 None None, Scenario.tick "1" 2)]))
      <= 100)%Q.
Proof.
  assert (Hnd : NoDup Scenario.files).
  { apply (bool_decide_unpack _). vm_compute. exact I. }
  split; [exact Hnd|].
  apply progress_is_a_percentage; [exact Hnd|].
  constructor; [|constructor].
  simpl. right. left. reflexivity.
Defined.

Lemma process_one_calls pf sz m f b a :
  App.process_one pf sz m f b a = perform_all m (iteration_calls pf sz f b a).
Proof.
  unfold App.process_one, iteration_calls, perform_all.
  destruct (pf f) as [status message out|text]; [|reflexivity].
  destruct (App.in_strs status ["success"; "completed"]); [reflexivity|].
  destruct (App.in_strs status ["skipped"; "blocked"]); reflexivity.
Qed.

Lemma process_loop_calls pf sz tick files : forall i m,
  App.process_loop pf sz tick i m files
  = (perform_all m (loop_calls pf sz tick i files), files).
Proof.
  induction files as [|f rest IH]; intros i m; [reflexivity|].
  cbn [App.process_loop loop_calls].
  rewrite IH, process_one_calls. unfold perform_all.
  now rewrite (fold_left_app perform (iteration_calls pf sz f (tick i) (tick (S i)))).
Qed.

Lemma iteration_calls_shape pf sz f b a :
  exists c, iteration_calls pf sz f b a = [(MarkInProgress f, b); (c, a)]
            /\ call_path c = f /\ settled (call_state c) = true
            /\ call_state c = outcome_state (pf f).
Proof.
  unfold iteration_calls, outcome_state.
  destruct (pf f) as [status message out|text].
  - destruct (App.in_strs status ["success"; "completed"]); [eexists; repeat split|].
    destruct (App.in_strs status ["skipped"; "blocked"]); eexists; repeat split.
  - eexists; repeat split.
Qed.

Lemma loop_calls_paths pf sz tick files : forall i,
  Forall (fun c => In (call_path (fst c)) files) (loop_calls pf sz tick i files).
Proof.
  induction files as [|f rest IH]; intros i; cbn [loop_calls]; [constructor|].
  destruct (iteration_calls_shape pf sz f (tick i) (tick (S i))) as (c & -> & Hp & _ & _).
  simpl. constructor; [now left|]. constructor; [left; exact (eq_sym Hp)|].
  eapply List.Forall_impl; [|apply IH]. intros x Hx. now right.
Qed.

Lemma perform_lookup m c :
  option_map state (Dict.get (call_path (fst c)) (file_states (self_state (perform m c))))
  = Some (call_state (fst c))
  /\ (forall q, q <> call_path (fst c) ->
        Dict.get q (file_states (self_state (perform m c)))
        = Dict.get q (file_states (self_state m))).
Proof.
  destruct c as [[] clk]; apply update_lookup.
Qed.

Lemma process_one_settles pf sz m f b a :
  option_map state
    (Dict.get f (file_states (self_state (App.process_one pf sz m f b a))))
  = Some (outcome_state (pf f))
  /\ (forall q, q <> f ->
        Dict.get q (file_states (self_state (App.process_one pf sz m f b a)))
        = Dict.get q (file_states (self_state m))).
Proof.
  rewrite process_one_calls.
  destruct (iteration_calls_shape pf sz f b a) as (c & -> & Hp & _ & Hs).
  unfold perform_all. simpl.
  destruct (perform_lookup (perform m (MarkInProgress f, b)) (c, a)) as [H1 H2].
  destruct (perform_lookup m (MarkInProgress f, b)) as [_ H3].
  simpl in H1, H2, H3. rewrite Hp in H1, H2. split.
  - now rewrite <- Hs.
  - intros q Hq. rewrite H2 by exact Hq. now apply H3.
Qed.

Lemma process_loop_settles pf sz tick files : forall i m,
  (forall f, In f files ->
     option_map state
       (Dict.get f (file_states
          (self_state (fst (App.process_loop pf sz tick i m files)))))
     = Some (outcome_state (pf f)))
  /\ (forall q, ~ In q files ->
        Dict.get q (file_states
          (self_state (fst (App.process_loop pf sz tick i m files))))
        = Dict.get q (file_states (self_state m))).
Proof.
  induction files as [|f rest IH]; intros i m.
  - simpl. split; [intros f []|reflexivity].
  - simpl.
    destruct (IH (S (S i)) (App.process_one pf sz m f (tick i) (tick (S i))))
      as [IH1 IH2].
    destruct (process_one_settles pf sz m f (tick i) (tick (S i))) as [H1 H2].
    destruct (App.process_loop pf sz tick (S (S i)) _ rest) as [m'' done] eqn:E.
    simpl in *. split.
    + intros g Hg. destruct (in_dec String.string_dec g rest) as [Hin|Hnin].
      * now apply IH1.
      * destruct Hg as [<-|Hg]; [|contradiction].
        rewrite IH2 by exact Hnin. exact H1.
    + intros q Hq. rewrite IH2 by tauto. apply H2. intros ->. tauto.
Qed.

Lemma In_get_NoDup {V} k (v : V) (d : Dict.t V) :
  NoDup (Dict.keys d) -> In (k, v) d -> Dict.get k d = Some v.
Proof.
  unfold Dict.keys. induction d as [|[k' v'] d IH]; simpl; [tauto|].
  intros Hnd [Heq|Hin].
  - inversion Heq; subst. now rewrite String.eqb_refl.
  - apply NoDup_cons in Hnd as [Hk Hnd].
    destruct (String.eqb_spec k k') as [->|Hne]; [|auto].
    exfalso. apply Hk, list_elem_of_In, in_map_iff. now exists (k', v).
Qed.



Lemma count_state_none fs (d : Dict.t FileInfo) :
  Forall (fun kv => state (snd kv) <> fs) d -> count_state fs d = 0%Z.
Proof.
  unfold count_state. induction 1 as [|[k v] d Hv Hd IH]; [reflexivity|].
  cbn [List.filter snd] in *.
  destruct (FileState_eqb (state v) fs) eqn:E; [|exact IH].
  exfalso. apply Hv. destruct (state v), fs; try discriminate; reflexivity.
Qed.

Lemma complete_session_state m clk :
  file_states (self_state (complete_session m clk)) = file_states (self_state m)
  /\ statistics (self_state (complete_session m clk)) = statistics (self_state m)
  /\ can_resume_session (complete_session m clk) = false
  /\ parse (state_file (disk (complete_session m clk)))
     = Some (self_state (complete_session m clk)).
Proof.
  repeat split. unfold can_resume_session. simpl. now rewrite orb_true_r.
Qed.

(** The shape of a run that is not interrupted: the session is started
    over the listing, the calls of the loop are made, the session is
    completed. *)
Lemma completed_run_shape d cfg mode dir (files : list string) pf sz tick :
  NoDup files -> files <> [] ->
  exists m sid clk,
    App.run_processing d cfg mode dir files pf sz tick None
    = (complete_session m clk, Some sid, files)
    /\ counters_match m
    /\ Dict.keys (file_states (self_state m)) = files
    /\ (forall f, In f files ->
          exists fi, Dict.get f (file_states (self_state m)) = Some fi
                     /\ state fi = outcome_state (pf f))
    /\ (forall k v, In (k, v) (file_states (self_state m)) ->
          In k files /\ state v = outcome_state (pf k)).
Proof.
  intros Hnd Hne. unfold App.run_processing.
  destruct files as [|f0 rest] eqn:Ef; [congruence|]. rewrite <- Ef in *.
  set (m0 := init d cfg (tick 0%nat)).
  assert (Hsel : App.select_files m0 mode dir files (tick 1%nat)
                 = (fst (start_session m0 mode dir files (tick 1%nat)),
                    snd (start_session m0 mode dir files (tick 1%nat)), files)).
  { unfold App.select_files.
    pose proof (RecoveryProps.get_pending_after_start m0 mode dir files (tick 1%nat) Hnd) as Hp.
    destruct (start_session m0 mode dir files (tick 1%nat)) as [m1 sid].
    simpl in *. destruct (can_resume_session m1); [now rewrite Hp|reflexivity]. }
  rewrite Hsel, process_loop_calls.
  set (m1 := fst (start_session m0 mode dir files (tick 1%nat))).
  set (calls := loop_calls pf sz tick 2 files).
  destruct (tracked_invariant m0 mode dir files (tick 1%nat) calls Hnd
              (loop_calls_paths pf sz tick files 2)) as (Hcm & Hkeys & _).
  fold m1 in Hkeys, Hcm.
  destruct (process_loop_settles pf sz tick files 2 m1) as [Hset _].
  rewrite process_loop_calls in Hset. simpl fst in Hset. fold calls in Hset.
  assert (Hall : forall f, In f files ->
            exists fi, Dict.get f (file_states (self_state (perform_all m1 calls))) = Some fi
                       /\ state fi = outcome_state (pf f)).
  { intros f Hf. pose proof (Hset f Hf) as Hget.
    destruct (Dict.get f _) as [fi|]; [|discriminate].
    exists fi. split; [reflexivity|]. simpl in Hget. congruence. }
  exists (perform_all m1 calls), (snd (start_session m0 mode dir files (tick 1%nat))),
    (tick (2 + 2 * length files)%nat).
  split; [reflexivity|]. split; [exact Hcm|]. split; [exact Hkeys|].
  split; [exact Hall|].
  intros k v Hin.
  assert (Hk : In k files).
  { rewrite <- Hkeys. unfold Dict.keys. apply in_map_iff. now exists (k, v). }
  split; [exact Hk|].
  destruct (Hall k Hk) as (fi & Hget & Hfi).
  rewrite (In_get_NoDup k v) in Hget; [congruence| |exact Hin].
  now rewrite Hkeys.
Qed.



End RecoveryExtra.

(** ** The size checker's episode cache and recommendations *)

Module SizeCheckerExtra.
Import SizeChecker Windows.
Local Open Scope Q_scope.

Lemma window_of_length self before actual :
  (1 <= tv_episode_cache_size self)%Z ->
  (Z.of_nat (length (window_of self before actual)) <= tv_episode_cache_size self)%Z.
Proof.
  intros Hn. unfold window_of.
  destruct (tv_episode_cache_size self <? Z.of_nat (length (before ++ [actual])))%Z eqn:E.
  - apply Z.ltb_lt in E. unfold py_last.
    destruct (0 <? tv_episode_cache_size self)%Z eqn:E0; [|apply Z.ltb_ge in E0; lia].
    rewrite length_skipn. lia.
  - apply Z.ltb_ge in E. exact E.
Qed.

Section Checks.
Variable fmt0 : Q -> string.
Variable _analyze_filename : string -> string -> ContentAnalysis.

Lemma consistency_cache_update self cache analysis actual show :
  show_name analysis = Some show -> show <> ""%string -> cache_patterns self = true ->
  snd (_check_episode_consistency fmt0 self cache analysis actual)
  = <[show := window_of self (default [] (cache !! show)) actual]> cache.
Proof.
  intros Hshow Hne Hcp. unfold _check_episode_consistency. rewrite Hshow, Hcp.
  apply String.eqb_neq in Hne. rewrite Hne. cbn [orb negb].
  fold (window_of self (default [] (cache !! show)) actual).
  destruct (length (window_of self (default [] (cache !! show)) actual) <? 3)%nat;
    [reflexivity|].
  destruct (1 <? length (removelast (window_of self (default [] (cache !! show)) actual)))%nat;
    [|reflexivity].
  match goal with |- context [if Qltb ?t ?d then _ else _] => destruct (Qltb t d) end;
    reflexivity.
Qed.

Lemma consistency_cache_cases self cache analysis actual :
  snd (_check_episode_consistency fmt0 self cache analysis actual) = cache
  \/ exists show,
       show_name analysis = Some show /\ show <> ""%string
       /\ cache_patterns self = true
       /\ snd (_check_episode_consistency fmt0 self cache analysis actual)
          = <[show := window_of self (default [] (cache !! show)) actual]> cache.
Proof.
  destruct (show_name analysis) as [show|] eqn:Hshow.
  - destruct (String.eqb_spec show "") as [->|Hne].
    + left. unfold _check_episode_consistency. now rewrite Hshow.
    + destruct (cache_patterns self) eqn:Hcp.
      * right. exists show. repeat split; auto.
        now apply consistency_cache_update.
      * left. unfold _check_episode_consistency. rewrite Hshow, Hcp.
        now rewrite orb_true_r.
  - left. unfold _check_episode_consistency. now rewrite Hshow.
Qed.

Lemma check_file_size_cache_shape self cache st_size filename mode :
  let r := check_file_size fmt0 _analyze_filename self cache st_size filename mode in
  snd r = cache
  \/ exists bytes show,
       snd r = <[show := window_of self (default [] (cache !! show))
                           (inject_Z bytes / inject_Z (1024 * 1024))]> cache.
Proof.
  cbv zeta. unfold check_file_size.
  destruct st_size as [bytes|]; [|now left].
  destruct (String.eqb mode "tv" && negb (tv_enable_checking self)); [now left|].
  destruct (String.eqb mode "movie" && negb (movie_enable_checking self)); [now left|].
  unfold _evaluate_size_ratio.
  destruct (thresholds self mode) as [[[mx mn] wn] cc].
  destruct (String.eqb mode "tv" && is_tv_episode (_analyze_filename filename mode) && cc);
    [|now left].
  destruct (consistency_cache_cases self cache (_analyze_filename filename mode)
              (inject_Z bytes / inject_Z (1024 * 1024))) as [Hc|(show & _ & _ & _ & Hc)];
    destruct (_check_episode_consistency fmt0 self cache _ _) as [c cache'];
    cbn [snd] in Hc; subst cache'.
  - left. now destruct (is_inconsistent c).
  - right. exists bytes, show. now destruct (is_inconsistent c).
Qed.

(** X10. [check_file_size] changes the episode cache only for a file that
    exists, in tv mode, with tv size checking, consistency checking and
    pattern caching all enabled, and whose name is recognised as an episode
    of a named show; then the one window that changes is that show's, which
    receives the file's size in MB and is trimmed. *)
Theorem episode_cache_changes_only_for_tv_episodes self cache st_size filename mode :
  let r := check_file_size fmt0 _analyze_filename self cache st_size filename mode in
  snd r = cache
  \/ exists bytes show,
       st_size = Some bytes /\ mode = "tv"%string
       /\ tv_enable_checking self = true /\ tv_consistency_checking self = true
       /\ cache_patterns self = true
       /\ is_tv_episode (_analyze_filename filename mode) = true
       /\ show_name (_analyze_filename filename mode) = Some show
       /\ show <> ""%string
       /\ snd r = <[show := window_of self (default [] (cache !! show))
                              (inject_Z bytes / inject_Z (1024 * 1024))]> cache.
Proof.
  cbv zeta. unfold check_file_size.
  destruct st_size as [bytes|]; [|now left].
  destruct (String.eqb_spec mode "tv") as [->|Hmode].
  - cbn [String.eqb Ascii.eqb Bool.eqb andb].
    destruct (tv_enable_checking self) eqn:Hen; cbn [negb]; [|now left].
    unfold _evaluate_size_ratio, thresholds. cbn [String.eqb Ascii.eqb Bool.eqb andb].
    destruct (is_tv_episode (_analyze_filename filename "tv")) eqn:Htv; [|now left].
    destruct (tv_consistency_checking self) eqn:Hcc; [|now left].
    cbn [andb].
    destruct (consistency_cache_cases self cache (_analyze_filename filename "tv")
                (inject_Z bytes / inject_Z (1024 * 1024))) as [Hc|(show & Hs & Hne & Hcp & Hc)];
      destruct (_check_episode_consistency fmt0 self cache _ _) as [c cache'];
      cbn [snd] in Hc; subst cache'.
    + left. now destruct (is_inconsistent c).
    + right. exists bytes, show. repeat split; auto.
      now destruct (is_inconsistent c).
  - cbn [andb].
    destruct (String.eqb mode "movie" && negb (movie_enable_checking self)); [now left|].
    left. unfold _evaluate_size_ratio, thresholds.
    apply String.eqb_neq in Hmode. rewrite Hmode. reflexivity.
Qed.

(** X11. With a configured window of at least one size, [check_file_size]
    keeps every show's window within the configured length. *)
Theorem episode_window_stays_bounded self cache st_size filename mode :
  (1 <= tv_episode_cache_size self)%Z ->
  window_bounded (tv_episode_cache_size self) cache ->
  window_bounded (tv_episode_cache_size self)
    (snd (check_file_size fmt0 _analyze_filename self cache st_size filename mode)).
Proof.
  intros Hn Hb.
  destruct (check_file_size_cache_shape self cache st_size filename mode)
    as [->|(bytes & show & ->)]; [exact Hb|].
  intros show' w. destruct (decide (show = show')) as [->|Hne].
  - rewrite lookup_insert_eq. intros [= <-]. now apply window_of_length.
  - rewrite lookup_insert_ne by exact Hne. apply Hb.
Qed.

(** X12. With a configured window of zero sizes nothing is ever trimmed:
    the slice [sizes[-0:]] is the whole list, and the show's window is the
    earlier one with the new size appended, however long it is. *)
Theorem zero_window_is_never_trimmed self cache analysis actual show :
  tv_episode_cache_size self = 0%Z ->
  show_name analysis = Some show -> show <> ""%string -> cache_patterns self = true ->
  snd (_check_episode_consistency fmt0 self cache analysis actual) !! show
  = Some (default [] (cache !! show) ++ [actual]).
Proof.
  intros Hz Hshow Hne Hcp.
  rewrite (consistency_cache_update self cache analysis actual show Hshow Hne Hcp).
  rewrite lookup_insert_eq. f_equal. unfold window_of, py_last. rewrite Hz.
  destruct (0 <? Z.of_nat (length (default [] (cache !! show) ++ [actual])))%Z;
    reflexivity.
Qed.

Lemma deviation_above_one (a mu : Q) :
  0 <= a -> 0 < mu -> 1 < Qabs (a - mu) / mu -> 2 * mu < a.
Proof.
  intros Ha Hmu Hd.
  assert (H : mu < Qabs (a - mu)).
  { apply (Qmult_lt_compat_r _ _ mu Hmu) in Hd.
    rewrite Qmult_1_l in Hd.
    assert (E : Qabs (a - mu) / mu * mu == Qabs (a - mu)).
    { field. intros E0. rewrite E0 in Hmu. discriminate. }
    now rewrite E in Hd. }
  revert H. apply Qabs_case; intros Hs H; lra.
Qed.

(** X13. When the consistency threshold (the tv warning threshold) is at
    least 1, the episode-consistency step never flags a file for being
    small: a flagged file is more than twice as large as the mean of the
    sizes it is compared with, which are two or more of the show's most
    recently recorded sizes. *)
Theorem consistency_flags_only_oversized_episodes self cache analysis actual :
  1 <= tv_warning_threshold self -> 0 <= actual ->
  is_inconsistent (fst (_check_episode_consistency fmt0 self cache analysis actual)) = true ->
  exists show sizes,
    show_name analysis = Some show
    /\ sizes `suffix_of` default [] (cache !! show)
    /\ (2 <= length sizes)%nat
    /\ 2 * mean sizes < actual.
Proof.
  intros Hthr Ha. unfold _check_episode_consistency.
  destruct (show_name analysis) as [show|]; [|discriminate].
  destruct (String.eqb show "" || negb (cache_patterns self)); [discriminate|].
  fold (window_of self (default [] (cache !! show)) actual).
  set (before := default [] (cache !! show)).
  set (window := window_of self before actual).
  destruct (length window <? 3)%nat eqn:Hlen; [discriminate|].
  destruct (1 <? length (removelast window))%nat eqn:Hlen'; [|discriminate].
  match goal with |- context [if Qltb ?t ?d then _ else _] =>
    destruct (Qltb t d) eqn:Hd end; [|discriminate].
  intros _. apply Nat.ltb_ge in Hlen. apply Nat.ltb_lt in Hlen'.
  exists show, (removelast window). split; [reflexivity|].
  assert (Hw : exists k, window = skipn k (before ++ [actual])).
  { unfold window, window_of, py_last.
    destruct (_ <? _)%Z; [|now exists 0%nat].
    destruct (0 <? _)%Z; eexists; reflexivity. }
  destruct Hw as [k Hw].
  assert (Hk : (k <= length before)%nat).
  { rewrite Hw, length_skipn, length_app in Hlen. simpl in Hlen. lia. }
  assert (Hr : removelast window = skipn k before).
  { rewrite Hw, skipn_app.
    replace (k - length before)%nat with 0%nat by lia. simpl.
    apply removelast_last. }
  split; [|split].
  - rewrite Hr. exists (firstn k before). symmetry. apply firstn_skipn.
  - lia.
  - apply SizeCheckerProps.Qltb_lt in Hd.
    destruct (Qltb 0 (mean (removelast window))) eqn:Hpos.
    + apply SizeCheckerProps.Qltb_lt in Hpos.
      apply deviation_above_one; [exact Ha|exact Hpos|].
      eapply Qle_lt_trans; [exact Hthr|exact Hd].
    + exfalso. apply (Qlt_not_le _ _ Hd).
      eapply Qle_trans; [|exact Hthr]. discriminate.
Qed.


End Checks.

Lemma episode_window_stays_bounded_witness :
  (1 <= tv_episode_cache_size (with_window 3))%Z
  /\ window_bounded 3 three_episodes
  /\ window_bounded 3
       (snd (check_file_size SizeScenario.fmt_int (fun _ _ => SizeScenario.episode)
               (with_window 3) three_episodes (Some 734003200%Z) "Show.S01E04.mkv" "tv")).
Proof.
  assert (H1 : (1 <= tv_episode_cache_size (with_window 3))%Z) by (simpl; lia).
  assert (H2 : window_bounded (tv_episode_cache_size (with_window 3)) three_episodes).
  { intros show w. unfold three_episodes.
    destruct (decide (show = "Show"%string)) as [->|Hne].
    - rewrite lookup_singleton_eq. intros [= <-]. simpl. lia.
    - rewrite lookup_singleton_ne by congruence. discriminate. }
  split; [exact H1|]. split; [exact H2|].
  exact (episode_window_stays_bounded SizeScenario.fmt_int
           (fun _ _ => SizeScenario.episode) (with_window 3) three_episodes
           (Some 734003200%Z) "Show.S01E04.mkv" "tv" H1 H2).
Defined.

Lemma zero_window_is_never_trimmed_witness :
  snd (_check_episode_consistency SizeScenario.fmt_int (with_window 0) three_episodes
         SizeScenario.episode 700) !! "Show"%string
  = Some ([150; 160; 170] ++ [700]).
Proof.
  apply (zero_window_is_never_trimmed SizeScenario.fmt_int (with_window 0)
           three_episodes SizeScenario.episode 700 "Show").
  - reflexivity.
  - reflexivity.
  - discriminate.
  - reflexivity.
Defined.

Lemma consistency_flags_only_oversized_episodes_witness :
  exists show sizes,
    show_name SizeScenario.episode = Some show
    /\ sizes `suffix_of` default [] (three_episodes !! show)
    /\ (2 <= length sizes)%nat
    /\ 2 * mean sizes < 700.
Proof.
  apply (consistency_flags_only_oversized_episodes SizeScenario.fmt_int
           default_settings three_episodes SizeScenario.episode 700).
  - discriminate.
  - discriminate.
  - vm_compute. reflexivity.
Defined.


End SizeCheckerExtra.

(** ** Repeated and dry-run analyses *)

Module AnalyzerExtra.
Import Planner Analyzer.

Section Repeat.
Context {E : Env}.
Implicit Types (self : Analyzer E) (fs : Stat).

Lemma LruKey_eqb_refl k : LruKey_eqb k k = true.
Proof.
  unfold LruKey_eqb. now rewrite !String.eqb_refl, !Z.eqb_refl.
Qed.

Lemma lru_find_remove k (lru : list (LruKey * ProbeResult E)) :
  lru_find k (lru_remove k lru) = None.
Proof.
  induction lru as [|[k' v'] lru IH]; simpl; [reflexivity|].
  destruct (LruKey_eqb k k') eqn:Heq; simpl; [exact IH|].
  now rewrite Heq.
Qed.

Lemma lru_find_app_new k v (lru : list (LruKey * ProbeResult E)) :
  lru_find k lru = None -> lru_find k (lru ++ [(k, v)]) = Some v.
Proof.
  induction lru as [|[k' v'] lru IH]; simpl.
  - now rewrite LruKey_eqb_refl.
  - destruct (LruKey_eqb k k'); [discriminate|exact IH].
Qed.

(** After a call the probe cache holds the call's result under its key. *)
Lemma cached_ffprobe_stores lru p key tool t fmt retry n :
  let out := _cached_ffprobe_analysis (E := E) lru p key tool t fmt retry n in
  lru_find {| k_file_path_str := p; k_cache_key := key; k_ffprobe_path := tool;
              k_timeout := t; k_output_format := fmt; k_retry_attempts := retry |}
    (snd (fst out))
  = Some (fst (fst out)).
Proof.
  cbv zeta. unfold _cached_ffprobe_analysis.
  set (k := {| k_file_path_str := p |}).
  destruct (lru_find k lru) as [v|] eqn:Hfind; cbn [fst snd].
  - apply lru_find_app_new, lru_find_remove.
  - destruct (probe_attempts p tool t fmt retry _ 0 None n) as [v n']. cbn [fst snd].
    destruct (lru_maxsize <? length (lru ++ [(k, v)]))%nat eqn:Hfull.
    + destruct lru as [|[k' v'] rest]; [discriminate|].
      simpl in Hfind |- *. destruct (LruKey_eqb k k'); [discriminate|].
      now apply lru_find_app_new.
    + now apply lru_find_app_new.
Qed.

(** The probe of an unchanged file, repeated, gives the same analysis and
    runs nothing. *)
Lemma analyze_with_ffprobe_repeat self fs p n cache ec :
  let out := _analyze_with_ffprobe self fs p n in
  let out' :=
    _analyze_with_ffprobe (with_caches self cache ec (snd (fst out))) fs p (snd out) in
  fst (fst out') = fst (fst out) /\ snd out' = snd out.
Proof.
  cbv zeta. unfold _analyze_with_ffprobe. cbn [ffprobe_path with_caches].
  destruct (ffprobe_path self) as [tool|]; [|split; reflexivity].
  destruct (String.eqb tool ""); [split; reflexivity|].
  cbn [ffprobe_lru ffprobe_timeout ffprobe_output_format ffprobe_retry_attempts
       has_config_manager].
  pose proof (cached_ffprobe_stores (ffprobe_lru self) p (_get_file_cache_key (E := E) fs p)
                tool (ffprobe_timeout self) (ffprobe_output_format self)
                (ffprobe_retry_attempts self) n) as Hst.
  cbv zeta in Hst.
  destruct (_cached_ffprobe_analysis (ffprobe_lru self) p _ tool _ _ _ n)
    as [[v lru'] n'].
  cbn [fst snd] in Hst.
  unfold _create_error_result.
  destruct v as [msg|data]; [|destruct (truthy E data) eqn:Htr];
    cbn [fst snd ffprobe_lru ffprobe_timeout ffprobe_output_format
         ffprobe_retry_attempts has_config_manager with_caches];
    unfold _cached_ffprobe_analysis; rewrite Hst; try rewrite Htr;
    split; reflexivity.
Qed.

Lemma analyze_file_error_shape self fs p dry clk n :
  error (fst (fst (analyze_file self fs p dry clk n))) = true ->
  analyze_file self fs p dry clk n
  = (_create_error_result self ("File not found: " +:+ p)%string, self, n)
    /\ fs p = None
  \/ (exists r, analyze_file self fs p dry clk n = (r, self, n)
                /\ forall clk', analyze_file self fs p dry clk' n = (r, self, n))
  \/ exists mtime size,
       fs p = Some (mtime, size)
       /\ (match cache_results self, analysis_cache self with
           | true, Some cache =>
               if dry then None else Dict.get (analysis_cache_key p mtime) cache
           | _, _ => None
           end) = None
       /\ error (fst (fst (_analyze_with_ffprobe self fs p n))) = true
       /\ analyze_file self fs p dry clk n
          = (fst (fst (_analyze_with_ffprobe self fs p n)),
             with_caches self (analysis_cache self) (episode_cache self)
               (snd (fst (_analyze_with_ffprobe self fs p n))),
             snd (_analyze_with_ffprobe self fs p n)).
Proof.
  unfold analyze_file.
  destruct (fs p) as [[mtime size]|] eqn:Hfs; [|intros _; left; split; reflexivity].
  destruct (match cache_results self with true => _ | false => _ end) as [r|] eqn:Hc.
  { intros _. right. left. exists r. split; [reflexivity|]. intros clk'. reflexivity. }
  destruct (_analyze_with_ffprobe self fs p n) as [[mi lru'] n'] eqn:Hprobe.
  destruct (error mi) eqn:Herr.
  - intros _. right. right. exists mtime, size. repeat split; auto.
  - intros H. exfalso.
    destruct (size_checker self) as [settings|].
    + destruct (SizeChecker.check_file_size _ _ settings _ _ _ _) as [sr ec'].
      cbn in H. congruence.
    + cbn in H. congruence.
Qed.

(** X15. A failed analysis is remembered: when [analyze_file] returns an
    error result, the analysis cache is left as it was, and a second call
    on the unchanged file returns the same error result without running
    [ffprobe] again (a failed probe sits in the [lru_cache] like a
    successful one). *)
Theorem failed_analysis_is_remembered self fs p dry clk clk' n :
  let out1 := analyze_file self fs p dry clk n in
  error (fst (fst out1)) = true ->
  let out2 := analyze_file (snd (fst out1)) fs p dry clk' (snd out1) in
  analysis_cache (snd (fst out1)) = analysis_cache self
  /\ fst (fst out2) = fst (fst out1)
  /\ snd out2 = snd out1.
Proof.
  cbv zeta. intros Herr.
  destruct (analyze_file_error_shape self fs p dry clk n Herr)
    as [[H1 Hfs]|[(r & H1 & H2)|(mtime & size & Hfs & Hc & Hperr & H1)]].
  - rewrite H1. cbn [fst snd]. split; [reflexivity|].
    unfold analyze_file. rewrite Hfs. split; reflexivity.
  - rewrite H1. cbn [fst snd]. rewrite (H2 clk'). repeat split; reflexivity.
  - rewrite H1. cbn [fst snd]. split; [reflexivity|].
    destruct (analyze_with_ffprobe_repeat self fs p n (analysis_cache self)
                (episode_cache self)) as [Ha Hn].
    unfold analyze_file. rewrite Hfs. cbn [cache_results analysis_cache with_caches].
    rewrite Hc.
    destruct (_analyze_with_ffprobe
                (with_caches self (analysis_cache self) (episode_cache self)
                   (_analyze_with_ffprobe self fs p n).1.2) fs p
                (_analyze_with_ffprobe self fs p n).2) as [[mi2 lru2] n2].
    cbn [fst snd] in Ha, Hn. subst mi2 n2. rewrite Hperr. split; reflexivity.
Qed.

(** X16. A dry-run analysis neither reads nor writes the analysis cache: the
    cache is the same afterwards, and a result without error is a fresh
    one, stamped with the mode dry_run and the clock of the call. *)
Theorem dry_run_bypasses_analysis_cache self fs p clk n :
  let out := analyze_file self fs p true clk n in
  analysis_cache (snd (fst out)) = analysis_cache self
  /\ (error (fst (fst out)) = false ->
      analysis_mode (fst (fst out)) = "dry_run"%string
      /\ analysis_timestamp (fst (fst out)) = iso clk).
Proof.
  cbv zeta. unfold analyze_file.
  destruct (fs p) as [[mtime size]|]; [|split; [reflexivity|discriminate]].
  assert (Hc : (match cache_results self, analysis_cache self with
                | true, Some cache => None
                | _, _ => None
                end : option Analysis) = None).
  { destruct (cache_results self); [destruct (analysis_cache self)|]; reflexivity. }
  cbn [negb]. rewrite Hc.
  destruct (_analyze_with_ffprobe self fs p n) as [[mi lru'] n'].
  destruct (error mi) eqn:Herr; [split; [reflexivity|]; cbn; congruence|].
  destruct (size_checker self) as [settings|].
  - destruct (SizeChecker.check_file_size _ _ settings _ _ _ _) as [sr ec'].
    cbn. split; [|intros _; split; reflexivity].
    destruct (cache_results self); [destruct (analysis_cache self)|]; reflexivity.
  - cbn. split; [|intros _; split; reflexivity].
    destruct (cache_results self); [destruct (analysis_cache self)|]; reflexivity.
Qed.

End Repeat.

Lemma failed_analysis_is_remembered_witness :
  let self := CacheScenario.fresh (CacheScenario.env ProbeScenario.recovering) 500 in
  let fs := CacheScenario.disk_at 100200000 in
  let out1 := analyze_file self fs "/v/a.mkv" false CacheScenario.noon 0 in
  let out2 := analyze_file (snd (fst out1)) fs "/v/a.mkv" false CacheScenario.noon (snd out1) in
  snd out1 = 3%nat
  /\ analysis_cache (snd (fst out1)) = analysis_cache self
  /\ fst (fst out2) = fst (fst out1)
  /\ snd out2 = snd out1.
Proof.
  cbv zeta. split; [reflexivity|].
  apply (failed_analysis_is_remembered
           (CacheScenario.fresh (CacheScenario.env ProbeScenario.recovering) 500)
           (CacheScenario.disk_at 100200000) "/v/a.mkv" false
           CacheScenario.noon CacheScenario.noon 0).
  reflexivity.
Defined.

End AnalyzerExtra.

(** ** Codec names, complexity and savings *)

Module InsightProps.
Import Planner Insight.
Local Open Scope Q_scope.

Lemma lower_char_idem c : PyStr.lower_char (PyStr.lower_char c) = PyStr.lower_char c.
Proof. destruct c as [[] [] [] [] [] [] [] []]; reflexivity. Qed.

Lemma lower_idem s : PyStr.lower (PyStr.lower s) = PyStr.lower s.
Proof.
  unfold PyStr.lower. induction s as [|c s IH]; simpl; [reflexivity|].
  now rewrite lower_char_idem, IH.
Qed.

Lemma has_type_app t l1 l2 :
  Processor.has_type t (l1 ++ l2) = Processor.has_type t l1 || Processor.has_type t l2.
Proof. apply existsb_app. Qed.

(** The planner's video test on a normalised codec name. *)
Lemma video_test_of_normalized l :
  PyStr.lower l = l ->
  negb (String.eqb (PyStr.lower (_normalize_codec_name l)) "")
  && negb (App.in_strs (PyStr.lower (_normalize_codec_name l)) ["h265"; "hevc"]%string)
  = negb (App.in_strs l h265_spellings).
Proof.
  intros Hl. unfold _normalize_codec_name.
  destruct (String.eqb_spec l "") as [->|Hne]; [reflexivity|].
  rewrite Hl. unfold h265_spellings.
  cbn [codec_mappings List.find snd App.in_strs existsb orb].
  repeat match goal with
         | |- context [String.eqb l ?x] =>
             destruct (String.eqb_spec l x) as [->|?]; try reflexivity
         end.
  cbn [orb]. rewrite Hl.
  repeat match goal with
         | |- context [String.eqb l ?x] =>
             destruct (String.eqb_spec l x) as [->|?]; try congruence
         end.
  reflexivity.
Qed.

Section Plans.
Variable list_set : list string -> list string.

Lemma size_actions_quarantined a :
  snd (size_actions a) = quarantined a.
Proof.
  unfold size_actions, quarantined.
  destruct (size_abnormal a); [|reflexivity]. cbn [andb].
  destruct (String.eqb (get_or (size_recommendation a) "proceed"%string) "mark_rb");
    [reflexivity|].
  destruct (String.eqb _ "review"); reflexivity.
Qed.

(** X17. A video stream is planned for conversion exactly when the file is
    not quarantined and the stream's codec name is none of the spellings of
    the target codec (h265, hevc, x265, h.265, in any letter case); a
    stream without a codec name counts as an unknown codec and is
    converted. *)
Theorem h265_spellings_are_not_reencoded a codec_name :
  video_codec a = stream_codec codec_name ->
  Processor.has_type "video_conversion" (_determine_processing_actions list_set a)
  = negb (quarantined a)
    && negb (App.in_strs (PyStr.lower codec_name) h265_spellings).
Proof.
  intros Hv.
  pose proof (video_test_of_normalized (PyStr.lower codec_name)
                (lower_idem codec_name)) as Ht.
  fold (stream_codec codec_name) in Ht. rewrite <- Hv in Ht.
  unfold _determine_processing_actions.
  pose proof (size_actions_quarantined a) as Hq.
  assert (Hs : Processor.has_type "video_conversion" (fst (size_actions a)) = false).
  { unfold size_actions. destruct (size_abnormal a); [|reflexivity].
    destruct (String.eqb _ "mark_rb"); [reflexivity|].
    destruct (String.eqb _ "review"); reflexivity. }
  destruct (size_actions a) as [actions stop]. cbn [fst snd] in Hq, Hs. subst stop.
  destruct (quarantined a); cbn [negb andb]; [exact Hs|].
  rewrite !has_type_app, Hs. cbn [orb].
  assert (Hc : Processor.has_type "video_conversion" (container_actions a) = false).
  { unfold container_actions.
    destruct (negb (String.eqb (PyStr.lower (original_format a)) "mkv")); reflexivity. }
  assert (Ha : Processor.has_type "video_conversion" (audio_actions list_set a) = false).
  { unfold audio_actions. destruct (non_english_audio a); reflexivity. }
  assert (Hsub : Processor.has_type "video_conversion" (subtitle_actions list_set a) = false).
  { unfold subtitle_actions. destruct (non_english_subtitles a); reflexivity. }
  rewrite Hc, Ha, Hsub. cbn [orb Processor.has_type existsb rename_action type].
  rewrite <- Ht. unfold video_actions.
  destruct (negb (String.eqb (PyStr.lower (video_codec a)) "")
            && negb (App.in_strs (PyStr.lower (video_codec a)) ["h265"; "hevc"]%string));
    reflexivity.
Qed.

(** X18. On the plan the planner makes, the complexity rating only counts
    actions: critical for a quarantine plan, otherwise complex for four or
    more planned actions, moderate for two or three, simple for the rename
    alone; its tests on the number of high-priority actions never decide. *)
Theorem complexity_counts_planned_actions a0 a :
  error a = false ->
  processing_actions a = _determine_processing_actions list_set a0 ->
  get_processing_complexity a
  = (if quarantined a0 then "critical"
     else if (3 <? length (processing_actions a))%nat then "complex"
     else if (1 <? length (processing_actions a))%nat then "moderate"
     else "simple")%string.
Proof.
  intros Herr Hplan. unfold get_processing_complexity. rewrite Herr, Hplan.
  unfold _determine_processing_actions, quarantined, size_actions,
    container_actions, video_actions, audio_actions, subtitle_actions.
  destruct (size_abnormal a0); cbn [andb];
    [destruct (String.eqb (get_or (size_recommendation a0) "proceed"%string) "mark_rb");
       [reflexivity|destruct (String.eqb _ "review")]|];
    destruct (negb (String.eqb (PyStr.lower (original_format a0)) "mkv"));
    destruct (negb (String.eqb (PyStr.lower (video_codec a0)) "")
              && negb (App.in_strs (PyStr.lower (video_codec a0)) ["h265"; "hevc"]%string));
    destruct (non_english_audio a0); destruct (non_english_subtitles a0);
    reflexivity.
Qed.

End Plans.

Lemma py_min_upper a b : py_min a b <= a.
Proof.
  unfold py_min. destruct (Qltb b a) eqn:E.
  - apply Qlt_le_weak. now apply SizeCheckerProps.Qltb_lt.
  - apply Qle_refl.
Qed.

Lemma savings_step_nonneg f a : 0 <= f -> 0 <= savings_step f a.
Proof.
  intros Hf. unfold savings_step.
  destruct (String.eqb (type a) "video_conversion").
  - destruct (App.in_strs _ ["mpeg4"; "xvid"]%string);
      [apply Qmult_le_0_compat; [exact Hf|discriminate]|].
    destruct (App.in_strs _ ["h264"; "avc"]%string);
      [apply Qmult_le_0_compat; [exact Hf|discriminate]|exact Hf].
  - destruct (App.in_strs (type a) _); [|exact Hf].
    apply Qmult_le_0_compat; [exact Hf|].
    match goal with |- context [py_min ?x ?y] => pose proof (py_min_upper x y) as Hm end.
    lra.
Qed.

Lemma savings_factor_nonneg actions : forall f,
  0 <= f -> 0 <= fold_left savings_step actions f.
Proof.
  induction actions as [|a actions IH]; intros f Hf; simpl; [exact Hf|].
  apply IH. now apply savings_step_nonneg.
Qed.

Lemma py_int_nonneg x : 0 <= x -> (0 <= py_int x)%Z.
Proof.
  intros Hx. unfold py_int. apply Z.quot_pos; [|lia].
  unfold Qle in Hx. simpl in Hx. lia.
Qed.

(** X19. The estimate of the space a plan saves is never negative and never
    more than the size of the file, whatever actions the plan lists. *)
Theorem space_savings_within_file_size analyze_codec_efficiency a :
  (0 <= file_size_bytes a)%Z ->
  (0 <= get_space_savings_estimate analyze_codec_efficiency a <= file_size_bytes a)%Z.
Proof.
  intros Hsize. unfold get_space_savings_estimate.
  destruct (error a || negb analyze_codec_efficiency); [lia|].
  destruct (file_size_bytes a =? 0)%Z; [lia|].
  assert (H : (0 <= py_int (inject_Z (file_size_bytes a)
                            * fold_left savings_step (processing_actions a) 1)%Q)%Z).
  { apply py_int_nonneg. apply Qmult_le_0_compat.
    - change (inject_Z 0 <= inject_Z (file_size_bytes a)). now rewrite <- Zle_Qle.
    - apply savings_factor_nonneg. discriminate. }
  lia.
Qed.

Lemma h265_spellings_are_not_reencoded_witness :
  Processor.has_type "video_conversion"
    (_determine_processing_actions (fun l => l) (with_stream_codec "HEVC"))
  = false.
Proof.
  exact (h265_spellings_are_not_reencoded (fun l => l) (with_stream_codec "HEVC") "HEVC"
           eq_refl).
Defined.

Lemma complexity_counts_planned_actions_witness :
  get_processing_complexity
    (set_actions flagged_mark_rb
       (_determine_processing_actions (fun l => l) flagged_mark_rb))
  = "critical"%string.
Proof.
  exact (complexity_counts_planned_actions (fun l => l) flagged_mark_rb
           (set_actions flagged_mark_rb
              (_determine_processing_actions (fun l => l) flagged_mark_rb))
           eq_refl eq_refl).
Defined.

Lemma space_savings_within_file_size_witness :
  (0 <= get_space_savings_estimate true
          (planned (_determine_processing_actions (fun l => l) (blank "h264")))
   <= 1000)%Z.
Proof.
  apply (space_savings_within_file_size true
           (planned (_determine_processing_actions (fun l => l) (blank "h264")))).
  simpl. lia.
Defined.

End InsightProps.

(** ** The stages of [process_file] *)

Module PipelineProps.
Import Recovery Calls Reports Planner Processor Pipeline.

Lemma app_cons c s t : (String c s +:+ t)%string = String c (s +:+ t)%string.
Proof. reflexivity. Qed.

Lemma append_rb_ne p : (p +:+ ".rb")%string <> p.
Proof.
  induction p as [|c p IH]; [discriminate|].
  rewrite app_cons. intros [= H]. now apply IH.
Qed.




Section Stages.
Variable _perform_comprehensive_analysis : FS -> string -> bool -> Analysis.
Variable step4 : FS -> string -> Analysis -> Insight.Summary -> bool
                 -> ProcessingResult * FS.

Lemma handle_size_anomaly_statuses self fs p a dry :
  App.in_strs (status (fst (_handle_size_anomaly self fs p a dry)))
    ["error"; "skipped"; "would_mark_rb"; "marked_rb"]%string = true.
Proof.
  unfold _handle_size_anomaly.
  destruct dry; [reflexivity|].
  destruct (auto_mark_rb_on_failure self); [|reflexivity].
  destruct (rename_error self); [reflexivity|].
  destruct (fs !! p); reflexivity.
Qed.

Lemma process_file_while_estimating other self fs p dry :
  estimate_processing_time self = true ->
  process_file _perform_comprehensive_analysis other self fs p dry
  = process_file _perform_comprehensive_analysis step4 self fs p dry
  /\ App.in_strs
       (status (fst (process_file _perform_comprehensive_analysis step4 self fs p dry)))
       ["error"; "skipped"; "would_mark_rb"; "marked_rb"]%string = true.
Proof.
  intros Hest. unfold process_file.
  destruct (fs !! p); [|split; reflexivity].
  destruct (String.eqb (PyStr.lower (suffix p)) ".rb"); [split; reflexivity|].
  destruct (error (_perform_comprehensive_analysis fs p dry)) eqn:Herr;
    [split; reflexivity|].
  destruct (size_checking_enabled self
            && size_abnormal (_perform_comprehensive_analysis fs p dry)
            && String.eqb _ "mark_rb").
  - split; [reflexivity|apply handle_size_anomaly_statuses].
  - unfold Insight.create_processing_summary. rewrite Herr, Hest.
    split; reflexivity.
Qed.


(** X21. With that setting on, a run of [run_processing] that is not
    interrupted completes no file: every file of the listing ends failed or
    skipped and the counter of completed files is zero, whatever the
    processing methods and the state of the file system at each file. *)
Theorem estimating_run_completes_no_file self (view : string -> FS)
    d cfg mode dir (files : list string) sz tick :
  estimate_processing_time self = true ->
  NoDup files -> files <> [] ->
  let pf := fun f =>
    to_outcome (fst (process_file _perform_comprehensive_analysis step4 self
                       (view f) f false)) in
  let '(m, _, _) := App.run_processing d cfg mode dir files pf sz tick None in
  (forall f, In f files ->
     exists fi, Dict.get f (file_states (self_state m)) = Some fi
                /\ (state fi = FAILED \/ state fi = SKIPPED))
  /\ files_completed (statistics (self_state m)) = 0%Z.
Proof.
  intros Hest Hnd Hne. cbv zeta.
  set (pf := fun f => to_outcome _).
  assert (Hpf : forall f, outcome_state (pf f) = FAILED \/ outcome_state (pf f) = SKIPPED).
  { intros f. unfold pf, to_outcome, outcome_state.
    destruct (process_file_while_estimating step4 self (view f) f false Hest) as [_ H].
    revert H. generalize (status (fst (process_file _perform_comprehensive_analysis
                                         step4 self (view f) f false))).
    intros st H. unfold App.in_strs in *. simpl in H |- *.
    destruct (String.eqb st "error") eqn:E1;
      [apply String.eqb_eq in E1; subst st; vm_compute; auto|].
    destruct (String.eqb st "skipped") eqn:E2;
      [apply String.eqb_eq in E2; subst st; vm_compute; auto|].
    destruct (String.eqb st "would_mark_rb") eqn:E3;
      [apply String.eqb_eq in E3; subst st; vm_compute; auto|].
    destruct (String.eqb st "marked_rb") eqn:E4;
      [apply String.eqb_eq in E4; subst st; vm_compute; auto|].
    discriminate. }
  destruct (RecoveryExtra.completed_run_shape d cfg mode dir files pf sz tick Hnd Hne)
    as (m & sid & clk & -> & Hcm & _ & Hall & Hentries).
  destruct (RecoveryExtra.complete_session_state m clk) as (Hfs & Hstats & _).
  rewrite Hfs, Hstats. split.
  - intros f Hf. destruct (Hall f Hf) as (fi & Hget & Hst).
    exists fi. split; [exact Hget|]. rewrite Hst. exact (Hpf f).
  - specialize (Hcm COMPLETED). simpl in Hcm. rewrite Hcm.
    apply RecoveryExtra.count_state_none.
    apply List.Forall_forall. intros [k v] Hin. simpl.
    destruct (Hentries k v Hin) as [_ Hv]. intros Hc. rewrite Hc in Hv.
    destruct (Hpf k) as [H|H]; rewrite H in Hv; discriminate.
Qed.

(** X22. A file the size gate quarantines is renamed to its path with
    [.rb] appended and nothing else changes on disk; its result has the
    status marked_rb, which the processing loop files under failed: the
    recovery store records the file as failed, not as marked. *)
Theorem quarantined_file_is_recorded_as_failed self fs p f sz m before after :
  size_checking_enabled self = true ->
  auto_mark_rb_on_failure self = true ->
  rename_error self = None ->
  fs !! p = Some f ->
  String.eqb (PyStr.lower (suffix p)) ".rb" = false ->
  let a := _perform_comprehensive_analysis fs p false in
  error a = false -> size_abnormal a = true ->
  size_recommendation a = Some "mark_rb"%string ->
  let r := process_file _perform_comprehensive_analysis step4 self fs p false in
  status (fst r) = "marked_rb"%string
  /\ rb_path (fst r) = Some (p +:+ ".rb")%string
  /\ snd r !! p = None
  /\ snd r !! (p +:+ ".rb")%string = Some f
  /\ (forall q, q <> p -> q <> (p +:+ ".rb")%string -> snd r !! q = fs !! q)
  /\ option_map state
       (Dict.get p (file_states (self_state
          (App.process_one (fun _ => to_outcome (fst r)) sz m p before after))))
     = Some FAILED.
Proof.
  intros Hgate Hauto Hren Hfs Hsuf a Herr Hab Hrec r.
  assert (Hr : r = (_create_processing_result "marked_rb"
                      ("Marked as .rb: "
                       +:+ get_or (size_reason a) "Abnormal file size detected") 
                      (Some (p +:+ ".rb")),
                    <[(p +:+ ".rb")%string := f]> (delete p fs))).
  { unfold r, process_file. rewrite Hfs, Hsuf. fold a. rewrite Herr, Hgate, Hab, Hrec.
    cbn [andb get_or]. unfold _handle_size_anomaly.
    now rewrite Hauto, Hren, Hfs. }
  rewrite Hr. cbn [fst snd status rb_path _create_processing_result].
  split; [reflexivity|]. split; [reflexivity|]. split; [|split; [|split]].
  - rewrite lookup_insert_ne by apply append_rb_ne. apply lookup_delete_eq.
  - apply lookup_insert_eq.
  - intros q Hq Hq'. rewrite lookup_insert_ne by congruence.
    now rewrite lookup_delete_ne by congruence.
  - destruct (RecoveryExtra.process_one_settles
                (fun _ => to_outcome (_create_processing_result "marked_rb"
                   ("Marked as .rb: "
                    +:+ get_or (size_reason a) "Abnormal file size detected")
                   (Some (p +:+ ".rb")))) sz m p before after) as [H _].
    exact H.
Qed.


End Stages.


Lemma estimating_run_completes_no_file_witness :
  NoDup Scenario.files /\ Scenario.files <> []
  /\ let '(m, _, _) :=
       App.run_processing Scenario.no_disk None "tv" "/v" Scenario.files
         (fun f => to_outcome (fst (process_file analysis_ok step4_ok default_settings
                                      one_file f false)))
         (fun _ => 100%Z) (Scenario.tick "1") None in
     (forall f, In f Scenario.files ->
        exists fi, Dict.get f (file_states (self_state m)) = Some fi
                   /\ (state fi = FAILED \/ state fi = SKIPPED))
     /\ files_completed (statistics (self_state m)) = 0%Z.
Proof.
  assert (Hnd : NoDup Scenario.files).
  { apply (bool_decide_unpack _). vm_compute. exact I. }
  assert (Hne : Scenario.files <> []) by discriminate.
  split; [exact Hnd|]. split; [exact Hne|].
  exact (estimating_run_completes_no_file analysis_ok step4_ok default_settings
           (fun _ => one_file) Scenario.no_disk None "tv" "/v" Scenario.files
           (fun _ => 100%Z) (Scenario.tick "1") eq_refl Hnd Hne).
Defined.

Lemma quarantined_file_is_recorded_as_failed_witness :
  let r := process_file analysis_flagged step4_ok default_settings one_file
             "/v/ep01.avi" false in
  status (fst r) = "marked_rb"%string
  /\ snd r !! "/v/ep01.avi"%string = None
  /\ option_map state
       (Dict.get "/v/ep01.avi"
          (file_states (self_state
             (App.process_one (fun _ => to_outcome (fst r)) (fun _ => 52428800%Z)
                (fst (start_session (init Scenario.no_disk None (Scenario.tick "1" 0))
                        "tv" "/v" ["/v/ep01.avi"%string] (Scenario.tick "1" 1)))
                "/v/ep01.avi" (Scenario.tick "1" 2) (Scenario.tick "1" 3)))))
     = Some FAILED.
Proof.
  cbv zeta.
  destruct (quarantined_file_is_recorded_as_failed analysis_flagged step4_ok
              default_settings one_file "/v/ep01.avi"
              {| data := "ep01"; st_size := 52428800 |} (fun _ => 52428800%Z)
              (fst (start_session (init Scenario.no_disk None (Scenario.tick "1" 0))
                      "tv" "/v" ["/v/ep01.avi"%string] (Scenario.tick "1" 1)))
              (Scenario.tick "1" 2) (Scenario.tick "1" 3)
              eq_refl eq_refl eq_refl eq_refl eq_refl eq_refl eq_refl eq_refl)
    as (H1 & _ & H3 & _ & _ & H6).
  split; [exact H1|]. split; [exact H3|exact H6].
Defined.


End PipelineProps.

(** ** What a transcode does to the file system *)

Module ProcessorExtra.
Import Planner Processor.
Local Open Scope Q_scope.

Section Execute.
Variable E : Env.
Implicit Types (self : VideoProcessor) (fs : FS) (context : ProcessingContext).

Lemma cleanup_frame context : forall fs q,
  ~ In q (temp_files context) ->
  _cleanup_temp_files E context fs !! q = fs !! q.
Proof.
  unfold _cleanup_temp_files.
  induction (temp_files context) as [|t ts IH]; intros fs q Hq; [reflexivity|].
  simpl. rewrite IH by (intros H; apply Hq; now right).
  assert (Hne : t <> q) by (intros ->; apply Hq; now left).
  destruct (fs !! t); [|reflexivity].
  destruct (unlink_temp_fails (faults E)); [reflexivity|].
  now apply lookup_delete_ne.
Qed.

Lemma cleanup_absent context : forall fs q,
  fs !! q = None -> _cleanup_temp_files E context fs !! q = None.
Proof.
  unfold _cleanup_temp_files.
  induction (temp_files context) as [|t ts IH]; intros fs q Hq; [exact Hq|].
  simpl. apply IH.
  destruct (fs !! t); [|exact Hq].
  destruct (unlink_temp_fails (faults E)); [exact Hq|].
  destruct (decide (t = q)) as [->|Hne]; [apply lookup_delete_eq|].
  now rewrite lookup_delete_ne.
Qed.

(** The executor registers at most the output path. *)
Lemma execute_registers self fs p analysis actions context now :
  let out := _execute_ffmpeg_processing E self fs p analysis actions context now in
  temp_files (snd out) = temp_files context
  \/ temp_files (snd out) = temp_files context ++ [output_path self p now].
Proof.
  cbv zeta. unfold _execute_ffmpeg_processing.
  destruct (ffmpeg_path self) as [tool|]; [|now left].
  destruct (String.eqb tool ""); [now left|].
  destruct (ffmpeg E _ fs) as [rc err written|partial|text]; try (now right).
  destruct (negb (rc =? 0)%Z); [now right|].
  destruct (after_run fs (output_path self p now) written !! output_path self p now);
    [|now right].
  destruct (verify_output_size self && Qltb _ _); [now right|].
  destruct (verify_output_size self && Qltb _ _); [now right|].
  destruct (after_run fs (output_path self p now) written !! p);
    repeat match goal with |- context [if ?b then _ else _] => destruct b end;
    now right.
Qed.

(** The executor changes the original path and the output path only. *)
Lemma execute_frame self fs p analysis actions context now q :
  q <> p -> q <> output_path self p now ->
  snd (fst (_execute_ffmpeg_processing E self fs p analysis actions context now)) !! q
  = fs !! q.
Proof.
  intros Hp Hout. unfold _execute_ffmpeg_processing.
  destruct (ffmpeg_path self) as [tool|]; [|reflexivity].
  destruct (String.eqb tool ""); [reflexivity|].
  assert (Hrun : forall written,
            after_run fs (output_path self p now) written !! q = fs !! q).
  { intros written. now apply ProcessorProps.after_run_other. }
  assert (Hdone : forall written produced,
            <[p := produced]>
              (delete (output_path self p now)
                 (after_run fs (output_path self p now) written)) !! q = fs !! q).
  { intros written produced.
    rewrite lookup_insert_ne, lookup_delete_ne by congruence. apply Hrun. }
  assert (Hdone' : forall written produced,
            <[p := produced]>
              (delete (output_path self p now)
                 (delete p (after_run fs (output_path self p now) written))) !! q
            = fs !! q).
  { intros written produced.
    rewrite lookup_insert_ne, !lookup_delete_ne by congruence. apply Hrun. }
  assert (Hgone : forall written,
            delete p (after_run fs (output_path self p now) written) !! q = fs !! q).
  { intros written. rewrite lookup_delete_ne by congruence. apply Hrun. }
  destruct (ffmpeg E _ fs) as [rc err written|partial|text]; cbn [fst snd]; auto.
  destruct (negb (rc =? 0)%Z); cbn [fst snd]; auto.
  destruct (after_run fs (output_path self p now) written !! output_path self p now);
    cbn [fst snd]; auto.
  destruct (verify_output_size self && Qltb _ _); cbn [fst snd]; auto.
  destruct (verify_output_size self && Qltb _ _); cbn [fst snd]; auto.
  destruct (after_run fs (output_path self p now) written !! p);
    repeat match goal with |- context [if ?b then _ else _] => destruct b end;
    cbn [fst snd]; auto.
Qed.

Lemma not_in_registered self fs p analysis actions now q :
  q <> output_path self p now ->
  ~ In q (temp_files
            (snd (_execute_ffmpeg_processing E self fs p analysis actions
                    (mark_for_cleanup new_context) now))).
Proof.
  intros Hne.
  destruct (execute_registers self fs p analysis actions (mark_for_cleanup new_context) now)
    as [-> | ->]; simpl; intuition congruence.
Qed.

(** X24. Processing a file changes at most two paths of the file system:
    the file itself and the temporary output path; every other path holds
    what it held before, whatever the tool and the file operations do. *)
Theorem processing_touches_two_paths self fs p analysis actions now q :
  q <> p -> q <> output_path self p now ->
  snd (execute_in_context E self fs p analysis actions now) !! q = fs !! q.
Proof.
  intros Hp Hout. unfold execute_in_context.
  pose proof (execute_frame self fs p analysis actions (mark_for_cleanup new_context)
                now q Hp Hout) as Hf.
  pose proof (not_in_registered self fs p analysis actions now q Hout) as Hn.
  destruct (_execute_ffmpeg_processing E self fs p analysis actions
              (mark_for_cleanup new_context) now) as [[result fs'] context'].
  cbn [fst snd] in *. now rewrite cleanup_frame.
Qed.

(** X25. A successful result means that the tool exited with code 0 and
    that the file it left at the temporary path now sits at the original
    path, the temporary path being empty; the result carries that file's
    size in MB, which the size verification (when enabled) found within
    the configured bounds, and the number of tracks the plan removes. *)
Theorem successful_processing_installs_output self fs p analysis actions now :
  p <> output_path self p now ->
  let r := execute_in_context E self fs p analysis actions now in
  success (fst r) = true ->
  exists tool stderr written produced,
    ffmpeg_path self = Some tool
    /\ ffmpeg E (_build_ffmpeg_command self tool p (output_path self p now)
                   analysis actions) fs
       = Finished 0 stderr written
    /\ after_run fs (output_path self p now) written !! output_path self p now
       = Some produced
    /\ snd r !! p = Some produced
    /\ snd r !! output_path self p now = None
    /\ output_size_mb (fst r)
       = Some (inject_Z (st_size produced) / inject_Z (1024 * 1024))
    /\ tracks_removed (fst r) = _count_tracks_removed actions
    /\ (verify_output_size self = true ->
        minimum_output_size_mb self
        <= inject_Z (st_size produced) / inject_Z (1024 * 1024)
        <= maximum_output_size_gb self * 1024).
Proof.
  intros Hne. cbv zeta. unfold execute_in_context, _execute_ffmpeg_processing.
  destruct (ffmpeg_path self) as [tool|]; [|discriminate].
  destruct (String.eqb tool ""); [discriminate|].
  destruct (ffmpeg E _ fs) as [rc err written|partial|text] eqn:Hrun;
    [|discriminate|discriminate].
  destruct (rc =? 0)%Z eqn:Hrc; cbn [negb]; [|discriminate].
  apply Z.eqb_eq in Hrc. subst rc.
  destruct (after_run fs (output_path self p now) written !! output_path self p now)
    as [produced|] eqn:Hout; [|discriminate].
  destruct (verify_output_size self && Qltb _ (minimum_output_size_mb self)) eqn:Hmin;
    [discriminate|].
  destruct (verify_output_size self && Qltb (maximum_output_size_gb self * 1024) _) eqn:Hmax;
    [discriminate|].
  assert (Hbounds : verify_output_size self = true ->
            minimum_output_size_mb self
            <= inject_Z (st_size produced) / inject_Z (1024 * 1024)
            <= maximum_output_size_gb self * 1024).
  { intros Hv. rewrite Hv in Hmin, Hmax. cbn [andb] in Hmin, Hmax.
    split; now apply SizeCheckerProps.Qltb_ge. }
  assert (Hclean : forall fs',
            fs' !! p = Some produced -> fs' !! output_path self p now = None ->
            _cleanup_temp_files E
              (add_temp_file (mark_for_cleanup new_context) (output_path self p now)) fs'
            !! p = Some produced
            /\ _cleanup_temp_files E
                 (add_temp_file (mark_for_cleanup new_context) (output_path self p now)) fs'
               !! output_path self p now = None).
  { intros fs' H1 H2. split.
    - rewrite cleanup_frame; [exact H1|]. simpl. intuition congruence.
    - now apply cleanup_absent. }
  destruct (after_run fs (output_path self p now) written !! p);
    repeat match goal with |- context [if ?b then _ else _] => destruct b end;
    cbn [fst snd success]; try discriminate; intros _;
    exists tool, err, written, produced;
    (split; [reflexivity|]); (split; [exact Hrun|]); (split; [exact Hout|]);
    match goal with
    | |- _cleanup_temp_files _ _ ?fs' !! _ = _ /\ _ =>
        destruct (Hclean fs') as [H1 H2];
          [apply lookup_insert_eq
          |rewrite lookup_insert_ne by congruence; apply lookup_delete_eq
          |]
    end;
    (split; [exact H1|]); (split; [exact H2|]);
    cbn [output_size_mb tracks_removed]; repeat split; try apply Hbounds; auto.
Qed.

(** X26. Unless it is the move of the output that fails, an error result
    leaves the original file as it was, also after the context has been
    left: the tool writes to the temporary path only and the original is
    unlinked only once the output has been verified. *)
Theorem error_result_keeps_original self fs p analysis actions now :
  move_fails (faults E) = false ->
  p <> output_path self p now ->
  let r := execute_in_context E self fs p analysis actions now in
  success (fst r) = false ->
  snd r !! p = fs !! p.
Proof.
  intros Hmove Hne. cbv zeta. unfold execute_in_context.
  pose proof (ProcessorProps.error_keeps_original_unless_move_fails E self fs p analysis
                actions (mark_for_cleanup new_context) now Hmove Hne) as Hkeep.
  pose proof (not_in_registered self fs p analysis actions now p Hne) as Hn.
  cbv zeta in Hkeep.
  destruct (_execute_ffmpeg_processing E self fs p analysis actions
              (mark_for_cleanup new_context) now) as [[result fs'] context'].
  cbn [fst snd] in *. intros Herr. rewrite cleanup_frame by exact Hn. now apply Hkeep.
Qed.

End Execute.

Section Plans.
Variable list_set : list string -> list string.

Lemma has_type_plan t a :
  has_type t (_determine_processing_actions list_set a)
  = if Insight.quarantined a then has_type t (fst (size_actions a))
    else has_type t (fst (size_actions a)) || has_type t (container_actions a)
         || has_type t (video_actions a) || has_type t (audio_actions list_set a)
         || has_type t (subtitle_actions list_set a)
         || String.eqb "filename_standardization" t.
Proof.
  unfold _determine_processing_actions.
  pose proof (InsightProps.size_actions_quarantined a) as Hq.
  destruct (size_actions a) as [actions stop]. cbn [fst snd] in *. subst stop.
  destruct (Insight.quarantined a); [reflexivity|].
  rewrite !InsightProps.has_type_app. cbn [has_type existsb rename_action type].
  now rewrite orb_false_r, !orb_assoc.
Qed.

(** X27. The audio part of the ffmpeg command follows the plan the planner
    makes: audio is left alone unless the file is not quarantined and has
    a non-English audio track; then exactly the English tracks are mapped,
    and a file with no English track loses all its audio ([-an]). *)
Theorem foreign_audio_decides_the_audio_mapping a :
  _build_audio_mapping a (_determine_processing_actions list_set a)
  = if Insight.quarantined a then []
    else match non_english_audio a with
         | [] => []
         | _ :: _ =>
             match english_audio a with
             | [] => ["-an"%string]
             | tracks => map_tracks "a" tracks ++ ["-c:a"; "copy"]%string
             end
         end.
Proof.
  unfold _build_audio_mapping. rewrite has_type_plan.
  assert (Hs : has_type "audio_cleanup" (fst (size_actions a)) = false).
  { unfold size_actions. destruct (size_abnormal a); [|reflexivity].
    destruct (String.eqb _ "mark_rb"); [reflexivity|].
    destruct (String.eqb _ "review"); reflexivity. }
  assert (Hc : has_type "audio_cleanup" (container_actions a) = false).
  { unfold container_actions.
    destruct (negb (String.eqb (PyStr.lower (original_format a)) "mkv")); reflexivity. }
  assert (Hv : has_type "audio_cleanup" (video_actions a) = false).
  { unfold video_actions.
    destruct (negb (String.eqb (PyStr.lower (video_codec a)) "")
              && negb (App.in_strs (PyStr.lower (video_codec a)) ["h265"; "hevc"]%string));
      reflexivity. }
  assert (Hsub : has_type "audio_cleanup" (subtitle_actions list_set a) = false).
  { unfold subtitle_actions. destruct (non_english_subtitles a); reflexivity. }
  rewrite Hs, Hc, Hv, Hsub. cbn [orb].
  destruct (Insight.quarantined a); [reflexivity|].
  unfold audio_actions. destruct (non_english_audio a); reflexivity.
Qed.

(** X28. The number of removed tracks a successful result reports for the
    planner's plan is the number of non-English audio and subtitle tracks
    of the analysis, and zero for a quarantine plan. *)
Theorem tracks_removed_counts_non_english a :
  _count_tracks_removed (_determine_processing_actions list_set a)
  = if Insight.quarantined a then 0%Z
    else Z.of_nat (length (non_english_audio a) + length (non_english_subtitles a)).
Proof.
  unfold _determine_processing_actions, Insight.quarantined, size_actions,
    container_actions, video_actions, audio_actions, subtitle_actions,
    _count_tracks_removed.
  destruct (size_abnormal a); cbn [andb];
    [destruct (String.eqb (get_or (size_recommendation a) "proceed"%string) "mark_rb");
       [reflexivity|destruct (String.eqb _ "review")]|];
    destruct (negb (String.eqb (PyStr.lower (original_format a)) "mkv"));
    destruct (negb (String.eqb (PyStr.lower (video_codec a)) "")
              && negb (App.in_strs (PyStr.lower (video_codec a)) ["h265"; "hevc"]%string));
    destruct (non_english_audio a); destruct (non_english_subtitles a);
    cbn -[Z.of_nat]; lia.
Qed.

End Plans.

Lemma processing_touches_two_paths_witness :
  snd (execute_in_context ReplaceScenario.all_fine TranscodeScenario.processor
         ReplaceScenario.two_files "/v/a.avi" (blank "h264") [] 1700000000)
    !! "/v/b.mkv"%string
  = Some {| data := "other"; st_size := 1 |}.
Proof.
  rewrite (processing_touches_two_paths ReplaceScenario.all_fine
             TranscodeScenario.processor ReplaceScenario.two_files "/v/a.avi"
             (blank "h264") [] 1700000000 "/v/b.mkv").
  - reflexivity.
  - discriminate.
  - discriminate.
Defined.

Lemma successful_processing_installs_output_witness :
  snd (execute_in_context ReplaceScenario.all_fine TranscodeScenario.processor
         TranscodeScenario.library "/v/a.avi" (blank "h264") [] 1700000000)
    !! "/v/a.avi"%string
  = Some TranscodeScenario.produced.
Proof.
  destruct (successful_processing_installs_output ReplaceScenario.all_fine
              TranscodeScenario.processor TranscodeScenario.library "/v/a.avi"
              (blank "h264") [] 1700000000 ltac:(discriminate) eq_refl)
    as (tool & stderr & written & produced & _ & Hrun & Hout & Hp & _).
  rewrite Hp. rewrite <- Hout.
  injection Hrun as _ <-. reflexivity.
Defined.

Lemma error_result_keeps_original_witness :
  snd (execute_in_context ReplaceScenario.tool_fails TranscodeScenario.processor
         TranscodeScenario.library "/v/a.avi" (blank "h264") [] 1700000000)
    !! "/v/a.avi"%string
  = Some TranscodeScenario.original.
Proof.
  rewrite (error_result_keeps_original ReplaceScenario.tool_fails
             TranscodeScenario.processor TranscodeScenario.library "/v/a.avi"
             (blank "h264") [] 1700000000 eq_refl ltac:(discriminate) eq_refl).
  reflexivity.
Defined.

End ProcessorExtra.

(** ** Settings that cannot be read *)

Module ConfigProps.
Import Config.

Lemma module_paths_truthy config section tool paths :
  module_paths config section tool = Some (Some paths) -> truthy paths = true.
Proof.
  unfold module_paths.
  destruct (Dict.get section config) as [sec|]; [|discriminate].
  destruct (py_in tool sec) as [[]|]; try discriminate.
  destruct sec; try discriminate.
  destruct (Dict.get tool d) as [entry|]; [|discriminate].
  destruct (py_get entry "executable_paths" (JList [])) as [v|]; [|discriminate].
  destruct (truthy v) eqn:Hv; [|discriminate]. now intros [= <-].
Qed.

Lemma get_ffmpeg_paths_truthy config base paths :
  truthy base = true ->
  get_ffmpeg_paths config base = Some paths -> truthy paths = true.
Proof.
  intros Hbase. unfold get_ffmpeg_paths.
  assert (Hfall : match module_paths config "video_processor" "ffmpeg" with
                  | None => None
                  | Some (Some p) => Some p
                  | Some None =>
                      match module_paths config "video_analyzer" "ffprobe" with
                      | None => None
                      | Some (Some p) => Some p
                      | Some None => Some base
                      end
                  end = Some paths -> truthy paths = true).
  { destruct (module_paths config "video_processor" "ffmpeg") as [[p|]|] eqn:H1;
      [intros [= <-]; eapply module_paths_truthy; eauto| |discriminate].
    destruct (module_paths config "video_analyzer" "ffprobe") as [[p|]|] eqn:H2;
      [intros [= <-]; eapply module_paths_truthy; eauto| |discriminate].
    now intros [= <-]. }
  destruct (Dict.get "ffmpeg_global" config) as [g|]; [|exact Hfall].
  destruct (py_get g "executable_paths" (JList [])) as [v|]; [|discriminate].
  destruct (truthy v) eqn:Hv; [|exact Hfall]. now intros [= <-].
Qed.

(** X29. In the sections video_processor and video_analyzer no setting
    whose path contains [ffmpeg] can be read: [get] answers such a path
    with the executable paths of [get_ffmpeg_paths], a truthy value that is
    neither the configured setting nor the default.  So the reads of
    [ffmpeg.preset] and [ffmpeg.crf_quality] return that list, and so does
    [get_global_timeout('processing')] when [timeouts_global] gives no
    processing timeout. *)
Theorem ffmpeg_settings_cannot_be_read config base paths section path default :
  truthy base = true ->
  get_ffmpeg_paths config base = Some paths ->
  In section ["video_processor"; "video_analyzer"]%string ->
  contains "ffmpeg" path = true ->
  get config base section (Some path) default = paths
  /\ truthy paths = true
  /\ get config base "video_processor" (Some "ffmpeg.preset"%string) default = paths
  /\ get config base "video_processor" (Some "ffmpeg.crf_quality"%string) default = paths
  /\ (Dict.get "timeouts_global" config = None ->
      get_global_timeout config base "processing" default = Some paths).
Proof.
  intros Hbase Hpaths Hsec Hpath.
  assert (Hany : forall p d, p <> ""%string -> contains "ffmpeg" p = true ->
            get config base "video_processor" (Some p) d = paths).
  { intros p d Hne Hp. unfold get. rewrite Hp, Hpaths, orb_true_r.
    apply String.eqb_neq in Hne. now rewrite Hne. }
  split; [|split; [|split; [|split]]].
  - assert (Hne : path <> ""%string) by (intros ->; discriminate).
    apply String.eqb_neq in Hne.
    unfold get. rewrite Hpath, Hpaths, orb_true_r, Hne.
    destruct Hsec as [<-|[<-|[]]]; reflexivity.
  - now apply (get_ffmpeg_paths_truthy config base).
  - apply Hany; [discriminate|reflexivity].
  - apply Hany; [discriminate|reflexivity].
  - intros Hnone. unfold get_global_timeout. rewrite Hnone.
    cbn [String.eqb Ascii.eqb Bool.eqb]. f_equal.
    apply Hany; [discriminate|reflexivity].
Qed.

Lemma ffmpeg_settings_cannot_be_read_witness :
  get tuned ffmpeg_base_paths "video_processor" (Some "ffmpeg.preset"%string) (JStr "medium")
  = ffmpeg_base_paths
  /\ get tuned ffmpeg_base_paths "video_processor"
       (Some "safety.verify_output_size"%string) (JBool true)
     = JBool false
  /\ get_global_timeout tuned ffmpeg_base_paths "processing" (JNum 600)
     = Some ffmpeg_base_paths.
Proof.
  destruct (ffmpeg_settings_cannot_be_read tuned ffmpeg_base_paths ffmpeg_base_paths
              "video_processor" "ffmpeg.preset" (JStr "medium")
              eq_refl eq_refl ltac:(now left) eq_refl) as (H1 & _ & _ & _ & _).
  destruct (ffmpeg_settings_cannot_be_read tuned ffmpeg_base_paths ffmpeg_base_paths
              "video_processor" "ffmpeg.preset" (JNum 600)
              eq_refl eq_refl ltac:(now left) eq_refl) as (_ & _ & _ & _ & H5).
  split; [exact H1|]. split; [reflexivity|]. exact (H5 eq_refl).
Defined.

End ConfigProps.
